(** * AI Feedback Analyzer: a shallow embedding of the backend and its properties

    The development follows the layout of [backend/app]:
    - [PyStr]       Python [str] values as sequences of code points, with
                    [str.strip], [len] and slicing;
    - [Validators]  [app/utils/validators.py];
    - [Schemas]     the field validators of [app/models/schemas.py];
    - [AIService]   [app/services/ai_service.py];
    - [Storage]     the SQLAlchemy session as explicit state;
    - [Feedback]    [app/routers/feedback.py] and
                    [app/services/feedback_service.py];
    - [Analytics]   [app/routers/analytics.py] and
                    [app/services/analytics_service.py]. *)

From Stdlib Require Import ZArith NArith QArith Qround String Ascii Lia.
From Stdlib Require Import DecimalString.
From stdpp Require Import base option list gmap strings sorting.

Local Open Scope Z_scope.
Set Warnings "-clear-no-such-hyp,-register-all".

(** ** Results of fallible code *)

Inductive result (E A : Type) : Type :=
| Ok (a : A)
| Err (e : E).
Arguments Ok {E A} a.
Arguments Err {E A} e.

Definition is_ok {E A} (r : result E A) : bool :=
  match r with Ok _ => true | Err _ => false end.

Definition bind_result {E A B} (r : result E A) (k : A -> result E B) : result E B :=
  match r with Ok a => k a | Err e => Err e end.

(** ** Python strings *)

Module PyStr.

(** A Python [str] is a sequence of Unicode code points. *)
Abbreviation str := (list N).

(** String literals of the source, written with ASCII characters. *)
Definition py (s : string) : str :=
  (fun a => N_of_ascii a) <$> list_ascii_of_string s.

(** [len(s)] *)
Definition len (s : str) : Z := Z.of_nat (length s).

(** [s[:n]] for a non-negative [n] *)
Definition slice_to (n : Z) (s : str) : str := take (Z.to_nat n) s.

(** [str.isspace] on one code point: the table of CPython's
    [_PyUnicode_IsWhitespace], which is also what [\s] means in a [str]
    pattern of the [re] module. *)
Definition isspace (c : N) : bool :=
  (((9 <=? c) && (c <=? 13)) || ((28 <=? c) && (c <=? 32))
   || (c =? 133) || (c =? 160) || (c =? 5760)
   || ((8192 <=? c) && (c <=? 8202))
   || (c =? 8232) || (c =? 8233) || (c =? 8239) || (c =? 8287)
   || (c =? 12288))%N.

Fixpoint lstrip (s : str) : str :=
  match s with
  | [] => []
  | c :: s' => if isspace c then lstrip s' else s
  end.

Definition rstrip (s : str) : str := reverse (lstrip (reverse s)).

(** [s.strip()] *)
Definition strip (s : str) : str := rstrip (lstrip s).

(** Truthiness of a string: [if s:] *)
Definition truthy (s : str) : bool :=
  match s with [] => false | _ => true end.

(** [needle in s] for strings *)
Fixpoint is_prefix (p s : str) : bool :=
  match p, s with
  | [], _ => true
  | _ :: _, [] => false
  | a :: p', b :: s' => (a =? b)%N && is_prefix p' s'
  end.

Fixpoint contains (needle s : str) : bool :=
  is_prefix needle s ||
  match s with
  | [] => false
  | _ :: s' => contains needle s'
  end.

(** The simple lower-case mapping of the code points below U+0100 (ASCII
    and the Latin-1 supplement).  [str.lower] consults the Unicode database
    for the other code points; the functions below that call [lower()] take
    the mapping as an argument, and this one instantiates it on concrete
    inputs. *)
Definition lower_char (c : N) : N :=
  (if ((65 <=? c) && (c <=? 90))
      || ((192 <=? c) && (c <=? 222) && negb (c =? 215))
   then c + 32 else c)%N.

Definition lower_latin1 (s : str) : str := lower_char <$> s.

(** Strings without leading, respectively trailing, white space. *)
Definition clean_l (s : str) : Prop :=
  match s with [] => True | c :: _ => isspace c = false end.

Definition stripped (s : str) : Prop := strip s = s.

Lemma lstrip_clean_l s : clean_l (lstrip s).
Proof.
  induction s as [|c s IH]; simpl; [done|].
  destruct (isspace c) eqn:E; [done|]. simpl. done.
Qed.

Lemma lstrip_id s : clean_l s -> lstrip s = s.
Proof. destruct s as [|c s]; simpl; [done|]. by intros ->. Qed.

Lemma lstrip_idemp s : lstrip (lstrip s) = lstrip s.
Proof. apply lstrip_id, lstrip_clean_l. Qed.

Lemma lstrip_suffix s : exists p, s = p ++ lstrip s /\ forallb isspace p = true.
Proof.
  induction s as [|c s (p & Hs & Hp)]; simpl.
  - by exists [].
  - destruct (isspace c) eqn:E.
    + exists (c :: p). simpl. rewrite E, Hp. split; [by f_equal|done].
    + by exists [].
Qed.

Lemma lstrip_snoc a c : isspace c = false -> lstrip (a ++ [c]) = lstrip a ++ [c].
Proof.
  intros Hc. induction a as [|x a IH]; simpl.
  - by rewrite Hc.
  - by destruct (isspace x).
Qed.

Lemma rstrip_idemp s : rstrip (rstrip s) = rstrip s.
Proof.
  unfold rstrip. by rewrite reverse_involutive, lstrip_idemp.
Qed.

Lemma rstrip_clean_l s : clean_l s -> clean_l (rstrip s).
Proof.
  destruct s as [|c s]; [done|]. simpl. intros Hc.
  unfold rstrip. rewrite reverse_cons, (lstrip_snoc _ _ Hc).
  by rewrite reverse_app.
Qed.

Lemma strip_idemp s : strip (strip s) = strip s.
Proof.
  unfold strip.
  rewrite (lstrip_id (rstrip (lstrip s))).
  - apply rstrip_idemp.
  - apply rstrip_clean_l, lstrip_clean_l.
Qed.

Lemma lstrip_length s : (length (lstrip s) <= length s)%nat.
Proof.
  induction s as [|c s IH]; simpl; [lia|].
  destruct (isspace c); simpl; lia.
Qed.

Lemma strip_length s : (length (strip s) <= length s)%nat.
Proof.
  unfold strip, rstrip. rewrite length_reverse.
  etrans; [apply lstrip_length|]. rewrite length_reverse. apply lstrip_length.
Qed.

Lemma len_strip_le s : len (strip s) <= len s.
Proof. unfold len. pose proof (strip_length s). lia. Qed.

Lemma len_nonneg s : 0 <= len s.
Proof. unfold len. lia. Qed.

Lemma len_zero_iff s : len s = 0 <-> s = [].
Proof. unfold len. destruct s; simpl; split; (done || lia). Qed.

Lemma lstrip_all_space s : forallb isspace s = true -> lstrip s = [].
Proof.
  induction s as [|c s IH]; simpl; [done|].
  destruct (isspace c); simpl; [done|discriminate].
Qed.

Lemma lstrip_nil_inv s : lstrip s = [] -> forallb isspace s = true.
Proof.
  induction s as [|c s IH]; simpl; [done|].
  destruct (isspace c) eqn:E; simpl; [done|discriminate].
Qed.

Lemma forallb_reverse {A} (f : A -> bool) (l : list A) :
  forallb f (reverse l) = forallb f l.
Proof.
  induction l as [|x l IH]; [done|].
  rewrite reverse_cons, forallb_app, IH. simpl.
  rewrite andb_true_r. apply andb_comm.
Qed.

(** [s.strip()] is empty exactly for the strings made of white space only
    (the empty string among them). *)
Lemma strip_nil_iff s : strip s = [] <-> forallb isspace s = true.
Proof.
  unfold strip, rstrip. split.
  - intros H. apply (f_equal reverse) in H.
    rewrite reverse_involutive in H. change (reverse []) with (@nil N) in H.
    apply lstrip_nil_inv in H. rewrite forallb_reverse in H.
    destruct (lstrip_suffix s) as (p & Hs & Hp).
    rewrite Hs, forallb_app, Hp. exact H.
  - intros H. by rewrite (lstrip_all_space _ H).
Qed.

End PyStr.
Export PyStr.

(** ** Python values that may sit in a JSON list *)

Inductive pyval : Type :=
| VNone
| VBool (b : bool)
| VInt (z : Z)
| VStr (s : str).

(** ** [app/utils/validators.py] *)

Module Validators.

(** [re.sub(r'\s+', ' ', s)]: every maximal run of white space becomes one
    space; [in_run] tells that the previous code point was white space. *)
Fixpoint sub_ws (in_run : bool) (s : str) : str :=
  match s with
  | [] => []
  | c :: s' =>
      if isspace c
      then (if in_run then sub_ws true s' else 32%N :: sub_ws true s')
      else c :: sub_ws false s'
  end.

(** [validate_feedback_text]; [Err] carries the message of the
    [ValueError]. *)
Definition validate_feedback_text (text : str) : result str str :=
  if negb (truthy text) || negb (truthy (strip text))
  then Err (py "Feedback text cannot be empty")
  else
    let cleaned_text := strip text in
    if 5000 <? len cleaned_text
    then Err (py "Feedback text cannot exceed 5000 characters")
    else Ok (sub_ws false cleaned_text).

(** [validate_pagination] *)
Definition validate_pagination (page page_size : Z) : Z * Z :=
  let page := if page <? 1 then 1 else page in
  let page_size :=
    if page_size <? 1 then 20
    else if 100 <? page_size then 100
    else page_size in
  (page, page_size).

Section WithLower.

(** [str.lower], see [PyStr.lower_latin1]. *)
Variable lower : str -> str.

(** Body of the first loop of [validate_tags]. *)
Definition clean_step (cleaned_tags : list str) (tag : pyval) : list str :=
  match tag with
  | VStr s =>
      let cleaned_tag := strip s in
      if truthy cleaned_tag && (len cleaned_tag <=? 50)
      then cleaned_tags ++ [cleaned_tag]
      else cleaned_tags
  | _ => cleaned_tags
  end.

(** Body of the second loop: the state is [(seen, unique_tags)]. *)
Definition unique_step (st : gset str * list str) (tag : str)
  : gset str * list str :=
  if decide (lower tag ∈ st.1)
  then st
  else ({[lower tag]} ∪ st.1, st.2 ++ [tag]).

(** [validate_tags] *)
Definition validate_tags (tags : option (list pyval)) : list str :=
  match tags with
  | None => []
  | Some [] => []
  | Some tags =>
      let cleaned_tags := foldl clean_step [] tags in
      let unique_tags := (foldl unique_step (∅, []) cleaned_tags).2 in
      take 10 unique_tags
  end.

(** [validate_sentiment] *)
Definition valid_sentiments : list str :=
  [py "positive"; py "neutral"; py "negative"].

Definition validate_sentiment (sentiment : option str) : option str :=
  match sentiment with
  | None => None
  | Some s =>
      if negb (truthy s) then None
      else if bool_decide (lower s ∈ valid_sentiments) then Some (lower s)
      else None
  end.

(** *** The tag cleaner as the specification words it *)

(** The entries that are strings. *)
Definition strings_of (tags : list pyval) : list str :=
  omap (fun v => match v with VStr s => Some s | _ => None end) tags.

(** Two tags are the same up to case when their lower-case forms agree. *)
Definition same_ci (a b : str) : Prop := lower a = lower b.

(** Keep the entry at index [i] unless an earlier entry (or one of
    [earlier]) is the same up to case. *)
Definition keep_first_seen_from (earlier l : list str) : list str :=
  omap id
    (imap (fun (i : nat) (x : str) =>
             if decide (lower x ∈ lower <$> (earlier ++ take i l))
             then None else Some x)
          l).

Definition keep_first_seen (l : list str) : list str :=
  keep_first_seen_from [] l.

Definition clean_tags_spec (tags : list pyval) : list str :=
  let strings := strings_of tags in
  let trimmed := strip <$> strings in
  let non_empty := filter (fun t => t <> []) trimmed in
  let short := filter (fun t => len t <= 50) non_empty in
  take 10 (keep_first_seen short).

(** What every cleaned tag satisfies. *)
Definition tag_ok (t : str) : Prop :=
  strip t = t /\ t <> [] /\ len t <= 50.

End WithLower.

End Validators.

(** *** Properties of [app/utils/validators.py] *)

Module ValidatorsFacts.
Import Validators.

Section Tags.

Variable lower : str -> str.

(** The strings the first loop keeps. *)
Definition cleaned (tags : list pyval) : list str :=
  filter (fun t => len t <= 50)
         (filter (fun t => t <> []) (strip <$> strings_of tags)).

Lemma truthy_true_iff (s : str) : truthy s = true <-> s <> [].
Proof. by destruct s. Qed.

Lemma clean_loop acc tags :
  foldl clean_step acc tags = acc ++ cleaned tags.
Proof.
  revert acc. induction tags as [|v tags IH]; intros acc; simpl.
  - by rewrite app_nil_r.
  - rewrite IH. unfold cleaned, strings_of, clean_step.
    destruct v as [| | |s]; simpl; try done.
    rewrite !filter_cons.
    destruct (decide (strip s <> [])) as [Hne|He].
    + rewrite (proj2 (truthy_true_iff _) Hne). simpl.
      rewrite filter_cons.
      destruct (decide (len (strip s) <= 50)) as [Hl|Hl].
      * apply Z.leb_le in Hl. rewrite Hl. by rewrite <- app_assoc.
      * apply Z.leb_nle in Hl. by rewrite Hl.
    + destruct (strip s); [done|]. exfalso. by apply He.
Qed.

Lemma cleaned_ok tags : Forall tag_ok (cleaned tags).
Proof.
  unfold cleaned. apply Forall_forall. intros t Ht.
  apply list_elem_of_filter in Ht as [Hlen Ht].
  apply list_elem_of_filter in Ht as [Hne Ht].
  apply list_elem_of_fmap in Ht as (s & -> & _).
  split; [apply strip_idemp|done].
Qed.

Lemma cleaned_from_input tags t :
  t ∈ cleaned tags -> exists s, VStr s ∈ tags /\ t = strip s.
Proof.
  unfold cleaned. intros Ht.
  apply list_elem_of_filter in Ht as [_ Ht].
  apply list_elem_of_filter in Ht as [_ Ht].
  apply list_elem_of_fmap in Ht as (s & -> & Hs).
  exists s. split; [|done].
  unfold strings_of in Hs. apply list_elem_of_omap in Hs as (v & Hv & Hvs).
  destruct v; try discriminate. by injection Hvs as ->.
Qed.

Lemma keep_first_seen_from_cons earlier x l :
  keep_first_seen_from lower earlier (x :: l) =
  (if decide (lower x ∈ lower <$> earlier) then [] else [x])
    ++ keep_first_seen_from lower (earlier ++ [x]) l.
Proof.
  unfold keep_first_seen_from. rewrite imap_cons. simpl.
  rewrite app_nil_r.
  assert (imap ((fun (i : nat) (y : str) =>
                   if decide (lower y ∈ lower <$> (earlier ++ take i (x :: l)))
                   then None else Some y) ∘ S) l
          = imap (fun (i : nat) (y : str) =>
                    if decide (lower y ∈ lower <$> ((earlier ++ [x]) ++ take i l))
                    then None else Some y) l) as ->.
  { apply imap_ext. intros i y _. simpl. by rewrite <- app_assoc. }
  by destruct (decide (lower x ∈ lower <$> earlier)).
Qed.

Lemma keys_snoc (earlier : list str) (x : str) :
  list_to_set (C:=gset str) (lower <$> (earlier ++ [x]))
  = {[lower x]} ∪ list_to_set (lower <$> earlier).
Proof. rewrite fmap_app, list_to_set_app_L. simpl. set_solver. Qed.

Lemma unique_loop l : forall earlier acc,
  (foldl (unique_step lower) (list_to_set (lower <$> earlier), acc) l).2
  = acc ++ keep_first_seen_from lower earlier l.
Proof.
  induction l as [|x l IH]; intros earlier acc; simpl.
  - by rewrite app_nil_r.
  - rewrite keep_first_seen_from_cons. unfold unique_step at 2. simpl.
    destruct (decide (lower x ∈ list_to_set (C:=gset str) (lower <$> earlier)))
      as [Hin|Hout].
    + rewrite decide_True by (by apply elem_of_list_to_set in Hin).
      replace (list_to_set (C:=gset str) (lower <$> earlier))
        with (list_to_set (C:=gset str) (lower <$> (earlier ++ [x])))
        by (rewrite keys_snoc; set_solver).
      by rewrite IH.
    + rewrite decide_False by (by rewrite <- (elem_of_list_to_set (C:=gset str))).
      rewrite <- keys_snoc, IH. by rewrite <- app_assoc.
Qed.

Lemma keep_sublist l : forall earlier,
  keep_first_seen_from lower earlier l `sublist_of` l.
Proof.
  induction l as [|x l IH]; intros earlier.
  - done.
  - rewrite keep_first_seen_from_cons.
    destruct (decide _); simpl.
    + by apply sublist_cons.
    + by apply sublist_skip.
Qed.

Lemma keep_fresh l : forall earlier x,
  x ∈ keep_first_seen_from lower earlier l -> lower x ∉ lower <$> earlier.
Proof.
  induction l as [|y l IH]; intros earlier x.
  - unfold keep_first_seen_from. simpl. by intros ?%elem_of_nil.
  - rewrite keep_first_seen_from_cons. intros [Hx|Hx]%elem_of_app.
    + destruct (decide _) as [|Hn]; [by apply elem_of_nil in Hx|].
      apply list_elem_of_singleton in Hx. by subst.
    + apply IH in Hx. rewrite fmap_app in Hx. set_solver.
Qed.

Lemma keep_NoDup l : forall earlier,
  NoDup (lower <$> keep_first_seen_from lower earlier l).
Proof.
  induction l as [|y l IH]; intros earlier.
  - unfold keep_first_seen_from. simpl. constructor.
  - rewrite keep_first_seen_from_cons.
    destruct (decide _) as [|Hn]; simpl; [apply IH|].
    constructor; [|apply IH].
    intros (z & Hz & Hin)%list_elem_of_fmap.
    apply keep_fresh in Hin. apply Hin. rewrite <- Hz, fmap_app. set_solver.
Qed.

(** No class of tags is lost: each entry is the same up to case as an
    earlier one or as a kept one. *)
Lemma keep_covers l : forall earlier x,
  x ∈ l -> lower x ∈ lower <$> (earlier ++ keep_first_seen_from lower earlier l).
Proof.
  induction l as [|y l IH]; intros earlier x Hx.
  - by apply elem_of_nil in Hx.
  - rewrite keep_first_seen_from_cons.
    apply elem_of_cons in Hx as [->|Hx].
    + destruct (decide _) as [Hin|Hn]; rewrite !fmap_app; simpl.
      * apply elem_of_app. by left.
      * apply elem_of_app. right. by left.
    + specialize (IH (earlier ++ [y]) x Hx).
      rewrite !fmap_app in IH. simpl in IH. rewrite !fmap_app.
      apply elem_of_app in IH as [IH|IH];
        [apply elem_of_app in IH as [IH|IH]|].
      * apply elem_of_app. by left.
      * apply list_elem_of_singleton in IH. rewrite IH.
        destruct (decide _) as [Hin|Hn]; simpl.
        -- apply elem_of_app. by left.
        -- apply elem_of_app. right. by left.
      * apply elem_of_app. right. apply elem_of_app. by right.
Qed.

Lemma keep_id l : forall earlier,
  NoDup (lower <$> l) ->
  (forall x, x ∈ l -> lower x ∉ lower <$> earlier) ->
  keep_first_seen_from lower earlier l = l.
Proof.
  induction l as [|y l IH]; intros earlier Hnd Hfresh.
  - done.
  - rewrite keep_first_seen_from_cons.
    rewrite fmap_cons in Hnd. apply NoDup_cons in Hnd as [Hy Hnd].
    rewrite decide_False by (apply Hfresh; set_solver). simpl. f_equal.
    apply IH; [done|]. intros x Hx. rewrite fmap_app.
    intros [Hin|Hin]%elem_of_app.
    + by apply (Hfresh x); [set_solver|].
    + simpl in Hin. apply list_elem_of_singleton in Hin.
      apply Hy. rewrite <- Hin. by apply list_elem_of_fmap_2.
Qed.

(** The code computes what the specification words say. *)
Lemma validate_tags_refines tags :
  validate_tags lower (Some tags) = clean_tags_spec lower tags.
Proof.
  unfold validate_tags, clean_tags_spec, keep_first_seen.
  destruct tags as [|v tags]; [done|].
  rewrite clean_loop.
  change (∅ : gset str) with (list_to_set (C:=gset str) (lower <$> [])).
  rewrite unique_loop. done.
Qed.

Lemma validate_tags_length tags : (length (validate_tags lower tags) <= 10)%nat.
Proof.
  destruct tags as [tags|]; [|simpl; lia].
  rewrite validate_tags_refines. unfold clean_tags_spec.
  rewrite length_take. lia.
Qed.

Lemma validate_tags_sublist tags :
  validate_tags lower (Some tags) `sublist_of` cleaned tags.
Proof.
  rewrite validate_tags_refines. unfold clean_tags_spec.
  etrans; [apply sublist_take|]. apply keep_sublist.
Qed.

Lemma validate_tags_ok tags : Forall tag_ok (validate_tags lower tags).
Proof.
  destruct tags as [tags|]; [|constructor].
  apply Forall_forall. intros t Ht.
  eapply elem_of_sublist in Ht; [|apply validate_tags_sublist].
  revert t Ht. apply Forall_forall, cleaned_ok.
Qed.

Lemma validate_tags_NoDup tags : NoDup (lower <$> validate_tags lower tags).
Proof.
  destruct tags as [tags|]; [|constructor].
  rewrite validate_tags_refines. unfold clean_tags_spec, keep_first_seen.
  rewrite fmap_take. eapply sublist_NoDup; [apply keep_NoDup|apply sublist_take].
Qed.

(** A list of cleaned tags, distinct up to case and of length at most 10,
    is a fixed point of the cleaner. *)
Lemma validate_tags_fixed (l : list str) :
  Forall tag_ok l -> NoDup (lower <$> l) -> (length l <= 10)%nat ->
  validate_tags lower (Some (VStr <$> l)) = l.
Proof.
  intros Hok Hnd Hlen. rewrite validate_tags_refines.
  unfold clean_tags_spec, keep_first_seen.
  assert (strings_of (VStr <$> l) = l) as ->.
  { unfold strings_of. clear. induction l; simpl; by f_equal. }
  assert (strip <$> l = l) as ->.
  { clear -Hok. induction Hok as [|x l [Hx _] _ IH]; [done|].
    by rewrite fmap_cons, Hx, IH. }
  assert (filter (fun t : str => t <> []) l = l) as ->.
  { clear -Hok. induction Hok as [|x l (_ & Hx & _) _ IH]; [done|].
    by rewrite filter_cons_True, IH. }
  assert (filter (fun t : str => len t <= 50) l = l) as ->.
  { clear -Hok. induction Hok as [|x l (_ & _ & Hx) _ IH]; [done|].
    by rewrite filter_cons_True, IH. }
  rewrite keep_id; [by apply take_ge|done|].
  intros x _. simpl. apply not_elem_of_nil.
Qed.

End Tags.
End ValidatorsFacts.

Module ValidatorsClaims.
Import Validators ValidatorsFacts.

(** C2. For every input list the tag cleaner of the validation utilities
    computes what the specification describes: the non-string entries are
    dropped, each string is trimmed, the empty ones and those longer than 50
    characters are dropped, of the tags that agree up to case only the first
    seen is kept, in the order of the input, and the result is cut to at most
    10 tags.  Hence the result has at most 10 entries, no two of them agree up
    to case, each is the trimmed form of a string of the input, non-empty and
    of at most 50 characters, and the result is a subsequence of the cleaned
    input.  [None] gives the empty list, and
    [validate_tags(["a", "A", "b", "b"]) = ["a", "b"]]. *)
Theorem validate_tags_cleans :
  (forall (lower : str -> str) (tags : list pyval),
      let out := validate_tags lower (Some tags) in
      out = clean_tags_spec lower tags
      /\ (length out <= 10)%nat
      /\ NoDup (lower <$> out)
      /\ Forall tag_ok out
      /\ (forall t, t ∈ out -> exists s, VStr s ∈ tags /\ t = strip s)
      /\ out `sublist_of` cleaned tags)
  /\ (forall lower, validate_tags lower None = [])
  /\ validate_tags lower_latin1
       (Some [VStr (py "a"); VStr (py "A"); VStr (py "b"); VStr (py "b")])
     = [py "a"; py "b"].
Proof.
  split; [|split; [done|by vm_compute]].
  intros lower tags out. subst out.
  split; [apply validate_tags_refines|].
  split; [apply validate_tags_length|].
  split; [apply validate_tags_NoDup|].
  split; [apply validate_tags_ok|].
  split; [|apply validate_tags_sublist].
  intros t Ht. apply cleaned_from_input.
  eapply elem_of_sublist; [exact Ht|apply validate_tags_sublist].
Qed.

(** C3. For every pair of integers, [validate_pagination] returns the page
    unchanged when it is at least 1 and 1 otherwise, and the page size
    unchanged when it lies in 1..100, 20 when it is below 1 and 100 when it is
    above 100; so page 0 behaves as page 1, page size 0 as 20 and page size
    500 as 100. *)
Theorem validate_pagination_clamps :
  (forall page page_size : Z,
      (validate_pagination page page_size).1
      = (if decide (1 <= page) then page else 1)
      /\ (validate_pagination page page_size).2
         = (if decide (page_size < 1) then 20
            else if decide (100 < page_size) then 100
            else page_size))
  /\ (forall page_size, validate_pagination 0 page_size
                        = validate_pagination 1 page_size)
  /\ (forall page, validate_pagination page 0 = validate_pagination page 20)
  /\ (forall page, validate_pagination page 500 = validate_pagination page 100).
Proof.
  split; [|by repeat split].
  intros page page_size. unfold validate_pagination. simpl. split.
  - destruct (Z.ltb_spec page 1); case_decide; lia.
  - destruct (Z.ltb_spec page_size 1); [by rewrite decide_True|].
    rewrite decide_False by lia.
    destruct (Z.ltb_spec 100 page_size); case_decide; lia.
Qed.

(** C10. The tag cleaner is idempotent: cleaning the list it returned gives
    that list again, because each returned tag is already trimmed, non-empty
    and of at most 50 characters, no two returned tags agree up to case, and
    at most 10 tags are returned. *)
Theorem validate_tags_idempotent :
  forall (lower : str -> str) (l : option (list pyval)),
    let out := validate_tags lower l in
    validate_tags lower (Some (VStr <$> out)) = out
    /\ Forall (fun t => strip t = t /\ t <> [] /\ len t <= 50) out
    /\ NoDup (lower <$> out)
    /\ (length out <= 10)%nat.
Proof.
  intros lower l out. subst out.
  pose proof (validate_tags_ok lower l) as Hok.
  pose proof (validate_tags_NoDup lower l) as Hnd.
  pose proof (validate_tags_length lower l) as Hlen.
  split; [by apply validate_tags_fixed|done].
Qed.

End ValidatorsClaims.

(** ** Exceptions: [app/utils/exceptions.py] and the others that reach the
    handlers *)

Inductive exn : Type :=
| AIServiceError (message : str)
| ValidationError (message : str)
| NotFoundError (message : str)
| RateLimitError (message : str)
| HTTPException (status_code : Z) (detail : str)
| OtherException (text : str).

(** [str(e)] for the exceptions whose text the code reads. *)
Definition exn_str (e : exn) : str :=
  match e with
  | AIServiceError m | ValidationError m | NotFoundError m
  | RateLimitError m => m
  | HTTPException _ d => d
  | OtherException t => t
  end.

(** [isinstance(e, AIServiceError)] *)
Definition is_AIServiceError (e : exn) : bool :=
  match e with AIServiceError _ => true | _ => false end.

(** [isinstance(e, APIError)] and the [status_code] the subclass sets. *)
Definition api_status_code (e : exn) : option Z :=
  match e with
  | AIServiceError _ => Some 503
  | ValidationError _ => Some 422
  | NotFoundError _ => Some 404
  | RateLimitError _ => Some 429
  | HTTPException _ _ | OtherException _ => None
  end.

(** ** The [re] patterns of the source

    A backtracking matcher for the constructs the two patterns of
    [ai_service.py] use: literals, single-character classes ([.] under
    [re.DOTALL], [\s], one character), greedy and lazy [*] over a class, the
    optional group [(?:r)?], concatenation, and one capture group. *)

Module Re.

Inductive cls : Type :=
| CChar (c : N)
| CAny
| CSpace.

Inductive re : Type :=
| Lit (l : str)
| Cls (c : cls)
| Star (greedy : bool) (c : cls)
| Opt (r : re)
| Seq (r1 r2 : re)
| Group (r : re).

Definition cls_match (c : cls) (x : N) : bool :=
  match c with
  | CChar y => (x =? y)%N
  | CAny => true
  | CSpace => isspace x
  end.

(** [first a b]: the alternative tried first wins. *)
Definition first {X} (a b : option X) : option X :=
  match a with Some x => Some x | None => b end.

(** [c*] (greedy: the longest repetition is tried first) and [c*?] (lazy:
    the shortest first), followed by the continuation [k]. *)
Fixpoint star {X} (greedy : bool) (c : cls) (s : str)
    (k : str -> option X) : option X :=
  match s with
  | x :: s' =>
      if cls_match c x
      then (if greedy then first (star greedy c s' k) (k s)
            else first (k s) (star greedy c s' k))
      else k s
  | [] => k s
  end.

(** [m r s cap k]: match [r] at the start of [s], then continue with [k] on
    the rest of the subject and the text of group 1. *)
Fixpoint m {X} (r : re) (s : str) (cap : option str)
    (k : str -> option str -> option X) : option X :=
  match r with
  | Lit l => if is_prefix l s then k (drop (length l) s) cap else None
  | Cls c =>
      match s with
      | x :: s' => if cls_match c x then k s' cap else None
      | [] => None
      end
  | Star greedy c => star greedy c s (fun s' => k s' cap)
  | Opt r' => first (m r' s cap k) (k s cap)
  | Seq r1 r2 => m r1 s cap (fun s' cap' => m r2 s' cap' k)
  | Group r' =>
      m r' s cap (fun s' _ => k s' (Some (take (length s - length s') s)))
  end.

(** A match object: [group()] and [group(1)]. *)
Record match_obj : Type := MatchObj {
  group0 : str;
  group1 : option str
}.

Definition match_at (r : re) (s : str) : option match_obj :=
  m r s None
    (fun s' cap => Some (MatchObj (take (length s - length s') s) cap)).

(** [re.search(r, s)]: the match at the leftmost position that has one. *)
Fixpoint search (r : re) (s : str) : option match_obj :=
  first (match_at r s)
        (match s with
         | [] => None
         | _ :: s' => search r s'
         end).

End Re.

(** ** JSON values and a decoder standing for [json.loads] *)

Module Json.

(** The members of an object are kept in insertion order, a repeated key
    keeping its place and taking the last value, as in a Python [dict];
    numbers are kept as their literal text. *)
Inductive json : Type :=
| JNull
| JBool (b : bool)
| JNumber (literal : str)
| JString (s : str)
| JArray (items : list json)
| JObject (members : list (str * json)).

Fixpoint dict_set (k : str) (v : json) (d : list (str * json))
  : list (str * json) :=
  match d with
  | [] => [(k, v)]
  | (k', v') :: d' =>
      if decide (k' = k) then (k, v) :: d' else (k', v') :: dict_set k v d'
  end.

Definition is_ws (c : N) : bool :=
  ((c =? 32) || (c =? 9) || (c =? 10) || (c =? 13))%N.

Fixpoint skip_ws (s : str) : str :=
  match s with
  | c :: s' => if is_ws c then skip_ws s' else s
  | [] => []
  end.

Definition is_digit (c : N) : bool := ((48 <=? c) && (c <=? 57))%N.

Fixpoint span_digits (s : str) : str * str :=
  match s with
  | c :: s' =>
      if is_digit c
      then let '(d, r) := span_digits s' in (c :: d, r)
      else ([], s)
  | [] => ([], [])
  end.

Definition hexval (c : N) : option N :=
  (if is_digit c then Some (c - 48)
   else if (97 <=? c) && (c <=? 102) then Some (c - 87)
   else if (65 <=? c) && (c <=? 70) then Some (c - 55)
   else None)%N.

Definition hex4 (s : str) : option (N * str) :=
  match s with
  | a :: b :: c :: d :: rest =>
      match hexval a, hexval b, hexval c, hexval d with
      | Some a, Some b, Some c, Some d =>
          Some ((((a * 16 + b) * 16 + c) * 16 + d)%N, rest)
      | _, _, _, _ => None
      end
  | _ => None
  end.

(** The one-letter escapes: quote, backslash, slash, b, f, n, r, t. *)
Definition simple_escape (c : N) : option N :=
  (if c =? 34 then Some 34
   else if c =? 92 then Some 92
   else if c =? 47 then Some 47
   else if c =? 98 then Some 8
   else if c =? 102 then Some 12
   else if c =? 110 then Some 10
   else if c =? 114 then Some 13
   else if c =? 116 then Some 9
   else None)%N.

(** The text after an opening quote, up to the closing one. *)
Fixpoint scan_string (fuel : nat) (s acc : str) : option (str * str) :=
  match fuel with
  | O => None
  | S fuel =>
      match s with
      | [] => None
      | c :: rest =>
          if (c =? 34)%N then Some (reverse acc, rest)
          else if (c =? 92)%N then
            match rest with
            | [] => None
            | e :: rest' =>
                match simple_escape e with
                | Some x => scan_string fuel rest' (x :: acc)
                | None =>
                    if (e =? 117)%N then
                      match hex4 rest' with
                      | None => None
                      | Some (hi, rest2) =>
                          let single := scan_string fuel rest2 (hi :: acc) in
                          if ((55296 <=? hi) && (hi <=? 56319))%N then
                            match rest2 with
                            | 92%N :: 117%N :: rest3 =>
                                match hex4 rest3 with
                                | Some (lo, rest4) =>
                                    if ((56320 <=? lo) && (lo <=? 57343))%N
                                    then scan_string fuel rest4
                                           ((65536 + (hi - 55296) * 1024
                                             + (lo - 56320))%N :: acc)
                                    else single
                                | None => single
                                end
                            | _ => single
                            end
                          else single
                      end
                    else None
                end
            end
          else if (c <? 32)%N then None
          else scan_string fuel rest (c :: acc)
      end
  end.

(** A number: an optional minus sign, an integer part without leading
    zero, an optional fraction and an optional exponent. *)
Definition scan_number (s : str) : option (str * str) :=
  let '(sign, s1) :=
    match s with
    | 45%N :: r => ([45%N], r)
    | _ => ([], s)
    end in
  let int_part :=
    match s1 with
    | 48%N :: r => Some ([48%N], r)
    | c :: _ => if is_digit c then Some (span_digits s1) else None
    | [] => None
    end in
  match int_part with
  | None => None
  | Some (ds, s2) =>
      let '(frac, s3) :=
        match s2 with
        | 46%N :: r =>
            match span_digits r with
            | ([], _) => ([], s2)
            | (fd, r') => (46%N :: fd, r')
            end
        | _ => ([], s2)
        end in
      let '(exp, s4) :=
        match s3 with
        | e :: r =>
            if ((e =? 101) || (e =? 69))%N then
              let '(sg, r1) :=
                match r with
                | x :: r' =>
                    if ((x =? 43) || (x =? 45))%N then ([x], r') else ([], r)
                | [] => ([], r)
                end in
              match span_digits r1 with
              | ([], _) => ([], s3)
              | (ed, r2) => (e :: sg ++ ed, r2)
              end
            else ([], s3)
        | [] => ([], s3)
        end in
      Some (sign ++ ds ++ frac ++ exp, s4)
  end.

Definition literals : list (str * json) :=
  [ (py "null", JNull); (py "true", JBool true); (py "false", JBool false);
    (py "NaN", JNumber (py "NaN"));
    (py "Infinity", JNumber (py "Infinity"));
    (py "-Infinity", JNumber (py "-Infinity")) ].

Fixpoint scan_literal (ls : list (str * json)) (s : str)
  : option (json * str) :=
  match ls with
  | [] => None
  | (l, v) :: ls' =>
      if is_prefix l s then Some (v, drop (length l) s)
      else scan_literal ls' s
  end.

(** What decoding a text does: it returns a value, raises
    [json.JSONDecodeError], or raises another exception. *)
Inductive outcome (A : Type) : Type :=
| Decoded (a : A)
| JSONDecodeError
| Raised (e : exn).
Arguments Decoded {A} a.
Arguments JSONDecodeError {A}.
Arguments Raised {A} e.

Definition decimal (n : nat) : str :=
  py (NilEmpty.string_of_uint (Nat.to_uint n)).

(** The [ValueError] of [int] for a literal of more digits than
    [sys.get_int_max_str_digits()] allows. *)
Definition too_many_digits (limit digits : nat) : exn :=
  OtherException
    (py "Exceeds the limit (" ++ decimal limit
     ++ py " digits) for integer string conversion: value has "
     ++ decimal digits
     ++ py " digits; use sys.set_int_max_str_digits() to increase the limit").

(** The [RecursionError] of the scanner. *)
Definition too_deep (what : str) : exn :=
  OtherException
    (py "maximum recursion depth exceeded while decoding a JSON " ++ what
     ++ py " from a unicode string").

(** A number literal is converted with [int] when it has neither fraction
    nor exponent, with [float] otherwise. *)
Definition is_int_literal (lit : str) : bool :=
  forallb (fun c => is_digit c || (c =? 45)%N) lit.

Section Decoder.

(** [sys.get_int_max_str_digits()], where 0 is no limit (4300 unless the
    interpreter is configured otherwise), and the number of nested
    containers the interpreter lets the scanner enter before it raises
    [RecursionError]. *)
Variable int_max_str_digits : nat.
Variable recursion_limit : nat.

Definition number (lit rest : str) : outcome (json * str) :=
  let digits := length (filter (fun c => is_digit c = true) lit) in
  if is_int_literal lit
     && (0 <? int_max_str_digits)%nat && (int_max_str_digits <? digits)%nat
  then Raised (too_many_digits int_max_str_digits digits)
  else Decoded (JNumber lit, rest).

(** One value at the start of [s]; the rest of the text is returned.
    [depth] is the number of containers that may still be entered. *)
Fixpoint parse_value (fuel depth : nat) (s : str) : outcome (json * str) :=
  match fuel with
  | O => JSONDecodeError
  | S fuel =>
      match s with
      | [] => JSONDecodeError
      | c :: r =>
          if (c =? 34)%N then
            match scan_string (S (length r)) r [] with
            | Some (t, r') => Decoded (JString t, r')
            | None => JSONDecodeError
            end
          else if (c =? 123)%N then
            match depth with
            | O => Raised (too_deep (py "object"))
            | S depth =>
                match skip_ws r with
                | 125%N :: r' => Decoded (JObject [], r')
                | r' => parse_members fuel depth r' []
                end
            end
          else if (c =? 91)%N then
            match depth with
            | O => Raised (too_deep (py "array"))
            | S depth =>
                match skip_ws r with
                | 93%N :: r' => Decoded (JArray [], r')
                | r' => parse_items fuel depth r' []
                end
            end
          else
            match scan_literal literals s with
            | Some x => Decoded x
            | None =>
                match scan_number s with
                | Some (lit, r') => number lit r'
                | None => JSONDecodeError
                end
            end
      end
  end
with parse_members (fuel depth : nat) (s : str) (acc : list (str * json))
  : outcome (json * str) :=
  match fuel with
  | O => JSONDecodeError
  | S fuel =>
      match s with
      | 34%N :: r =>
          match scan_string (S (length r)) r [] with
          | None => JSONDecodeError
          | Some (key, r1) =>
              match skip_ws r1 with
              | 58%N :: r2 =>
                  match parse_value fuel depth (skip_ws r2) with
                  | JSONDecodeError => JSONDecodeError
                  | Raised e => Raised e
                  | Decoded (v, r3) =>
                      let acc' := dict_set key v acc in
                      match skip_ws r3 with
                      | 125%N :: r4 => Decoded (JObject acc', r4)
                      | 44%N :: r4 =>
                          parse_members fuel depth (skip_ws r4) acc'
                      | _ => JSONDecodeError
                      end
                  end
              | _ => JSONDecodeError
              end
          end
      | _ => JSONDecodeError
      end
  end
with parse_items (fuel depth : nat) (s : str) (acc : list json)
  : outcome (json * str) :=
  match fuel with
  | O => JSONDecodeError
  | S fuel =>
      match parse_value fuel depth s with
      | JSONDecodeError => JSONDecodeError
      | Raised e => Raised e
      | Decoded (v, r1) =>
          match skip_ws r1 with
          | 93%N :: r2 => Decoded (JArray (acc ++ [v]), r2)
          | 44%N :: r2 => parse_items fuel depth (skip_ws r2) (acc ++ [v])
          | _ => JSONDecodeError
          end
      end
  end.

(** [json.loads(s)] *)
Definition json_loads (s : str) : outcome json :=
  match parse_value (2 * length s + 2) recursion_limit (skip_ws s) with
  | Decoded (v, rest) =>
      match skip_ws rest with
      | [] => Decoded v
      | _ => JSONDecodeError
      end
  | JSONDecodeError => JSONDecodeError
  | Raised e => Raised e
  end.

End Decoder.

End Json.

(** ** [app/services/ai_service.py] *)

Module AIService.
Import Re Json.

(** [r'\{.*\}'] with [re.DOTALL] *)
Definition brace_re : re :=
  Seq (Cls (CChar 123)) (Seq (Star true CAny) (Cls (CChar 125))).

(** [r'```(?:json)?\s*(\{.*?\})\s*```'] with [re.DOTALL] *)
Definition code_block_re : re :=
  Seq (Lit (py "```"))
   (Seq (Opt (Lit (py "json")))
    (Seq (Star true CSpace)
     (Seq (Group (Seq (Cls (CChar 123))
                  (Seq (Star false CAny) (Cls (CChar 125)))))
      (Seq (Star true CSpace) (Lit (py "```")))))).

(** What [_analyze_sentiment] and [_categorize_feedback] return once the
    reply passed [AnalysisResult], respectively [CategoryResult]. *)
Record sentiment_result : Type := SentimentResult {
  sr_sentiment : str;
  sr_confidence : Q;
  sr_reasoning : str
}.

Record category_result : Type := CategoryResult {
  cr_category : str;
  cr_confidence : Q;
  cr_reasoning : str
}.

(** The dictionary [analyze_feedback] returns. *)
Record analysis : Type := Analysis {
  sentiment : str;
  sentiment_confidence : Q;
  category : str;
  category_confidence : Q;
  model_used : str
}.

(** [await asyncio.gather(a, b)]: both results, or the exception of the task
    that failed first. *)
Definition gather {A B} (a : result exn A) (b : result exn B)
    (a_fails_first : bool) : result exn (A * B) :=
  match a, b with
  | Ok x, Ok y => Ok (x, y)
  | Err e, Ok _ => Err e
  | Ok _, Err e => Err e
  | Err e1, Err e2 => Err (if a_fails_first then e1 else e2)
  end.

(** The spans as the specification words them.  [from_first c s]: the text
    from the first [c] on; [up_to_last c s]: the text up to the last [c];
    [brace_span]: from the first opening brace to the last closing brace
    after it. *)
Fixpoint from_first (c : N) (s : str) : option str :=
  match s with
  | [] => None
  | x :: s' => if (x =? c)%N then Some s else from_first c s'
  end.

Definition up_to_last (c : N) (s : str) : option str :=
  reverse <$> from_first c (reverse s).

Definition brace_span (content : str) : option str :=
  from_first 123 content ≫= up_to_last 125.

(** The interior of the fenced block the pattern finds: [group(1)]. *)
Definition code_block_interior (content : str) : option str :=
  search code_block_re content ≫= group1.

Section Client.

(** [json.loads] *)
Variable json_loads : str -> outcome json.

(** [json.loads(...)] on what a pattern has found; with no match nothing is
    tried, and the next stage follows as after a [JSONDecodeError]. *)
Definition loads_match (found : option str) : outcome json :=
  match found with
  | Some text => json_loads text
  | None => JSONDecodeError
  end.

(** [_parse_json_response]: only [json.JSONDecodeError] is caught; another
    exception of [json.loads] leaves the function. *)
Definition _parse_json_response (content : str) : result exn json :=
  match json_loads content with
  | Decoded v => Ok v
  | Raised e => Err e
  | JSONDecodeError =>
      let json_match := search brace_re content in
      match loads_match (group0 <$> json_match) with
      | Decoded v => Ok v
      | Raised e => Err e
      | JSONDecodeError =>
          let code_block_match := search code_block_re content in
          match loads_match (code_block_match ≫= group1) with
          | Decoded v => Ok v
          | Raised e => Err e
          | JSONDecodeError =>
              Err (AIServiceError
                     (py "Invalid JSON response from AI: "
                      ++ slice_to 200 content ++ py "..."))
          end
      end
  end.

(** The gateway: the outcome of the two calls for a text and a model, and
    which of the two tasks fails first when both do. *)
Variable _analyze_sentiment : str -> str -> result exn sentiment_result.
Variable _categorize_feedback : str -> str -> result exn category_result.
Variable sentiment_fails_first : str -> str -> bool.

(** One round of the loop of [analyze_feedback]: the pair of calls for
    [model]. *)
Definition call_pair (text model : str)
  : result exn (sentiment_result * category_result) :=
  gather (_analyze_sentiment text model) (_categorize_feedback text model)
         (sentiment_fails_first text model).

Definition combined (model : str)
    (p : sentiment_result * category_result) : analysis :=
  {| sentiment := sr_sentiment p.1;
     sentiment_confidence := sr_confidence p.1;
     category := cr_category p.2;
     category_confidence := cr_confidence p.2;
     model_used := model |}.

(** The [for model in models] loop, [todo] being the models still to try.
    The first component lists the models the gateway was called for, in the
    order of the calls; [Ok None] is falling off the end of the loop. *)
Fixpoint analyze_loop (models todo : list str) (text : str)
  : list str * result exn (option analysis) :=
  match todo with
  | [] => ([], Ok None)
  | model :: todo' =>
      match call_pair text model with
      | Ok p => ([model], Ok (Some (combined model p)))
      | Err e =>
          let last_error := e in
          if bool_decide (Some model = last models)
          then ([model],
                Err (AIServiceError
                       (py "All models failed. Last error: "
                        ++ exn_str last_error)))
          else
            let '(called, r) := analyze_loop models todo' text in
            (model :: called, r)
      end
  end.

Definition analyze_feedback_with (models : list str) (text : str)
  : list str * result exn (option analysis) :=
  analyze_loop models models text.

(** The list of the source. *)
Definition models : list str := [py "qwen/qwen3-235b-a22b-07-25:free"].

(** [analyze_feedback] *)
Definition analyze_feedback (text : str)
  : list str * result exn (option analysis) :=
  analyze_feedback_with models text.

End Client.

End AIService.

(** *** The spans the two patterns find *)

Module ReFacts.
Import Re AIService.

Lemma first_None_l {X} (b : option X) : first None b = b.
Proof. done. Qed.

Lemma first_Some_l {X} (x : X) (b : option X) : first (Some x) b = Some x.
Proof. done. Qed.

Section Star.

Context {X : Type}.
Implicit Types (k : str -> option str -> option X) (cap : option str).

(** The continuation "then a closing brace, then [k]". *)
Definition then_close k cap : str -> option X :=
  fun s' => m (Cls (CChar 125)) s' cap k.

Lemma then_close_cons k cap x s :
  then_close k cap (x :: s) = if (x =? 125)%N then k s cap else None.
Proof. done. Qed.

(** Greedy [.*] followed by a brace fails when no brace is left. *)
Lemma star_greedy_no_close k cap post :
  125%N ∉ post -> star true CAny post (then_close k cap) = None.
Proof.
  induction post as [|x post IH]; intros Hpost; simpl; [done|].
  apply not_elem_of_cons in Hpost as [Hx Hpost].
  rewrite IH by done. rewrite first_None_l, then_close_cons.
  destruct (N.eqb_spec x 125); [congruence|done].
Qed.

(** Greedy [.*] followed by a brace stops at the last brace. *)
Lemma star_greedy_last_close k cap mid post r :
  125%N ∉ post -> k post cap = Some r ->
  star true CAny (mid ++ 125%N :: post) (then_close k cap) = Some r.
Proof.
  intros Hpost Hk. induction mid as [|x mid IH]; simpl.
  - rewrite star_greedy_no_close by done.
    rewrite first_None_l, then_close_cons. done.
  - by rewrite IH.
Qed.

(** Lazy [.*?] followed by a brace stops at the first brace after which
    the rest of the pattern matches; here the first brace at all. *)
Lemma star_lazy_first_close k cap body rest r :
  125%N ∉ body -> k rest cap = Some r ->
  star false CAny (body ++ 125%N :: rest) (then_close k cap) = Some r.
Proof.
  intros Hbody Hk. induction body as [|x body IH]; simpl.
  - rewrite then_close_cons. simpl. by rewrite Hk.
  - apply not_elem_of_cons in Hbody as [Hx Hbody].
    rewrite then_close_cons.
    destruct (N.eqb_spec x 125); [congruence|]. simpl. by apply IH.
Qed.

(** Greedy [\s*] runs over white space. *)
Lemma star_greedy_space (k' : str -> option X) ws rest r :
  forallb isspace ws = true ->
  star true CSpace rest k' = Some r ->
  star true CSpace (ws ++ rest) k' = Some r.
Proof.
  intros Hws Hk. induction ws as [|x ws IH]; simpl; [done|].
  simpl in Hws. apply andb_prop in Hws as [Hx Hws].
  rewrite Hx, IH by done. done.
Qed.

Lemma star_space_stop (k' : str -> option X) x rest :
  isspace x = false -> star true CSpace (x :: rest) k' = k' (x :: rest).
Proof. intros Hx. simpl. by rewrite Hx. Qed.

End Star.

Lemma take_all_but {A} (l post : list A) :
  take (length (l ++ post) - length post) (l ++ post) = l.
Proof. apply take_app_length'. rewrite length_app. lia. Qed.

(** At an opening brace, [brace_re] matches up to the last closing one. *)
Lemma match_at_brace mid post :
  125%N ∉ post ->
  match_at brace_re (123%N :: mid ++ 125%N :: post)
  = Some (MatchObj (123%N :: mid ++ [125%N]) None).
Proof.
  intros Hpost. unfold match_at, brace_re. cbn [m cls_match].
  rewrite N.eqb_refl.
  apply (star_greedy_last_close
           (fun s' cap =>
              Some (MatchObj
                      (take (length (123%N :: mid ++ 125%N :: post) - length s')
                            (123%N :: mid ++ 125%N :: post)) cap)) None);
    [done|].
  f_equal. f_equal.
  change (123%N :: mid ++ 125%N :: post)
    with ((123%N :: mid) ++ 125%N :: post).
  rewrite (cons_middle 125%N), app_assoc.
  apply take_all_but.
Qed.

Lemma match_at_brace_no_close rest :
  125%N ∉ rest -> match_at brace_re (123%N :: rest) = None.
Proof.
  intros Hrest. unfold match_at, brace_re. cbn [m cls_match].
  rewrite N.eqb_refl.
  by apply (star_greedy_no_close
              (fun s' cap =>
                 Some (MatchObj
                         (take (length (123%N :: rest) - length s')
                               (123%N :: rest)) cap)) None).
Qed.

Lemma match_at_brace_other x rest :
  x <> 123%N -> match_at brace_re (x :: rest) = None.
Proof.
  intros Hx. unfold match_at, brace_re. simpl.
  by destruct (N.eqb_spec x 123).
Qed.

(** [re.search(r'\{.*\}', content, re.DOTALL)] finds the span from the
    first opening brace to the last closing brace. *)
Lemma search_brace_span pre mid post :
  123%N ∉ pre -> 125%N ∉ post ->
  search brace_re (pre ++ 123%N :: mid ++ 125%N :: post)
  = Some (MatchObj (123%N :: mid ++ [125%N]) None).
Proof.
  intros Hpre Hpost. induction pre as [|x pre IH].
  - simpl app. unfold search; fold search. by rewrite match_at_brace.
  - apply not_elem_of_cons in Hpre as [Hx Hpre].
    simpl app. unfold search; fold search.
    rewrite match_at_brace_other by done. simpl. by apply IH.
Qed.

Lemma search_brace_no_close s :
  125%N ∉ s -> search brace_re s = None.
Proof.
  induction s as [|x s IH]; intros Hs; [done|].
  apply not_elem_of_cons in Hs as [Hx Hs].
  unfold search; fold search.
  assert (match_at brace_re (x :: s) = None) as ->.
  { destruct (decide (x = 123%N)) as [->|Hx'].
    - by apply match_at_brace_no_close.
    - by apply match_at_brace_other. }
  simpl. by apply IH.
Qed.

(** It finds nothing when no closing brace follows the first opening one. *)
Lemma search_brace_none pre rest :
  123%N ∉ pre -> 125%N ∉ rest ->
  search brace_re (pre ++ 123%N :: rest) = None.
Proof.
  intros Hpre Hrest. induction pre as [|x pre IH].
  - by apply search_brace_no_close, not_elem_of_cons.
  - apply not_elem_of_cons in Hpre as [Hx Hpre].
    simpl app. unfold search; fold search.
    rewrite match_at_brace_other by done. simpl. by apply IH.
Qed.

Lemma from_first_None c s : c ∉ s -> from_first c s = None.
Proof.
  induction s as [|x s IH]; intros Hs; [done|].
  apply not_elem_of_cons in Hs as [Hx Hs]. simpl.
  destruct (N.eqb_spec x c); [congruence|by apply IH].
Qed.

Lemma from_first_Some c pre rest :
  c ∉ pre -> from_first c (pre ++ c :: rest) = Some (c :: rest).
Proof.
  induction pre as [|x pre IH]; intros Hpre; simpl.
  - by rewrite N.eqb_refl.
  - apply not_elem_of_cons in Hpre as [Hx Hpre].
    destruct (N.eqb_spec x c); [congruence|by apply IH].
Qed.

Lemma up_to_last_None c s : c ∉ s -> up_to_last c s = None.
Proof.
  intros Hs. unfold up_to_last. rewrite from_first_None; [done|].
  by rewrite elem_of_reverse.
Qed.

Lemma up_to_last_Some c mid post :
  c ∉ post -> up_to_last c (mid ++ c :: post) = Some (mid ++ [c]).
Proof.
  intros Hpost. unfold up_to_last.
  rewrite reverse_app, reverse_cons, <- app_assoc. simpl.
  rewrite from_first_Some by (by rewrite elem_of_reverse).
  simpl. by rewrite reverse_cons, reverse_involutive.
Qed.

Lemma search_brace_no_open s :
  123%N ∉ s -> search brace_re s = None.
Proof.
  induction s as [|x s IH]; intros Hs; [done|].
  apply not_elem_of_cons in Hs as [Hx Hs].
  unfold search; fold search.
  rewrite match_at_brace_other by done. simpl. by apply IH.
Qed.

(** The pattern [\{.*\}] finds the span of the specification. *)
Lemma search_brace_refines content :
  search brace_re content
  = (fun g => MatchObj g None) <$> brace_span content.
Proof.
  unfold brace_span.
  destruct (decide (123%N ∈ content)) as [Hin|Hout].
  - apply list_elem_of_split_l in Hin as (pre & rest & -> & Hpre).
    rewrite from_first_Some by done. simpl.
    destruct (decide (125%N ∈ rest)) as [Hin|Hout].
    + apply list_elem_of_split_r in Hin as (mid & post & -> & Hpost).
      rewrite search_brace_span by done.
      change (123%N :: mid ++ 125%N :: post)
        with ((123%N :: mid) ++ 125%N :: post).
      by rewrite up_to_last_Some.
    + rewrite search_brace_none by done.
      rewrite up_to_last_None; [done|].
      by apply not_elem_of_cons.
  - rewrite from_first_None by done. simpl.
    by apply search_brace_no_open.
Qed.


Section Pieces.

Context {X : Type}.
Implicit Types (k : str -> option str -> option X) (cap : option str).

Lemma m_seq r1 r2 s cap k :
  m (Seq r1 r2) s cap k = m r1 s cap (fun s' cap' => m r2 s' cap' k).
Proof. done. Qed.

Lemma m_opt r s cap k : m (Opt r) s cap k = first (m r s cap k) (k s cap).
Proof. done. Qed.

Lemma is_prefix_app (l s : str) : is_prefix l (l ++ s) = true.
Proof. induction l as [|x l IH]; [done|]. simpl. by rewrite N.eqb_refl. Qed.

Lemma m_lit_app l s cap k : m (Lit l) (l ++ s) cap k = k s cap.
Proof. simpl. by rewrite is_prefix_app, drop_app_length. Qed.

Lemma m_lit_other l x y s cap k :
  x <> y -> m (Lit (x :: l)) (y :: s) cap k = None.
Proof. intros Hxy. simpl. by destruct (N.eqb_spec x y). Qed.

Lemma m_star_space ws x rest cap k r :
  forallb isspace ws = true -> isspace x = false ->
  k (x :: rest) cap = Some r ->
  m (Star true CSpace) (ws ++ x :: rest) cap k = Some r.
Proof.
  intros Hws Hx Hk. cbn [m]. apply star_greedy_space; [done|].
  by rewrite star_space_stop.
Qed.

Lemma m_group_braces body rest cap k r :
  125%N ∉ body ->
  k rest (Some (123%N :: body ++ [125%N])) = Some r ->
  m (Group (Seq (Cls (CChar 123)) (Seq (Star false CAny) (Cls (CChar 125)))))
    (123%N :: body ++ 125%N :: rest) cap k = Some r.
Proof.
  intros Hbody Hk. cbn [m cls_match]. rewrite N.eqb_refl.
  apply (star_lazy_first_close
           (fun s' _ =>
              k s' (Some (take (length (123%N :: body ++ 125%N :: rest)
                                - length s')
                               (123%N :: body ++ 125%N :: rest)))) cap);
    [done|].
  rewrite <- Hk. f_equal. f_equal.
  change (123%N :: body ++ 125%N :: rest)
    with ((123%N :: body) ++ 125%N :: rest).
  rewrite (cons_middle 125%N), app_assoc.
  apply take_all_but.
Qed.

End Pieces.

Lemma match_at_code_block_other x rest :
  x <> 96%N -> match_at code_block_re (x :: rest) = None.
Proof.
  intros Hx. unfold match_at, code_block_re. rewrite m_seq.
  by apply m_lit_other.
Qed.

Lemma first_Some_then {X} (a b : option X) r :
  a = Some r -> first a b = Some r.
Proof. by intros ->. Qed.

Lemma first_None_then {X} (a b : option X) r :
  a = None -> b = Some r -> first a b = Some r.
Proof. by intros -> ->. Qed.

(** The pattern after the optional tag, on a block whose interior holds no
    closing brace before its last character. *)
Lemma after_tag_ok {X} (k : str -> option str -> option X)
    ws1 body ws2 post cap r :
  forallb isspace ws1 = true -> forallb isspace ws2 = true ->
  125%N ∉ body ->
  k post (Some (123%N :: body ++ [125%N])) = Some r ->
  m (Seq (Star true CSpace)
      (Seq (Group (Seq (Cls (CChar 123))
                   (Seq (Star false CAny) (Cls (CChar 125)))))
       (Seq (Star true CSpace) (Lit (py "```")))))
    (ws1 ++ 123%N :: body ++ 125%N :: ws2 ++ py "```" ++ post) cap k
  = Some r.
Proof.
  intros Hws1 Hws2 Hbody Hk.
  rewrite m_seq. apply m_star_space; [done|done|].
  rewrite m_seq. apply m_group_braces; [done|].
  rewrite m_seq. change (py "```" ++ post) with (96%N :: 96%N :: 96%N :: post).
  apply m_star_space; [done|done|].
  change (96%N :: 96%N :: 96%N :: post) with (py "```" ++ post).
  by rewrite m_lit_app.
Qed.

(** A fenced block, tagged [json] or not: group 1 is the interior. *)
Lemma match_at_code_block tag ws1 body ws2 post :
  tag = [] \/ tag = py "json" ->
  forallb isspace ws1 = true -> forallb isspace ws2 = true ->
  125%N ∉ body ->
  exists g0,
    match_at code_block_re
      (py "```" ++ tag ++ ws1 ++ 123%N :: body ++ 125%N :: ws2
         ++ py "```" ++ post)
    = Some (MatchObj g0 (Some (123%N :: body ++ [125%N]))).
Proof.
  intros Htag Hws1 Hws2 Hbody.
  destruct Htag as [->| ->]; eexists;
    unfold match_at, code_block_re;
    rewrite m_seq, m_lit_app, m_seq, m_opt.
  - apply first_None_then.
    + simpl app. destruct ws1 as [|w ws1].
      * by apply m_lit_other.
      * apply m_lit_other. intros <-. by vm_compute in Hws1.
    + by apply after_tag_ok.
  - apply first_Some_then. rewrite m_lit_app. by apply after_tag_ok.
Qed.

Lemma search_unfold r s :
  search r s
  = first (match_at r s)
          (match s with [] => None | _ :: s' => search r s' end).
Proof. by destruct s. Qed.

Lemma search_code_block pre tag ws1 body ws2 post :
  96%N ∉ pre ->
  tag = [] \/ tag = py "json" ->
  forallb isspace ws1 = true -> forallb isspace ws2 = true ->
  125%N ∉ body ->
  exists g0,
    search code_block_re
      (pre ++ py "```" ++ tag ++ ws1 ++ 123%N :: body ++ 125%N :: ws2
         ++ py "```" ++ post)
    = Some (MatchObj g0 (Some (123%N :: body ++ [125%N]))).
Proof.
  intros Hpre Htag Hws1 Hws2 Hbody. induction pre as [|x pre IH].
  - destruct (match_at_code_block tag ws1 body ws2 post) as [g0 Hg0];
      [done..|].
    exists g0. rewrite app_nil_l, search_unfold. by rewrite Hg0.
  - apply not_elem_of_cons in Hpre as [Hx Hpre].
    destruct (IH Hpre) as [g0 Hg0]. exists g0.
    rewrite <- app_comm_cons, search_unfold.
    rewrite match_at_code_block_other by done. exact Hg0.
Qed.


End ReFacts.

(** *** The model fallback of [analyze_feedback] *)

Module AIServiceFacts.
Import Re Json AIService ReFacts.

Lemma contains_prefix (p s : str) : contains p (p ++ s) = true.
Proof. destruct (p ++ s) eqn:E; simpl; rewrite <- E, is_prefix_app; done. Qed.

Lemma invalid_json_message (content : str) :
  let e := AIServiceError (py "Invalid JSON response from AI: "
                           ++ take 200 content ++ py "...") in
  is_AIServiceError e = true
  /\ contains (py "Invalid JSON response") (exn_str e) = true
  /\ contains (take 200 content) (exn_str e) = true.
Proof.
  intros e. subst e. cbn [exn_str is_AIServiceError].
  split; [done|]. split.
  - change (py "Invalid JSON response from AI: ")
      with (py "Invalid JSON response" ++ py " from AI: ").
    rewrite <- app_assoc. apply contains_prefix.
  - generalize (py "Invalid JSON response from AI: "). intros pfx.
    induction pfx as [|x pfx IH].
    + rewrite app_nil_l. apply contains_prefix.
    + rewrite <- app_comm_cons. cbn [contains]. rewrite IH.
      apply orb_true_r.
Qed.

Section Fallback.

Variable _analyze_sentiment : str -> str -> result exn sentiment_result.
Variable _categorize_feedback : str -> str -> result exn category_result.
Variable sentiment_fails_first : str -> str -> bool.

Abbreviation call_pair :=
  (call_pair _analyze_sentiment _categorize_feedback sentiment_fails_first).
Abbreviation analyze_loop :=
  (analyze_loop _analyze_sentiment _categorize_feedback sentiment_fails_first).

(** The message of the error raised when the last model failed with [e]. *)
Definition all_failed (e : exn) : exn :=
  AIServiceError (py "All models failed. Last error: " ++ exn_str e).

(** The models of [pre] fail and none of them is the last of the list: the
    loop goes past them. *)
Lemma analyze_loop_skip models text pre todo :
  (forall x, x ∈ pre -> is_ok (call_pair text x) = false) ->
  (forall x, x ∈ pre -> Some x <> last models) ->
  analyze_loop models (pre ++ todo) text
  = (pre ++ (analyze_loop models todo text).1,
     (analyze_loop models todo text).2).
Proof.
  induction pre as [|x pre IH]; intros Hfail Hlast.
  - simpl. by destruct (analyze_loop models todo text).
  - simpl. destruct (call_pair text x) as [p|e] eqn:E.
    + specialize (Hfail x ltac:(left)). by rewrite E in Hfail.
    + rewrite bool_decide_eq_false_2 by (apply Hlast; left).
      rewrite IH.
      * done.
      * intros y Hy. apply Hfail. by right.
      * intros y Hy. apply Hlast. by right.
Qed.

Lemma last_in_tail (pre : list str) m post :
  exists y, last (pre ++ m :: post) = Some y /\ y ∈ m :: post.
Proof.
  rewrite last_app. destruct (last (m :: post)) as [y|] eqn:E.
  - exists y. split; [done|]. by apply last_Some_elem_of.
  - by apply last_None in E.
Qed.

Lemma not_last_of_NoDup (pre : list str) m post x :
  NoDup (pre ++ m :: post) -> x ∈ pre -> Some x <> last (pre ++ m :: post).
Proof.
  intros Hnd Hx Heq. apply NoDup_app in Hnd as (_ & Hdisj & _).
  destruct (last_in_tail pre m post) as (y & Hy & Hin).
  rewrite Hy in Heq. injection Heq as ->. by apply (Hdisj y).
Qed.

Lemma fallback_success models text pre m post p :
  NoDup models -> models = pre ++ m :: post ->
  (forall x, x ∈ pre -> is_ok (call_pair text x) = false) ->
  call_pair text m = Ok p ->
  analyze_loop models models text = (pre ++ [m], Ok (Some (combined m p))).
Proof.
  intros Hnd Hm Hfail Hok.
  rewrite Hm at 2. rewrite analyze_loop_skip; [|done|].
  - simpl. by rewrite Hok.
  - intros x Hx. subst models. by apply not_last_of_NoDup.
Qed.

Lemma fallback_exhausted models text pre m e :
  NoDup models -> models = pre ++ [m] ->
  (forall x, x ∈ pre -> is_ok (call_pair text x) = false) ->
  call_pair text m = Err e ->
  analyze_loop models models text = (models, Err (all_failed e)).
Proof.
  intros Hnd Hm Hfail Herr.
  rewrite Hm at 2. rewrite analyze_loop_skip; [|done|].
  - simpl. rewrite Herr.
    rewrite bool_decide_eq_true_2 by (by rewrite Hm, last_snoc).
    simpl. by rewrite Hm.
  - intros x Hx. subst models. by apply not_last_of_NoDup.
Qed.

End Fallback.

End AIServiceFacts.

Module AIServiceClaims.
Import Re Json AIService ReFacts AIServiceFacts.

(** The strings of the tests. *)
Definition quoted (s : str) : str := 34%N :: s ++ [34%N].

Definition key_value_text : str :=
  py "{" ++ quoted (py "key") ++ py ":" ++ quoted (py "value") ++ py "}".

Definition key_value : json := JObject [(py "key", JString (py "value"))].

Definition wrapped_text : str :=
  py "Here is the result: " ++ key_value_text ++ py " Done.".

Definition fenced_text : str :=
  py "```json" ++ [10%N] ++ key_value_text ++ [10%N] ++ py "```".

(** The digit 1, 4301 times: one digit more than the default limit of
    [int]. *)
Definition long_integer : str := replicate 4301 49%N.

(** The claim fails on [long_integer]: [json.loads] raises the [ValueError]
    of [int], which is no [JSONDecodeError] and leaves
    [_parse_json_response] as it is; no [AIServiceError] is raised. *)
Lemma long_integer_raises_no_AIServiceError :
  exists e,
    _parse_json_response (json_loads 4300 1000) long_integer = Err e
    /\ e = too_many_digits 4300 4301
    /\ is_AIServiceError e = false.
Proof. eexists. split; [by vm_compute|]. split; by vm_compute. Qed.

(** The same with containers nested deeper than the interpreter allows,
    here three arrays where two may be entered: the [RecursionError] of the
    scanner leaves [_parse_json_response]. *)
Example deep_nesting_raises_no_AIServiceError :
  _parse_json_response (json_loads 4300 2) (py "[[[1]]]")
  = Err (too_deep (py "array")).
Proof. by vm_compute. Qed.

(** C4. [_parse_json_response] tries, in this order, (a) the whole string,
    (b) the span from the first opening brace to the last closing brace, which
    is what the greedy pattern finds, (c) the interior of a fenced code block,
    tagged [json] or not, a stage failing when [json.loads] raises
    [JSONDecodeError] or the pattern finds nothing; an exception of
    [json.loads] that is no [JSONDecodeError] leaves the function from the
    stage that met it.  When all three stages fail it raises an
    [AIServiceError] whose message is "Invalid JSON response from AI: ", the
    first 200 characters of the content and "...", and every error of the
    function is that one or an exception [json.loads] raised.  The three
    strings of the tests parse to the object with the one member key/value,
    and a string that is not JSON raises an [AIServiceError] containing
    "Invalid JSON response". *)
Theorem parse_json_response_stages :
  (forall (loads : str -> outcome json) (content : str),
      _parse_json_response loads content
      = match loads content with
        | Decoded v => Ok v
        | Raised e => Err e
        | JSONDecodeError =>
            match loads_match loads (brace_span content) with
            | Decoded v => Ok v
            | Raised e => Err e
            | JSONDecodeError =>
                match loads_match loads (code_block_interior content) with
                | Decoded v => Ok v
                | Raised e => Err e
                | JSONDecodeError =>
                    Err (AIServiceError
                           (py "Invalid JSON response from AI: "
                            ++ take 200 content ++ py "..."))
                end
            end
        end)
  /\ (forall pre tag ws1 body ws2 post,
        96%N ∉ pre -> tag = [] \/ tag = py "json" ->
        forallb isspace ws1 = true -> forallb isspace ws2 = true ->
        125%N ∉ body ->
        code_block_interior
          (pre ++ py "```" ++ tag ++ ws1 ++ 123%N :: body ++ 125%N :: ws2
             ++ py "```" ++ post)
        = Some (123%N :: body ++ [125%N]))
  /\ (forall (loads : str -> outcome json) (content : str) (e : exn),
        _parse_json_response loads content = Err e ->
        (loads content = JSONDecodeError
         /\ loads_match loads (brace_span content) = JSONDecodeError
         /\ loads_match loads (code_block_interior content) = JSONDecodeError
         /\ e = AIServiceError (py "Invalid JSON response from AI: "
                                ++ take 200 content ++ py "...")
         /\ is_AIServiceError e = true
         /\ contains (py "Invalid JSON response") (exn_str e) = true
         /\ contains (take 200 content) (exn_str e) = true)
        \/ (exists text,
              loads text = Raised e
              /\ (text = content \/ brace_span content = Some text
                  \/ code_block_interior content = Some text)))
  /\ (forall (loads : str -> outcome json) (content : str) (e : exn),
        (forall text e', loads text <> Raised e') ->
        _parse_json_response loads content = Err e ->
        is_AIServiceError e = true)
  /\ (forall digits depth : nat,
        _parse_json_response (json_loads digits (S depth)) key_value_text
        = Ok key_value
        /\ _parse_json_response (json_loads digits (S depth)) wrapped_text
           = Ok key_value
        /\ _parse_json_response (json_loads digits (S depth)) fenced_text
           = Ok key_value
        /\ exists msg,
             _parse_json_response (json_loads digits (S depth))
               (py "This is not JSON")
             = Err (AIServiceError msg)
             /\ contains (py "Invalid JSON response") msg = true).
Proof.
  assert (forall (loads : str -> outcome json) (content : str),
      _parse_json_response loads content
      = match loads content with
        | Decoded v => Ok v
        | Raised e => Err e
        | JSONDecodeError =>
            match loads_match loads (brace_span content) with
            | Decoded v => Ok v
            | Raised e => Err e
            | JSONDecodeError =>
                match loads_match loads (code_block_interior content) with
                | Decoded v => Ok v
                | Raised e => Err e
                | JSONDecodeError =>
                    Err (AIServiceError
                           (py "Invalid JSON response from AI: "
                            ++ take 200 content ++ py "..."))
                end
            end
        end) as Hstages.
  { intros loads content. unfold _parse_json_response, code_block_interior.
    destruct (loads content); [done| |done].
    rewrite search_brace_refines.
    by destruct (brace_span content) as [g|]. }
  assert (forall (loads : str -> outcome json) (content : str) (e : exn),
        _parse_json_response loads content = Err e ->
        (loads content = JSONDecodeError
         /\ loads_match loads (brace_span content) = JSONDecodeError
         /\ loads_match loads (code_block_interior content) = JSONDecodeError
         /\ e = AIServiceError (py "Invalid JSON response from AI: "
                                ++ take 200 content ++ py "...")
         /\ is_AIServiceError e = true
         /\ contains (py "Invalid JSON response") (exn_str e) = true
         /\ contains (take 200 content) (exn_str e) = true)
        \/ (exists text,
              loads text = Raised e
              /\ (text = content \/ brace_span content = Some text
                  \/ code_block_interior content = Some text))) as Herrors.
  { intros loads content e. rewrite Hstages.
    destruct (loads content) as [v| |e0] eqn:Ha; [done| |].
    2:{ intros He. assert (e = e0) as -> by congruence.
        right. exists content. split; [done|by left]. }
    destruct (brace_span content) as [g|] eqn:Hg; cbn [loads_match].
    - destruct (loads g) as [v| |e0] eqn:Hb; [done| |].
      2:{ intros He. assert (e = e0) as -> by congruence.
          right. exists g. split; [done|]. right. by left. }
      destruct (code_block_interior content) as [t|] eqn:Ht;
        cbn [loads_match].
      + destruct (loads t) as [v| |e0] eqn:Hc; [done| |].
        2:{ intros He. assert (e = e0) as -> by congruence.
            right. exists t. split; [done|]. right. by right. }
        intros He. left.
        assert (e = AIServiceError (py "Invalid JSON response from AI: "
                                    ++ take 200 content ++ py "...")) as ->
          by congruence.
        repeat (split; [done|]). apply invalid_json_message.
      + intros He. left.
        assert (e = AIServiceError (py "Invalid JSON response from AI: "
                                    ++ take 200 content ++ py "...")) as ->
          by congruence.
        repeat (split; [done|]). apply invalid_json_message.
    - destruct (code_block_interior content) as [t|] eqn:Ht;
        cbn [loads_match].
      + destruct (loads t) as [v| |e0] eqn:Hc; [done| |].
        2:{ intros He. assert (e = e0) as -> by congruence.
            right. exists t. split; [done|]. right. by right. }
        intros He. left.
        assert (e = AIServiceError (py "Invalid JSON response from AI: "
                                    ++ take 200 content ++ py "...")) as ->
          by congruence.
        repeat (split; [done|]). apply invalid_json_message.
      + intros He. left.
        assert (e = AIServiceError (py "Invalid JSON response from AI: "
                                    ++ take 200 content ++ py "...")) as ->
          by congruence.
        repeat (split; [done|]). apply invalid_json_message. }
  split; [exact Hstages|].
  split.
  { intros pre tag ws1 body ws2 post Hpre Htag Hws1 Hws2 Hbody.
    unfold code_block_interior.
    destruct (search_code_block pre tag ws1 body ws2 post) as [g0 ->]; done. }
  split; [exact Herrors|].
  split.
  { intros loads content e Hnever He.
    destruct (Herrors loads content e He)
      as [(_ & _ & _ & _ & Hk & _)|(text & Hr & _)]; [done|].
    by apply Hnever in Hr. }
  intros digits depth.
  split; [by vm_compute|].
  split; [by vm_compute|].
  split; [by vm_compute|].
  eexists. split; by vm_compute.
Qed.

Lemma parse_json_response_stages_witness :
  code_block_interior fenced_text = Some key_value_text
  /\ is_AIServiceError
       (AIServiceError (py "Invalid JSON response from AI: This is not JSON..."))
     = true
  /\ contains (py "Invalid JSON response")
       (py "Invalid JSON response from AI: This is not JSON...") = true.
Proof.
  destruct parse_json_response_stages as (_ & Hshape & _ & Herr & _).
  split.
  - apply (Hshape [] (py "json") [10%N]
             (quoted (py "key") ++ py ":" ++ quoted (py "value"))
             [10%N] []).
    + apply not_elem_of_nil.
    + by right.
    + reflexivity.
    + reflexivity.
    + compute_done.
  - assert (is_AIServiceError
              (AIServiceError
                 (py "Invalid JSON response from AI: This is not JSON..."))
            = true) as H1.
    { apply (Herr (fun _ => JSONDecodeError) (py "This is not JSON")).
      + intros text e'. discriminate.
      + by vm_compute. }
    split; [exact H1|by vm_compute].
Defined.

(** C5. [analyze_feedback] tries the models of the list in order.  For a list
    without repetition: when the models before [m] fail and the pair of calls
    for [m] succeeds, the gateway is called for these models and for no later
    one, and the result carries [m] as [model_used]; when every model fails,
    all are tried and the client raises an [AIServiceError] whose message is
    "All models failed. Last error: " followed by the text of the error of the
    last model.  For the list of the source, which holds one model, the
    result is the combined result of that model or that error. *)
Theorem analyze_feedback_fallback :
  forall (_analyze_sentiment : str -> str -> result exn sentiment_result)
         (_categorize_feedback : str -> str -> result exn category_result)
         (sentiment_fails_first : str -> str -> bool)
         (text : str),
    let call_pair :=
      call_pair _analyze_sentiment _categorize_feedback sentiment_fails_first in
    let analyze_feedback_with :=
      analyze_feedback_with _analyze_sentiment _categorize_feedback
                            sentiment_fails_first in
    (forall models pre m post p,
        NoDup models -> models = pre ++ m :: post ->
        (forall x, x ∈ pre -> is_ok (call_pair text x) = false) ->
        call_pair text m = Ok p ->
        exists a,
          analyze_feedback_with models text = (pre ++ [m], Ok (Some a))
          /\ a = combined m p /\ model_used a = m)
    /\ (forall models pre m e,
          NoDup models -> models = pre ++ [m] ->
          (forall x, x ∈ pre -> is_ok (call_pair text x) = false) ->
          call_pair text m = Err e ->
          exists msg,
            analyze_feedback_with models text
            = (models, Err (AIServiceError msg))
            /\ msg = py "All models failed. Last error: " ++ exn_str e
            /\ contains (py "All models failed") msg = true)
    /\ analyze_feedback _analyze_sentiment _categorize_feedback
         sentiment_fails_first text
       = match call_pair text (py "qwen/qwen3-235b-a22b-07-25:free") with
         | Ok p =>
             ([py "qwen/qwen3-235b-a22b-07-25:free"],
              Ok (Some (combined (py "qwen/qwen3-235b-a22b-07-25:free") p)))
         | Err e =>
             ([py "qwen/qwen3-235b-a22b-07-25:free"],
              Err (AIServiceError
                     (py "All models failed. Last error: " ++ exn_str e)))
         end.
Proof.
  intros sent cat first_fail text call_pair analyze_feedback_with.
  subst call_pair analyze_feedback_with.
  split; [|split].
  - intros models pre m post p Hnd Hm Hfail Hok.
    exists (combined m p). split; [|done].
    unfold AIService.analyze_feedback_with. by eapply fallback_success.
  - intros models pre m e Hnd Hm Hfail Herr.
    eexists. split; [|split; [reflexivity|]].
    + unfold AIService.analyze_feedback_with. by eapply fallback_exhausted.
    + change (py "All models failed. Last error: ")
        with (py "All models failed" ++ py ". Last error: ").
      rewrite <- app_assoc. apply contains_prefix.
  - unfold analyze_feedback, AIService.analyze_feedback_with, models.
    cbn [analyze_loop].
    destruct (AIService.call_pair sent cat first_fail text _); [done|].
    by rewrite bool_decide_eq_true_2.
Qed.

(** Two models, the first answering 429 to both calls. *)
Definition sentiment_429_then_ok (text model : str)
  : result exn sentiment_result :=
  if decide (model = py "a")
  then Err (AIServiceError (py "Rate limit exceeded. Please try again later."))
  else Ok (SentimentResult (py "negative") (85 # 100) (py "Negative sentiment")).

Definition category_429_then_ok (text model : str)
  : result exn category_result :=
  if decide (model = py "a")
  then Err (AIServiceError (py "Rate limit exceeded. Please try again later."))
  else Ok (CategoryResult (py "Customer Service") (75 # 100)
                          (py "Service complaint")).

Lemma analyze_feedback_fallback_witness :
  (exists a,
      analyze_feedback_with sentiment_429_then_ok category_429_then_ok
        (fun _ _ => true) [py "a"; py "b"] (py "Bad service!")
      = ([py "a"; py "b"], Ok (Some a))
      /\ model_used a = py "b")
  /\ (exists msg,
        analyze_feedback_with sentiment_429_then_ok category_429_then_ok
          (fun _ _ => true) [py "a"] (py "Bad service!")
        = ([py "a"], Err (AIServiceError msg))
        /\ contains (py "All models failed") msg = true).
Proof.
  destruct (analyze_feedback_fallback sentiment_429_then_ok
              category_429_then_ok (fun _ _ => true) (py "Bad service!"))
    as (Hok & Hfail & _).
  split.
  - destruct (Hok [py "a"; py "b"] [py "a"] (py "b") []
                (SentimentResult (py "negative") (85 # 100)
                                 (py "Negative sentiment"),
                 CategoryResult (py "Customer Service") (75 # 100)
                                (py "Service complaint")))
      as (a & Ha & _ & Hm).
    + compute_done.
    + reflexivity.
    + intros x Hx. apply list_elem_of_singleton in Hx. subst x. reflexivity.
    + reflexivity.
    + exists a. split; [exact Ha|exact Hm].
  - destruct (Hfail [py "a"] [] (py "a")
                (AIServiceError
                   (py "Rate limit exceeded. Please try again later.")))
      as (msg & Hr & _ & Hc).
    + compute_done.
    + reflexivity.
    + intros x Hx. by apply elem_of_nil in Hx.
    + reflexivity.
    + exists msg. split; [exact Hr|exact Hc].
Defined.

End AIServiceClaims.

(** ** [app/models/schemas.py] *)

Module Schemas.

(** The constraints [Field(..., min_length=.., max_length=..)] of a [str]
    field; pydantic checks them on the value received, before the field
    validators (which run in mode [after]).  [Err] carries the error type. *)
Definition Field_str (min_length max_length : Z) (v : str) : result str str :=
  if len v <? min_length then Err (py "string_too_short")
  else if max_length <? len v then Err (py "string_too_long")
  else Ok v.

Module FeedbackCreate.

(** [FeedbackCreate.validate_text] *)
Definition validate_text (v : str) : result str str :=
  if negb (truthy (strip v))
  then Err (py "Feedback text cannot be empty")
  else Ok (strip v).

(** Validation of the field [text]. *)
Definition text_field (v : str) : result str str :=
  bind_result (Field_str 1 5000 v) validate_text.

(** [FeedbackCreate.validate_tags]; [list_of_set l] is [list(set(l))], the
    distinct elements of [l] in the iteration order of the set. *)
Definition validate_tags (list_of_set : list str -> list str)
    (v : option (list str)) : list str :=
  match v with
  | None => []
  | Some v =>
      let cleaned_tags :=
        list_of_set (filter (fun t => truthy t = true) (strip <$> v)) in
      take 10 cleaned_tags
  end.

(** The validated model. *)
Record t : Type := Make {
  text : str;
  tags : list str
}.

(** The JSON body of the request, once decoded. *)
Record body : Type := Body {
  body_text : str;
  body_tags : option (list str)
}.

(** [FeedbackCreate.model_validate(body)] *)
Definition model_validate (list_of_set : list str -> list str) (b : body)
  : result str t :=
  match text_field (body_text b) with
  | Ok text => Ok (Make text (validate_tags list_of_set (body_tags b)))
  | Err e => Err e
  end.

End FeedbackCreate.

(** [FeedbackResponse] *)
Record FeedbackResponse : Type := MkFeedbackResponse {
  r_id : Z;
  r_text : str;
  r_sentiment : str;
  r_sentiment_confidence : Q;
  r_category : str;
  r_category_confidence : Q;
  r_tags : list str;
  r_created_at : Z;
  r_analysis_duration_ms : Z;
  r_model_used : str
}.

(** The members of [SentimentEnum]. *)
Definition SentimentEnum : list str :=
  [py "positive"; py "neutral"; py "negative"].

(** [PaginatedResponse] *)
Record PaginatedResponse (T : Type) : Type := MkPaginatedResponse {
  items : list T;
  total : Z;
  page : Z;
  page_size : Z;
  pages : Z
}.
Arguments MkPaginatedResponse {T}.
Arguments items {T}.
Arguments total {T}.
Arguments page {T}.
Arguments page_size {T}.
Arguments pages {T}.

End Schemas.

(** ** The table and the SQLAlchemy session *)

Module Storage.

(** A row of [feedback_entries]: [app/models/feedback.py].  Times are
    seconds since the epoch. *)
Record FeedbackEntry : Type := MkFeedbackEntry {
  id : Z;
  text : str;
  sentiment : str;
  sentiment_confidence : Q;
  category : str;
  category_confidence : Q;
  tags : list str;
  created_at : Z;
  analysis_duration_ms : Z;
  model_used : str
}.

(** A [FeedbackEntry(...)] object before it is flushed: the primary key and
    [created_at] are set by the database. *)
Record draft : Type := MkDraft {
  d_text : str;
  d_sentiment : str;
  d_sentiment_confidence : Q;
  d_category : str;
  d_category_confidence : Q;
  d_tags : list str;
  d_analysis_duration_ms : Z;
  d_model_used : str
}.

Inductive db_op : Type := OpAdd | OpCommit | OpRefresh | OpRollback.

(** The integers SQLite stores and its driver binds: 64 bits, signed.  For
    any other [int] the driver raises [OverflowError]. *)
Definition sqlite_integer (n : Z) : Prop := - 2 ^ 63 <= n <= 2 ^ 63 - 1.

#[global] Instance sqlite_integer_dec n : Decision (sqlite_integer n).
Proof. unfold sqlite_integer. apply _. Defined.

Definition overflow_error : exn :=
  OtherException (py "Python int too large to convert to SQLite INTEGER").

(** The session: the committed rows of the table, the objects added and not
    yet flushed ([session.new]) and the calls made so far. *)
Record session : Type := MkSession {
  rows : list FeedbackEntry;
  new : list draft;
  ops : list db_op
}.

(** Code that reads and writes the session and may raise. *)
Definition M (A : Type) : Type := session -> session * result exn A.

Definition ret {A} (a : A) : M A := fun s => (s, Ok a).

Definition raise {A} (e : exn) : M A := fun s => (s, Err e).

Definition bind {A B} (c : M A) (k : A -> M B) : M B :=
  fun s =>
    match c s with
    | (s', Ok a) => k a s'
    | (s', Err e) => (s', Err e)
    end.

(** [try: c except Exception as e: h e] *)
Definition try_except {A} (c : M A) (h : exn -> M A) : M A :=
  fun s =>
    match c s with
    | (s', Ok a) => (s', Ok a)
    | (s', Err e) => h e s'
    end.

Declare Scope session_scope.
Delimit Scope session_scope with session.
Notation "x <- c ;; k" := (bind c (fun x => k))
  (at level 100, c at next level, right associativity) : session_scope.
Notation "c ;;; k" := (bind c (fun _ => k))
  (at level 100, right associativity) : session_scope.

Definition log_op (o : db_op) (s : session) : session :=
  MkSession (rows s) (new s) (ops s ++ [o]).

(** The next value of the primary key. *)
Definition next_id (table : list FeedbackEntry) : Z :=
  1 + foldr Z.max 0 (id <$> table).

Definition persist (now : Z) (i : Z) (d : draft) : FeedbackEntry :=
  MkFeedbackEntry i (d_text d) (d_sentiment d) (d_sentiment_confidence d)
    (d_category d) (d_category_confidence d) (d_tags d) now
    (d_analysis_duration_ms d) (d_model_used d).

(** The INSERTs of a flush. *)
Fixpoint flush (now : Z) (i : Z) (ds : list draft) : list FeedbackEntry :=
  match ds with
  | [] => []
  | d :: ds' => persist now i d :: flush now (i + 1) ds'
  end.

Section Database.

(** The clock of the database, and the failures of the database: the text
    of the error [commit], respectively [refresh], raises, if any. *)
Variable now : Z.
Variable commit_error : option str.
Variable refresh_error : option str.

(** [db.add(obj)] *)
Definition db_add (d : draft) : M unit :=
  fun s => (MkSession (rows s) (new s ++ [d]) (ops s ++ [OpAdd]), Ok tt).

(** [await db.commit()]: all pending objects are written, or none; the
    rows written are returned, the objects of [session.new] having received
    their primary key. *)
Definition db_commit : M (list FeedbackEntry) :=
  fun s =>
    match commit_error with
    | Some msg => (log_op OpCommit s, Err (OtherException msg))
    | None =>
        let written := flush now (next_id (rows s)) (new s) in
        (MkSession (rows s ++ written) [] (ops s ++ [OpCommit]), Ok written)
    end.

(** [await db.refresh(obj)]: the row of [obj] is read again. *)
Definition db_refresh (obj : FeedbackEntry) : M FeedbackEntry :=
  fun s =>
    match refresh_error with
    | Some msg => (log_op OpRefresh s, Err (OtherException msg))
    | None =>
        match list_find (fun e => id e = id obj) (rows s) with
        | Some (_, e) => (log_op OpRefresh s, Ok e)
        | None =>
            (log_op OpRefresh s,
             Err (OtherException (py "Could not refresh instance")))
        end
    end.

(** [await db.rollback()]: the pending objects are dropped. *)
Definition db_rollback : M unit :=
  fun s => (MkSession (rows s) [] (ops s ++ [OpRollback]), Ok tt).

End Database.

End Storage.

(** ** [app/main.py]: exceptions to responses *)

Module Main.

(** A response: its status code and, for an error, the text sent. *)
Inductive response (A : Type) : Type :=
| Success (body : A)
| Failure (status_code : Z) (message : str).
Arguments Success {A} body.
Arguments Failure {A} status_code message.

Definition status_of {A} (r : response A) : Z :=
  match r with Success _ => 200 | Failure c _ => c end.

(** [api_error_handler] for the exceptions of the application,
    [general_exception_handler] for the others; an [HTTPException] is
    answered by the framework with its own status code. *)
Definition exception_response {A} (e : exn) : response A :=
  match e with
  | HTTPException status_code detail => Failure status_code detail
  | _ =>
      match api_status_code e with
      | Some status_code => Failure status_code (exn_str e)
      | None => Failure 500 (py "An unexpected error occurred")
      end
  end.

End Main.

(** ** [app/routers/feedback.py] and [app/services/feedback_service.py] *)

Module Feedback.
Import Schemas Storage Main.
Local Open Scope session_scope.

(** [int(x)] for a float: truncation towards zero. *)
Definition int_of (x : Q) : Z := Z.quot (Qnum x) (Zpos (Qden x)).

(** [FeedbackResponse.model_validate(db_feedback)]: the sentiment has to be
    a member of [SentimentEnum]. *)
Definition FeedbackResponse_model_validate (e : FeedbackEntry)
  : result exn FeedbackResponse :=
  if bool_decide (sentiment e ∈ SentimentEnum)
  then Ok (MkFeedbackResponse (id e) (text e) (sentiment e)
             (sentiment_confidence e) (category e) (category_confidence e)
             (tags e) (created_at e) (analysis_duration_ms e) (model_used e))
  else Err (OtherException (py "validation error for FeedbackResponse")).

Definition lift {A} (r : result exn A) : M A := fun s => (s, r).

Section Analyze.

(** The gateway, as in [AIService]. *)
Variable _analyze_sentiment : str -> str -> result exn AIService.sentiment_result.
Variable _categorize_feedback : str -> str -> result exn AIService.category_result.
Variable sentiment_fails_first : str -> str -> bool.

(** The database, as in [Storage]. *)
Variable now : Z.
Variable commit_error : option str.
Variable refresh_error : option str.

(** [await ai_client.analyze_feedback(text)]; subscripting [None] raises
    [TypeError]. *)
Definition ai_analyze_feedback (text : str) : M AIService.analysis :=
  match (AIService.analyze_feedback _analyze_sentiment _categorize_feedback
           sentiment_fails_first text).2 with
  | Ok (Some analysis) => ret analysis
  | Ok None =>
      raise (OtherException (py "'NoneType' object is not subscriptable"))
  | Err e => raise e
  end.

(** [FeedbackEntry(text=..., ..., model_used=analysis["model_used"])] *)
Definition new_entry (feedback : FeedbackCreate.t)
    (analysis : AIService.analysis) (duration_ms : Z) : draft :=
  MkDraft (FeedbackCreate.text feedback)
    (AIService.sentiment analysis) (AIService.sentiment_confidence analysis)
    (AIService.category analysis) (AIService.category_confidence analysis)
    (FeedbackCreate.tags feedback) duration_ms (AIService.model_used analysis).

(** [db.add(db_feedback); await db.commit(); await db.refresh(db_feedback);
    return FeedbackResponse.model_validate(db_feedback)]: [db_feedback] is
    the object added last. *)
Definition save (db_feedback : draft) : M FeedbackResponse :=
  db_add db_feedback ;;;
  written <- db_commit now commit_error ;;
  match last written with
  | None => raise (OtherException (py "object was not persisted"))
  | Some obj =>
      obj' <- db_refresh refresh_error obj ;;
      lift (FeedbackResponse_model_validate obj')
  end.

(** The handler of [POST /api/feedback/analyze]; [start_time] and [end_time]
    are the two readings of [time.time()]. *)
Definition analyze_feedback (start_time end_time : Q)
    (feedback : FeedbackCreate.t) : M FeedbackResponse :=
  try_except
    (analysis <- ai_analyze_feedback (FeedbackCreate.text feedback) ;;
     let duration_ms := int_of ((end_time - start_time) * 1000)%Q in
     let db_feedback := new_entry feedback analysis duration_ms in
     save db_feedback)
    (fun e =>
       if is_AIServiceError e
       then db_rollback ;;; raise (HTTPException 503 (exn_str e))
       else db_rollback ;;; raise (HTTPException 500 (py "Internal server error"))).

(** [FeedbackService.analyze_and_save_feedback] *)
Definition analyze_and_save_feedback (feedback_data : FeedbackCreate.t)
    (start_time end_time : Q) : M FeedbackResponse :=
  try_except
    (analysis <- ai_analyze_feedback (FeedbackCreate.text feedback_data) ;;
     let duration_ms := int_of ((end_time - start_time) * 1000)%Q in
     let db_feedback := new_entry feedback_data analysis duration_ms in
     save db_feedback)
    (fun e =>
       if is_AIServiceError e
       then db_rollback ;;; raise e
       else db_rollback ;;; raise e).

(** [list(set(...))], see [Schemas.FeedbackCreate.validate_tags]. *)
Variable list_of_set : list str -> list str.

(** [POST /api/feedback/analyze] as the client sees it: the body is
    validated before the handler runs, a body that fails is answered 422. *)
Definition post_analyze (start_time end_time : Q) (b : FeedbackCreate.body)
  : session -> session * response FeedbackResponse :=
  fun s =>
    match FeedbackCreate.model_validate list_of_set b with
    | Err e => (s, Failure 422 e)
    | Ok feedback =>
        match analyze_feedback start_time end_time feedback s with
        | (s', Ok r) => (s', Success r)
        | (s', Err e) => (s', exception_response e)
        end
    end.

End Analyze.

Section List.

(** [str.lower] *)
Variable lower : str -> str.

(** The operators of the database: [value ILIKE pattern],
    [value LIKE pattern], [json_extract(tags, '$')] and
    [ORDER BY created_at DESC]. *)
Variable ilike : str -> str -> bool.
Variable like : str -> str -> bool.
Variable json_extract_root : list str -> str.
Variable order_by_created_at_desc : list FeedbackEntry -> list FeedbackEntry.

(** The query parameters. *)
Record list_params : Type := ListParams {
  p_page : Z;
  p_page_size : Z;
  p_sentiment : option str;
  p_category : option str;
  p_search : option str;
  p_tag : option str
}.

(** [if x:] for an optional string. *)
Definition supplied (x : option str) : option str :=
  match x with
  | Some s => if truthy s then Some s else None
  | None => None
  end.

(** The conditions of the source. *)
Definition sentiment_is (validated_sentiment : str) (e : FeedbackEntry) : bool :=
  bool_decide (sentiment e = validated_sentiment).

Definition category_ilike (category : str) (e : FeedbackEntry) : bool :=
  ilike (Storage.category e) (py "%" ++ category ++ py "%").

Definition text_ilike (search : str) (e : FeedbackEntry) : bool :=
  ilike (text e) (py "%" ++ search ++ py "%").

Definition tags_like (tag : str) (e : FeedbackEntry) : bool :=
  like (json_extract_root (tags e))
       (py "%" ++ [34%N] ++ tag ++ [34%N] ++ py "%").

(** The list [filters] the handler builds. *)
Definition build_filters (q : list_params) : list (FeedbackEntry -> bool) :=
  let filters := [] in
  let filters :=
    match supplied (p_sentiment q) with
    | Some sentiment =>
        match Validators.validate_sentiment lower (Some sentiment) with
        | Some validated_sentiment =>
            filters ++ [sentiment_is validated_sentiment]
        | None => filters
        end
    | None => filters
    end in
  let filters :=
    match supplied (p_category q) with
    | Some category => filters ++ [category_ilike category]
    | None => filters
    end in
  let filters :=
    match supplied (p_search q) with
    | Some search => filters ++ [text_ilike search]
    | None => filters
    end in
  let filters :=
    match supplied (p_tag q) with
    | Some tag => filters ++ [tags_like tag]
    | None => filters
    end in
  filters.

(** The disjunction [or_] of the conditions of [filters]. *)
Definition or_ (filters : list (FeedbackEntry -> bool)) (e : FeedbackEntry)
  : bool :=
  existsb (fun f => f e) filters.

(** [query.where(...)] with that disjunction, when [filters] is not
    empty. *)
Definition where_filters (filters : list (FeedbackEntry -> bool))
    (table : list FeedbackEntry) : list FeedbackEntry :=
  match filters with
  | [] => table
  | _ => List.filter (or_ filters) table
  end.

Definition to_response (e : FeedbackEntry) : FeedbackResponse :=
  MkFeedbackResponse (id e) (text e) (sentiment e)
    (sentiment_confidence e) (category e) (category_confidence e)
    (tags e) (created_at e) (analysis_duration_ms e) (model_used e).

(** The rows the query selects, before [offset] and [limit]. *)
Definition selected (q : list_params) (table : list FeedbackEntry)
  : list FeedbackEntry :=
  order_by_created_at_desc (where_filters (build_filters q) table).

(** [[FeedbackResponse.model_validate(item) for item in items]]: the first
    row that fails its validation raises. *)
Fixpoint validate_items (items : list FeedbackEntry)
  : result exn (list FeedbackResponse) :=
  match items with
  | [] => Ok []
  | item :: items' =>
      match FeedbackResponse_model_validate item with
      | Err e => Err e
      | Ok r =>
          match validate_items items' with
          | Err e => Err e
          | Ok rs => Ok (r :: rs)
          end
      end
  end.

(** [get_feedback_list]: the count query, then the query of the page, whose
    offset the driver binds, then the validation of its rows. *)
Definition get_feedback_list (q : list_params) (table : list FeedbackEntry)
  : result exn (PaginatedResponse FeedbackResponse) :=
  let '(page, page_size) :=
    Validators.validate_pagination (p_page q) (p_page_size q) in
  let filters := build_filters q in
  let total := Z.of_nat (length (where_filters filters table)) in
  let offset := (page - 1) * page_size in
  if bool_decide (sqlite_integer offset)
  then
    let items :=
      take (Z.to_nat page_size) (drop (Z.to_nat offset) (selected q table)) in
    match validate_items items with
    | Err e => Err e
    | Ok items =>
        Ok (MkPaginatedResponse items total page page_size
              (if 0 <? total then (total + page_size - 1) / page_size else 0))
    end
  else Err overflow_error.

End List.

End Feedback.

(** *** Validation of the text of a feedback *)

Module TextFacts.
Import Schemas Storage Main Feedback.

Lemma strip_nil : strip [] = [].
Proof. done. Qed.

Lemma truthy_false_iff (s : str) : truthy s = false <-> s = [].
Proof. by destruct s. Qed.

(** The field [text] is accepted exactly when the value received has at most
    5000 characters and is not made of white space only. *)
Lemma text_field_ok_iff v :
  is_ok (FeedbackCreate.text_field v) = true
  <-> len v <= 5000 /\ strip v <> [].
Proof.
  unfold FeedbackCreate.text_field, Field_str, FeedbackCreate.validate_text.
  destruct (Z.ltb_spec (len v) 1) as [H1|H1]; simpl.
  - assert (v = []) as ->
      by (apply len_zero_iff; pose proof (len_nonneg v); lia).
    split; [done|]. by intros [_ []].
  - destruct (Z.ltb_spec 5000 (len v)) as [H2|H2]; simpl.
    + split; [done|]. intros [? _]. lia.
    + destruct (strip v) eqn:E; simpl.
      * split; [done|]. by intros [_ []].
      * split; [|done]. intros _. split; [lia|done].
Qed.

Lemma text_field_accepts v :
  len v <= 5000 -> strip v <> [] ->
  FeedbackCreate.text_field v = Ok (strip v).
Proof.
  intros Hlen Hne.
  pose proof (proj2 (text_field_ok_iff v) (conj Hlen Hne)) as Hok.
  unfold FeedbackCreate.text_field, Field_str, FeedbackCreate.validate_text in *.
  destruct (len v <? 1); [done|]. destruct (5000 <? len v); [done|].
  simpl in *. by destruct (strip v).
Qed.

(** The cleaner of the validation utilities accepts exactly the texts whose
    trimmed form has 1 to 5000 characters. *)
Lemma validate_feedback_text_ok_iff v :
  is_ok (Validators.validate_feedback_text v) = true
  <-> 1 <= len (strip v) <= 5000.
Proof.
  unfold Validators.validate_feedback_text.
  destruct v as [|c v]; [simpl; split; [done|unfold len; simpl; lia]|].
  destruct (strip (c :: v)) as [|d t] eqn:E.
  - simpl. split; [done|]. unfold len. simpl. lia.
  - change (negb (truthy (c :: v)) || negb (truthy (d :: t))) with false.
    cbv iota. destruct (Z.ltb_spec 5000 (len (d :: t))); simpl.
    + split; [done|lia].
    + split; [|done]. intros _. split; [|done]. unfold len. simpl. lia.
Qed.

End TextFacts.

(** *** The classify-then-persist flow *)

Module AnalyzeFacts.
Import Schemas Storage Main Feedback.

Section Flow.

Variable _analyze_sentiment : str -> str -> result exn AIService.sentiment_result.
Variable _categorize_feedback : str -> str -> result exn AIService.category_result.
Variable sentiment_fails_first : str -> str -> bool.
Variable now : Z.
Variable commit_error : option str.
Variable refresh_error : option str.

(** The outcome of the client for a text. *)
Definition client (text : str) : result exn (option AIService.analysis) :=
  (AIService.analyze_feedback _analyze_sentiment _categorize_feedback
     sentiment_fails_first text).2.

(** With the list of the source the client returns an analysis or raises an
    [AIServiceError]. *)
Lemma client_cases text :
  (exists a, client text = Ok (Some a))
  \/ (exists msg, client text = Err (AIServiceError msg)).
Proof.
  unfold client, AIService.analyze_feedback, AIService.analyze_feedback_with,
    AIService.models.
  cbn [AIService.analyze_loop].
  destruct (AIService.call_pair _ _ _ text _) as [p|e].
  - left. by eexists.
  - right. rewrite bool_decide_eq_true_2 by done. by eexists.
Qed.

(** The state a failed flow leaves, by the place of the failure:
    [before_commit] when the client or [commit] fails, [after_commit] when
    [refresh] or the validation of the response fails. *)
Definition rolled_back (s : session) (calls : list db_op) : session :=
  MkSession (rows s) [] (ops s ++ calls ++ [OpRollback]).

Definition committed (s : session) (d : draft) (calls : list db_op)
  : session :=
  MkSession (rows s ++ flush now (next_id (rows s)) (new s ++ [d])) []
            (ops s ++ calls ++ [OpRollback]).

Definition duration (start_time end_time : Q) : Z :=
  int_of ((end_time - start_time) * 1000)%Q.

Lemma flush_snoc_last t i ds d :
  exists obj, last (flush t i (ds ++ [d])) = Some obj.
Proof.
  revert i. induction ds as [|x ds IH]; intros i; simpl.
  - by eexists.
  - destruct (IH (i + 1)) as [obj Hobj]. exists obj.
    destruct (flush t (i + 1) (ds ++ [d])); [done|]. exact Hobj.
Qed.

Lemma model_validate_error obj e :
  FeedbackResponse_model_validate obj = Err e -> exists t, e = OtherException t.
Proof.
  unfold FeedbackResponse_model_validate. case_bool_decide; [done|].
  intros [= <-]. by eexists.
Qed.

(** The [try] block, which the router and the service share word for word:
    a failing run stops at the client, at [commit], or after the commit. *)
Lemma try_block_failure start_time end_time feedback s s1 e :
  (analysis <- ai_analyze_feedback _analyze_sentiment _categorize_feedback
                 sentiment_fails_first (FeedbackCreate.text feedback) ;;
   save now commit_error refresh_error
        (new_entry feedback analysis (duration start_time end_time)))%session
    s = (s1, Err e) ->
  (exists msg,
      client (FeedbackCreate.text feedback) = Err (AIServiceError msg)
      /\ e = AIServiceError msg /\ s1 = s)
  \/ (exists a t,
        client (FeedbackCreate.text feedback) = Ok (Some a)
        /\ e = OtherException t
        /\ ((is_Some commit_error
             /\ s1 = MkSession (rows s)
                      (new s ++ [new_entry feedback a
                                   (duration start_time end_time)])
                      (ops s ++ [OpAdd; OpCommit]))
            \/ (commit_error = None
                /\ s1 = MkSession
                          (rows s ++ flush now (next_id (rows s))
                             (new s ++ [new_entry feedback a
                                          (duration start_time end_time)]))
                          [] (ops s ++ [OpAdd; OpCommit; OpRefresh])))).
Proof.
  unfold bind, ai_analyze_feedback.
  fold (client (FeedbackCreate.text feedback)).
  destruct (client_cases (FeedbackCreate.text feedback)) as [[a Ha]|[msg Hm]].
  - rewrite Ha. unfold ret, save, bind, db_add, db_commit.
    destruct commit_error as [cmsg|] eqn:Ec.
    + simpl. intros [= <- <-]. right. exists a, cmsg. split; [done|].
      split; [done|]. left. split; [by eexists|].
      unfold log_op; cbn [rows new ops]; rewrite <- ?app_assoc; done.
    + cbn [rows new ops].
      destruct (flush_snoc_last now (next_id (rows s)) (new s)
                  (new_entry feedback a (duration start_time end_time)))
        as [obj Hobj].
      rewrite Hobj. unfold db_refresh, lift, log_op.
      intros Hrun. right. exists a.
      destruct refresh_error as [rmsg|].
      * injection Hrun as <- <-. exists rmsg. split; [done|].
        split; [done|]. right. split; [done|].
        cbn [rows new ops]. rewrite <- ?app_assoc. done.
      * cbn [rows new ops] in Hrun.
        destruct (list_find _ _) as [[? obj']|].
        -- destruct (FeedbackResponse_model_validate obj') as [r|e0] eqn:Ev;
             [done|].
           destruct (model_validate_error _ _ Ev) as [t ->].
           injection Hrun as <- <-. exists t. split; [done|].
           split; [done|]. right. split; [done|].
           cbn [rows new ops]; rewrite <- ?app_assoc; done.
        -- injection Hrun as <- <-. eexists. split; [done|].
           split; [done|]. right. split; [done|].
           cbn [rows new ops]; rewrite <- ?app_assoc; done.
  - rewrite Hm. unfold raise. intros [= <- <-].
    left. by exists msg.
Qed.

(** A failing run of the handler of the router. *)
Lemma analyze_feedback_failure start_time end_time feedback s s' e :
  analyze_feedback _analyze_sentiment _categorize_feedback
    sentiment_fails_first now commit_error refresh_error
    start_time end_time feedback s = (s', Err e) ->
  (exists msg,
      client (FeedbackCreate.text feedback) = Err (AIServiceError msg)
      /\ e = HTTPException 503 msg
      /\ s' = rolled_back s [])
  \/ (exists a,
        client (FeedbackCreate.text feedback) = Ok (Some a)
        /\ e = HTTPException 500 (py "Internal server error")
        /\ ((is_Some commit_error /\ s' = rolled_back s [OpAdd; OpCommit])
            \/ (commit_error = None
                /\ s' = committed s
                          (new_entry feedback a (duration start_time end_time))
                          [OpAdd; OpCommit; OpRefresh]))).
Proof.
  unfold analyze_feedback, try_except.
  fold (duration start_time end_time).
  destruct (bind _ _ s) as [s1 [r|e0]] eqn:Hbody; [done|].
  apply try_block_failure in Hbody
    as [(msg & Hc & -> & ->)|(a & t & Hc & -> & Hs1)].
  - simpl. intros [= <- <-]. left. exists msg. split; [done|].
    split; [done|]. unfold rolled_back. by rewrite app_nil_l.
  - simpl. unfold db_rollback, bind, raise. intros Hrun.
    right. exists a. split; [done|].
    destruct Hs1 as [[Hce ->]|[Hce ->]];
      simpl in Hrun; injection Hrun as <- <-;
      (split; [done|]); [left|right]; (split; [done|]);
      unfold rolled_back, committed; simpl; by rewrite <- ?app_assoc.
Qed.

(** A failing run of the service: the same states, the exception unchanged. *)
Lemma analyze_and_save_feedback_failure start_time end_time feedback s s' e :
  analyze_and_save_feedback _analyze_sentiment _categorize_feedback
    sentiment_fails_first now commit_error refresh_error
    feedback start_time end_time s = (s', Err e) ->
  (exists msg,
      client (FeedbackCreate.text feedback) = Err (AIServiceError msg)
      /\ e = AIServiceError msg
      /\ s' = rolled_back s [])
  \/ (exists a t,
        client (FeedbackCreate.text feedback) = Ok (Some a)
        /\ e = OtherException t
        /\ ((is_Some commit_error /\ s' = rolled_back s [OpAdd; OpCommit])
            \/ (commit_error = None
                /\ s' = committed s
                          (new_entry feedback a (duration start_time end_time))
                          [OpAdd; OpCommit; OpRefresh]))).
Proof.
  unfold analyze_and_save_feedback, try_except.
  fold (duration start_time end_time).
  destruct (bind _ _ s) as [s1 [r|e0]] eqn:Hbody; [done|].
  apply try_block_failure in Hbody
    as [(msg & Hc & -> & ->)|(a & t & Hc & -> & Hs1)].
  - simpl. intros [= <- <-]. left. exists msg. split; [done|].
    split; [done|]. unfold rolled_back. by rewrite app_nil_l.
  - simpl. unfold db_rollback, bind, raise. intros Hrun.
    right. exists a, t. split; [done|].
    destruct Hs1 as [[Hce ->]|[Hce ->]];
      simpl in Hrun; injection Hrun as <- <-;
      (split; [done|]); [left|right]; (split; [done|]);
      unfold rolled_back, committed; simpl; by rewrite <- ?app_assoc.
Qed.

End Flow.

End AnalyzeFacts.

Module FeedbackClaims.
Import Schemas Storage Main Feedback TextFacts AnalyzeFacts.

(** 5000 spaces and one letter. *)
Definition padded_text : str := replicate (Z.to_nat 5000) 32%N ++ py "x".

Definition empty_session : session := MkSession [] [] [].

(** The trimmed form of [padded_text] has one character, and the field
    [text] rejects it: the length is checked on the text as received, which
    has 5001 characters. *)
Lemma text_field_rejects_padded_text :
  strip padded_text = py "x"
  /\ len (strip padded_text) = 1
  /\ len padded_text = 5001
  /\ FeedbackCreate.text_field padded_text = Err (py "string_too_long")
  /\ is_ok (Validators.validate_feedback_text padded_text) = true.
Proof. repeat split; by vm_compute. Qed.

(** C1, amended.  The field [text] of [FeedbackCreate] accepts every text of
    at most 5000 characters, as received, whose trimmed form is not empty, and
    yields the trimmed form; it rejects every text that is empty or made of
    white space only, and every text of more than 5000 characters as received,
    hence every text whose trimmed form exceeds 5000 characters.  A body whose
    text is rejected is answered 422 and the session is left as it was: no
    call to the database is made. *)
Theorem text_validation :
  forall v : str,
    (len v <= 5000 -> strip v <> [] ->
     FeedbackCreate.text_field v = Ok (strip v))
    /\ (strip v = [] -> is_ok (FeedbackCreate.text_field v) = false)
    /\ (5000 < len v -> is_ok (FeedbackCreate.text_field v) = false)
    /\ (5000 < len (strip v) -> is_ok (FeedbackCreate.text_field v) = false)
    /\ (is_ok (FeedbackCreate.text_field v) = false ->
        forall _analyze_sentiment _categorize_feedback sentiment_fails_first
               now commit_error refresh_error list_of_set
               start_time end_time tags s,
        exists e,
          post_analyze _analyze_sentiment _categorize_feedback
            sentiment_fails_first now commit_error refresh_error list_of_set
            start_time end_time (FeedbackCreate.Body v tags) s
          = (s, Failure 422 e)).
Proof.
  intros v.
  assert (forall P : Prop, (P -> ~ (len v <= 5000 /\ strip v <> [])) ->
                           P -> is_ok (FeedbackCreate.text_field v) = false)
    as Hrej.
  { intros P HP p. destruct (is_ok _) eqn:E; [|done].
    apply text_field_ok_iff in E. by apply HP in E. }
  split; [apply text_field_accepts|].
  split; [apply Hrej; by intros -> [_ []]|].
  split; [apply Hrej; intros ? [? _]; lia|].
  split.
  { apply Hrej. intros ? [? _]. pose proof (len_strip_le v). lia. }
  intros Hv sent cat sff now ce re los t0 t1 tags s.
  unfold post_analyze, FeedbackCreate.model_validate. simpl.
  destruct (FeedbackCreate.text_field v) as [t|e]; [done|]. by exists e.
Qed.

Lemma text_validation_witness :
  FeedbackCreate.text_field (py "  Great product!  ")
  = Ok (py "Great product!")
  /\ is_ok (FeedbackCreate.text_field (py "   ")) = false
  /\ is_ok (FeedbackCreate.text_field padded_text) = false
  /\ is_ok (FeedbackCreate.text_field
              (replicate (Z.to_nat 5001) 120%N)) = false
  /\ (exists e,
        post_analyze (fun _ _ => Err (AIServiceError [])) 
          (fun _ _ => Err (AIServiceError [])) (fun _ _ => true)
          0 None None (fun l => l) 0%Q 0%Q
          (FeedbackCreate.Body (py "   ") None) empty_session
        = (empty_session, Failure 422 e)).
Proof.
  split; [|split; [|split; [|split]]].
  - apply (proj1 (text_validation (py "  Great product!  "))).
    + by vm_compute.
    + by vm_compute.
  - apply (proj1 (proj2 (text_validation (py "   ")))). by vm_compute.
  - apply (proj1 (proj2 (proj2 (text_validation padded_text)))).
    by vm_compute.
  - apply (proj1 (proj2 (proj2 (proj2
             (text_validation (replicate (Z.to_nat 5001) 120%N)))))).
    by vm_compute.
  - apply (proj2 (proj2 (proj2 (proj2 (text_validation (py "   ")))))).
    by vm_compute.
Defined.

(** What a failed classify-and-save leaves in the session [s'], started
    from [s]: the last call is a rollback, nothing is pending, and the table
    is the one before, or, when the failure came after a successful commit,
    the one before with the rows of that commit, each a complete record. *)
Definition left_rolled_back (now : Z) (commit_error : option str)
    (client : result exn (option AIService.analysis))
    (d : AIService.analysis -> draft) (s s' : session) : Prop :=
  last (ops s') = Some OpRollback
  /\ ops s `prefix_of` ops s'
  /\ new s' = []
  /\ (rows s' = rows s
      \/ (commit_error = None
          /\ exists a, client = Ok (Some a)
                       /\ rows s' = rows s ++ flush now (next_id (rows s))
                                                (new s ++ [d a])))
  /\ (is_ok client = false \/ is_Some commit_error -> rows s' = rows s).

Lemma rolled_back_left now ce client d s calls :
  left_rolled_back now ce client d s (rolled_back s calls).
Proof.
  unfold left_rolled_back, rolled_back. simpl.
  split; [by rewrite app_assoc, last_snoc|].
  split; [by eexists|]. split; [done|]. split; [by left|done].
Qed.

Lemma committed_left now client d s a calls :
  client = Ok (Some a) ->
  left_rolled_back now None client d s (committed now s (d a) calls).
Proof.
  intros Hc. unfold left_rolled_back, committed. simpl.
  split; [by rewrite app_assoc, last_snoc|].
  split; [by eexists|]. split; [done|].
  split; [right; split; [done|]; by exists a|].
  rewrite Hc. intros [?|[? ?]]; done.
Qed.

(** Every failing run of the classify-then-persist flow, in the handler of
    [POST /api/feedback/analyze] as in
    [FeedbackService.analyze_and_save_feedback], calls the rollback before
    the error leaves the function: the rollback is the last call made and no
    object is left pending.  The table is unchanged when the client or the
    commit failed; when the failure came after a successful commit, the rows
    of that commit stay.  The router turns an [AIServiceError] into a 503
    and any other error into a 500 "Internal server error"; the service
    re-raises the error unchanged, which the handlers of the application
    answer with 503 for an [AIServiceError] and with the generic 500
    otherwise. *)
Lemma failing_run_calls_rollback :
  forall _analyze_sentiment _categorize_feedback sentiment_fails_first
         (now : Z) (commit_error refresh_error : option str)
         (start_time end_time : Q) (feedback : FeedbackCreate.t)
         (s s' : session) (e : exn),
    let client :=
      client _analyze_sentiment _categorize_feedback sentiment_fails_first
             (FeedbackCreate.text feedback) in
    let d := fun a => new_entry feedback a (duration start_time end_time) in
    (analyze_feedback _analyze_sentiment _categorize_feedback
       sentiment_fails_first now commit_error refresh_error
       start_time end_time feedback s = (s', Err e) ->
     left_rolled_back now commit_error client d s s'
     /\ match client with
        | Err e0 =>
            is_AIServiceError e0 = true /\ e = HTTPException 503 (exn_str e0)
        | Ok _ => e = HTTPException 500 (py "Internal server error")
        end)
    /\ (analyze_and_save_feedback _analyze_sentiment _categorize_feedback
          sentiment_fails_first now commit_error refresh_error
          feedback start_time end_time s = (s', Err e) ->
        left_rolled_back now commit_error client d s s'
        /\ match client with
           | Err e0 =>
               is_AIServiceError e0 = true /\ e = e0
               /\ status_of (exception_response (A:=FeedbackResponse) e) = 503
           | Ok _ =>
               is_AIServiceError e = false
               /\ exception_response (A:=FeedbackResponse) e
                  = Failure 500 (py "An unexpected error occurred")
           end).
Proof.
  intros sent cat sff now ce re t0 t1 feedback s s' e client d.
  split; intros Hrun.
  - apply analyze_feedback_failure in Hrun
      as [(msg & Hc & -> & ->)|(a & Hc & -> & [[Hce ->]|[-> ->]])];
      fold client in Hc; rewrite Hc.
    + split; [apply rolled_back_left|done].
    + split; [apply rolled_back_left|done].
    + split; [|done]. rewrite <- Hc. by apply (committed_left now client d).
  - apply analyze_and_save_feedback_failure in Hrun
      as [(msg & Hc & -> & ->)|(a & t & Hc & -> & [[Hce ->]|[-> ->]])];
      fold client in Hc; rewrite Hc.
    + split; [apply rolled_back_left|done].
    + split; [apply rolled_back_left|done].
    + split; [|done]. rewrite <- Hc. by apply (committed_left now client d).
Qed.

(** A gateway that answers 503 to every call, and one that answers. *)
Definition gateway_down {A} (text model : str) : result exn A :=
  Err (AIServiceError (py "AI service error: 503")).

Definition sentiment_up (text model : str)
  : result exn AIService.sentiment_result :=
  Ok (AIService.SentimentResult (py "positive") (95 # 100)
        (py "Positive language detected")).

Definition category_up (text model : str)
  : result exn AIService.category_result :=
  Ok (AIService.CategoryResult (py "Product Quality") (88 # 100)
        (py "Mentions product features")).

Definition great_product : FeedbackCreate.t :=
  FeedbackCreate.Make (py "Great product!") [py "product"].

Lemma failing_run_calls_rollback_examples :
  (* the gateway is down: router *)
  (exists s' msg,
      analyze_feedback gateway_down gateway_down (fun _ _ => true)
        1700000000 None None 0%Q 1%Q great_product empty_session
      = (s', Err (HTTPException 503 msg))
      /\ rows s' = [] /\ new s' = [] /\ ops s' = [OpRollback])
  (* the commit fails: service *)
  /\ (exists s' e,
        analyze_and_save_feedback sentiment_up category_up (fun _ _ => true)
          1700000000 (Some (py "database is locked")) None
          great_product 0%Q 1%Q empty_session
        = (s', Err e)
        /\ rows s' = [] /\ new s' = []
        /\ last (ops s') = Some OpRollback
        /\ exception_response (A:=FeedbackResponse) e
           = Failure 500 (py "An unexpected error occurred")).
Proof.
  split.
  - eexists _, _. split; [by vm_compute|].
    destruct (failing_run_calls_rollback gateway_down gateway_down
                (fun _ _ => true) 1700000000 None None 0%Q 1%Q great_product
                empty_session
                (MkSession [] [] [OpRollback])
                (HTTPException 503
                   (py "All models failed. Last error: AI service error: 503")))
      as [Hrouter _].
    destruct Hrouter as [(_ & _ & Hnew & _ & Hrows) _]; [by vm_compute|].
    split; [|split; [exact Hnew|reflexivity]].
    apply Hrows. left. by vm_compute.
  - eexists _, _. split; [by vm_compute|].
    destruct (failing_run_calls_rollback sentiment_up category_up
                (fun _ _ => true) 1700000000
                (Some (py "database is locked")) None 0%Q 1%Q great_product
                empty_session
                (MkSession [] [] [OpAdd; OpCommit; OpRollback])
                (OtherException (py "database is locked")))
      as [_ Hservice].
    destruct Hservice as [(Hlast & _ & Hnew & _ & Hrows) Hst];
      [by vm_compute|].
    split; [apply Hrows; right; by eexists|].
    split; [exact Hnew|]. split; [exact Hlast|].
    exact (proj2 Hst).
Defined.

(** The entry the flow writes for [great_product]. *)
Definition great_product_entry : FeedbackEntry :=
  MkFeedbackEntry 1 (py "Great product!") (py "positive") (95 # 100)
    (py "Product Quality") (88 # 100) [py "product"] 1700000000 1000
    (py "qwen/qwen3-235b-a22b-07-25:free").

(** C6. A classify-then-persist run that fails after its commit leaves the
    entry in the table.  The gateway answers, [commit] succeeds and [refresh]
    raises: the handler of [POST /api/feedback/analyze] calls the rollback
    and raises the HTTP error 500, [FeedbackService.analyze_and_save_feedback]
    calls the rollback and raises the error of the database, answered with the
    generic 500; in both the rollback comes after the commit, cannot undo it,
    and the table that was empty holds the entry of the failed request. *)
Theorem committed_entry_survives_failed_refresh :
  analyze_feedback sentiment_up category_up (fun _ _ => true)
    1700000000 None (Some (py "database is locked"))
    0%Q 1%Q great_product empty_session
  = (MkSession [great_product_entry] []
       [OpAdd; OpCommit; OpRefresh; OpRollback],
     Err (HTTPException 500 (py "Internal server error")))
  /\ analyze_and_save_feedback sentiment_up category_up (fun _ _ => true)
       1700000000 None (Some (py "database is locked"))
       great_product 0%Q 1%Q empty_session
     = (MkSession [great_product_entry] []
          [OpAdd; OpCommit; OpRefresh; OpRollback],
        Err (OtherException (py "database is locked")))
  /\ exception_response (A:=FeedbackResponse)
       (OtherException (py "database is locked"))
     = Failure 500 (py "An unexpected error occurred").
Proof. split; [by vm_compute|]. split; by vm_compute. Qed.

(** A run that succeeds: one row is written, with the model of the source,
    and nothing is rolled back. *)
Example analyze_feedback_success :
  exists s' r,
    analyze_feedback sentiment_up category_up (fun _ _ => true)
      1700000000 None None 0%Q (3 # 2) great_product empty_session
    = (s', Ok r)
    /\ ops s' = [OpAdd; OpCommit; OpRefresh]
    /\ new s' = []
    /\ rows s'
       = [ MkFeedbackEntry 1 (py "Great product!") (py "positive") (95 # 100)
             (py "Product Quality") (88 # 100) [py "product"] 1700000000 1500
             (py "qwen/qwen3-235b-a22b-07-25:free") ]
    /\ r_id r = 1 /\ r_analysis_duration_ms r = 1500.
Proof. eexists _, _. repeat split; by vm_compute. Qed.

End FeedbackClaims.

(** ** The operators of the database on ASCII data

    [LIKE] of SQLite ([%] any sequence, [_] any character, letters compared
    without case), [ILIKE] as SQLAlchemy renders it for SQLite, the text
    [json_extract(tags, '$')] returns for tags without quotes or backslashes,
    and a sort by [created_at] descending.  The handlers take these
    operators as parameters; the definitions here instantiate them on
    concrete data. *)

Module Sql.
Import Storage.

Definition lower_ascii (c : N) : N :=
  (if (65 <=? c) && (c <=? 90) then c + 32 else c)%N.

(** [value LIKE pattern] *)
Fixpoint like_from (pattern value : str) : bool :=
  match pattern with
  | [] => match value with [] => true | _ => false end
  | p :: pattern' =>
      if (p =? 37)%N then
        (fix any (v : str) : bool :=
           like_from pattern' v
           || match v with [] => false | _ :: v' => any v' end) value
      else
        match value with
        | [] => false
        | c :: value' =>
            ((p =? 95) || (lower_ascii p =? lower_ascii c))%N
            && like_from pattern' value'
        end
  end.

Definition like (value pattern : str) : bool := like_from pattern value.

(** [lower(value) LIKE lower(pattern)] *)
Definition ilike (value pattern : str) : bool :=
  like (lower_ascii <$> value) (lower_ascii <$> pattern).

(** The JSON text of a list of tags. *)
Definition json_extract_root (tags : list str) : str :=
  let quote (t : str) : str := 34%N :: t ++ [34%N] in
  py "[" ++
  (fix join (l : list str) : str :=
     match l with
     | [] => []
     | [t] => quote t
     | t :: l' => quote t ++ py "," ++ join l'
     end) tags
  ++ py "]".

Definition newer_first (a b : FeedbackEntry) : Prop :=
  created_at b <= created_at a.

#[global] Instance newer_first_dec a b : Decision (newer_first a b).
Proof. unfold newer_first. apply _. Defined.

Definition order_by_created_at_desc (l : list FeedbackEntry)
  : list FeedbackEntry :=
  merge_sort newer_first l.

End Sql.

(** *** The filters of the list endpoint *)

Module ListRuns.
Import Schemas Storage Main Feedback.

Lemma model_validate_ok e r :
  FeedbackResponse_model_validate e = Ok r
  <-> sentiment e ∈ SentimentEnum /\ r = to_response e.
Proof.
  unfold FeedbackResponse_model_validate, to_response.
  case_bool_decide as Hin; split.
  - intros Hr. split; [done|]. by injection Hr as <-.
  - by intros [_ ->].
  - done.
  - by intros [? _].
Qed.

Lemma validate_items_ok items rs :
  validate_items items = Ok rs
  <-> Forall (fun e => sentiment e ∈ SentimentEnum) items
      /\ rs = to_response <$> items.
Proof.
  revert rs. induction items as [|e items IH]; intros rs; cbn [validate_items].
  - split; [intros Hr; split; [done|by injection Hr as <-]|by intros [_ ->]].
  - destruct (FeedbackResponse_model_validate e) as [r|x] eqn:He.
    + apply model_validate_ok in He as [Hin ->].
      destruct (validate_items items) as [rs'|x] eqn:Hrest.
      * destruct (proj1 (IH rs') eq_refl) as [Hall ->]. split.
        -- intros Hr. split; [by constructor|]. rewrite fmap_cons. congruence.
        -- intros [_ ->]. by rewrite fmap_cons.
      * split; [done|]. intros [Hall _]. apply Forall_cons in Hall as [_ Hall].
        by pose proof (proj2 (IH (to_response <$> items)) (conj Hall eq_refl)).
    + split; [done|]. intros [Hall _]. apply Forall_cons in Hall as [Hin _].
      assert (FeedbackResponse_model_validate e = Ok (to_response e)) as Hok
        by (by apply model_validate_ok).
      congruence.
Qed.

Section Answer.

Variable lower : str -> str.
Variable ilike : str -> str -> bool.
Variable like : str -> str -> bool.
Variable json_extract_root : list str -> str.
Variable order_by_created_at_desc : list FeedbackEntry -> list FeedbackEntry.

Abbreviation build_filters :=
  (build_filters lower ilike like json_extract_root).
Abbreviation selected :=
  (selected lower ilike like json_extract_root order_by_created_at_desc).
Abbreviation get_feedback_list :=
  (get_feedback_list lower ilike like json_extract_root
     order_by_created_at_desc).

(** The offset of the page asked for, and the rows of that page. *)
Definition offset_of (q : list_params) : Z :=
  let '(page, page_size) :=
    Validators.validate_pagination (p_page q) (p_page_size q) in
  (page - 1) * page_size.

Definition page_rows (q : list_params) (table : list FeedbackEntry)
  : list FeedbackEntry :=
  let '(page, page_size) :=
    Validators.validate_pagination (p_page q) (p_page_size q) in
  take (Z.to_nat page_size)
       (drop (Z.to_nat ((page - 1) * page_size)) (selected q table)).

(** The response of the handler, when it returns one. *)
Definition answer (q : list_params) (table : list FeedbackEntry)
  : PaginatedResponse FeedbackResponse :=
  let '(page, page_size) :=
    Validators.validate_pagination (p_page q) (p_page_size q) in
  let total := Z.of_nat (length (where_filters (build_filters q) table)) in
  MkPaginatedResponse (to_response <$> page_rows q table) total page page_size
    (if 0 <? total then (total + page_size - 1) / page_size else 0).

(** The handler returns a response exactly when the driver can bind the
    offset and the rows of the page pass the validation of the response. *)
Lemma get_feedback_list_Ok q table r :
  get_feedback_list q table = Ok r
  <-> sqlite_integer (offset_of q)
      /\ Forall (fun e => sentiment e ∈ SentimentEnum) (page_rows q table)
      /\ r = answer q table.
Proof.
  unfold Feedback.get_feedback_list, offset_of, answer, page_rows.
  destruct (Validators.validate_pagination _ _) as [page page_size].
  case_bool_decide as Hoff.
  - destruct (validate_items _) as [rs|x] eqn:Hv.
    + apply validate_items_ok in Hv as [Hall ->]. split.
      * intros Hr. split; [done|]. split; [done|]. by injection Hr as <-.
      * by intros (_ & _ & ->).
    + split; [done|]. intros (_ & Hall & _).
      pose proof (proj2 (validate_items_ok _ _) (conj Hall eq_refl)) as Hok.
      rewrite Hv in Hok. done.
  - split; [done|]. by intros [? _].
Qed.

Lemma get_feedback_list_overflow q table :
  ~ sqlite_integer (offset_of q) ->
  get_feedback_list q table = Err overflow_error.
Proof.
  unfold Feedback.get_feedback_list, offset_of.
  destruct (Validators.validate_pagination _ _) as [page page_size].
  intros Hoff. by rewrite bool_decide_eq_false_2.
Qed.

Lemma page_rows_selected q table e :
  e ∈ page_rows q table -> e ∈ selected q table.
Proof.
  unfold page_rows.
  destruct (Validators.validate_pagination _ _) as [page page_size].
  intros He. by apply subseteq_take, subseteq_drop in He.
Qed.

End Answer.

End ListRuns.

Module ListFacts.
Import Schemas Storage Main Feedback.

Section Filters.

Variable lower : str -> str.
Variable ilike : str -> str -> bool.
Variable like : str -> str -> bool.
Variable json_extract_root : list str -> str.
Variable order_by_created_at_desc : list FeedbackEntry -> list FeedbackEntry.

(** [ORDER BY] returns the rows it is given, in some order. *)
Hypothesis order_by_permutation :
  forall l, order_by_created_at_desc l ≡ₚ l.

Abbreviation build_filters :=
  (build_filters lower ilike like json_extract_root).
Abbreviation selected :=
  (selected lower ilike like json_extract_root order_by_created_at_desc).
Abbreviation get_feedback_list :=
  (get_feedback_list lower ilike like json_extract_root
     order_by_created_at_desc).

(** The predicates of the filters that are supplied, as the specification
    lists them: the sentiment when its value is recognized, the category, the
    search text, the tag. *)
Definition sentiment_predicate (q : list_params)
  : list (FeedbackEntry -> bool) :=
  match supplied (p_sentiment q)
        ≫= (fun s => Validators.validate_sentiment lower (Some s)) with
  | Some v => [sentiment_is v]
  | None => []
  end.

Definition optional_predicate (p : str -> FeedbackEntry -> bool)
    (x : option str) : list (FeedbackEntry -> bool) :=
  match supplied x with
  | Some v => [p v]
  | None => []
  end.

Definition supplied_predicates (q : list_params)
  : list (FeedbackEntry -> bool) :=
  sentiment_predicate q
  ++ optional_predicate (category_ilike ilike) (p_category q)
  ++ optional_predicate (text_ilike ilike) (p_search q)
  ++ optional_predicate (tags_like like json_extract_root) (p_tag q).

(** An entry satisfies at least one of the predicates. *)
Definition satisfies_one (preds : list (FeedbackEntry -> bool))
    (e : FeedbackEntry) : Prop :=
  exists f, f ∈ preds /\ f e = true.

(** An entry satisfies all of them. *)
Definition satisfies_all (preds : list (FeedbackEntry -> bool))
    (e : FeedbackEntry) : Prop :=
  forall f, f ∈ preds -> f e = true.

Lemma build_filters_supplied q : build_filters q = supplied_predicates q.
Proof.
  unfold Feedback.build_filters, supplied_predicates, sentiment_predicate,
    optional_predicate.
  destruct (supplied (p_sentiment q)) as [s|]; cbn [mbind option_bind];
    [destruct (Validators.validate_sentiment lower (Some s))|];
    destruct (supplied (p_category q));
    destruct (supplied (p_search q));
    destruct (supplied (p_tag q)); reflexivity.
Qed.

Lemma or_true_iff preds e : or_ preds e = true <-> satisfies_one preds e.
Proof.
  unfold or_, satisfies_one. rewrite existsb_exists.
  split; intros (f & Hf & He); exists f; split; try done;
    by apply list_elem_of_In.
Qed.

Lemma where_filters_elem preds table e :
  preds <> [] ->
  e ∈ where_filters preds table <-> e ∈ table /\ satisfies_one preds e.
Proof.
  intros Hne. unfold where_filters. destruct preds as [|f preds]; [done|].
  rewrite list_elem_of_In, List.filter_In, or_true_iff.
  by rewrite list_elem_of_In.
Qed.

Lemma selected_permutation q table :
  selected q table ≡ₚ where_filters (build_filters q) table.
Proof. apply order_by_permutation. Qed.

Lemma selected_elem q table e :
  supplied_predicates q <> [] ->
  e ∈ selected q table
  <-> e ∈ table /\ satisfies_one (supplied_predicates q) e.
Proof.
  intros Hne. rewrite selected_permutation, build_filters_supplied.
  by apply where_filters_elem.
Qed.

Lemma selected_all q table :
  supplied_predicates q = [] -> selected q table ≡ₚ table.
Proof.
  intros Hnil. rewrite selected_permutation, build_filters_supplied, Hnil.
  done.
Qed.

Lemma unrecognized_sentiment q :
  Validators.validate_sentiment lower (p_sentiment q) = None ->
  supplied_predicates q
  = supplied_predicates
      (ListParams (p_page q) (p_page_size q) None (p_category q)
                  (p_search q) (p_tag q)).
Proof.
  intros Hv. unfold supplied_predicates. f_equal.
  unfold sentiment_predicate, supplied. cbn [p_sentiment].
  destruct (p_sentiment q) as [s|]; [|done].
  destruct (truthy s) eqn:Ht; [|done].
  cbn [mbind option_bind]. by rewrite Hv.
Qed.

End Filters.

End ListFacts.

Module ListClaims.
Import Schemas Storage Main Feedback ListRuns ListFacts.

(** Two entries of the tests' kind. *)
Definition praise : FeedbackEntry :=
  MkFeedbackEntry 1 (py "Great quality") (py "positive") (95 # 100)
    (py "Product Quality") (88 # 100) [py "product"] 1700000000 120
    (py "qwen/qwen3-235b-a22b-07-25:free").

Definition late_parcel : FeedbackEntry :=
  MkFeedbackEntry 2 (py "The parcel came late") (py "negative") (90 # 100)
    (py "Delivery") (80 # 100) [py "shipping"] 1700000100 130
    (py "qwen/qwen3-235b-a22b-07-25:free").

Definition refund : FeedbackEntry :=
  MkFeedbackEntry 3 (py "Refund took a week") (py "negative") (70 # 100)
    (py "Pricing") (60 # 100) [] 1700000200 110
    (py "qwen/qwen3-235b-a22b-07-25:free").

(** [sentiment=positive&category=deliv] *)
Definition positive_or_delivery : list_params :=
  ListParams 1 20 (Some (py "positive")) (Some (py "deliv")) None None.

Definition sql_selected : list_params -> list FeedbackEntry -> list FeedbackEntry :=
  selected lower_latin1 Sql.ilike Sql.like Sql.json_extract_root
           Sql.order_by_created_at_desc.

(** C7. The list endpoint builds one condition for each filter that is
    supplied (a sentiment only when its value is recognized, so that an
    unrecognized value contributes no filter) and selects the entries that
    satisfy at least one of them: when some filter is supplied, and so
    whenever two or more are, the rows selected are exactly the rows of the
    table that satisfy one of the supplied predicates.  Every response of the
    handler holds, as its items, exactly the rows selected that fall on the
    page asked for, in the order of the query, and [total] counts the rows
    selected; when they fit on the first page, the items are exactly the
    entries that satisfy one of the predicates.  The handler returns a
    response when the driver can bind the offset and the rows of the page
    pass the validation of the response.  The combination is not a
    conjunction: with [sentiment=positive] and [category=deliv], on a table
    of three entries, the entry that is positive and not about delivery is
    returned next to the one about delivery. *)
Theorem filters_are_combined_with_or :
  forall (lower : str -> str) (ilike like : str -> str -> bool)
         (json_extract_root : list str -> str)
         (order_by_created_at_desc : list FeedbackEntry -> list FeedbackEntry),
    (forall l, order_by_created_at_desc l ≡ₚ l) ->
    (forall (q : list_params) (table : list FeedbackEntry),
        let preds :=
          supplied_predicates lower ilike like json_extract_root q in
        let chosen :=
          selected lower ilike like json_extract_root
            order_by_created_at_desc q table in
        let one_of := fun e => existsb (fun f => f e) preds in
        build_filters lower ilike like json_extract_root q = preds
        /\ (preds <> [] ->
            chosen ≡ₚ List.filter one_of table
            /\ (forall e, e ∈ chosen <-> e ∈ table /\ satisfies_one preds e))
        /\ (preds = [] -> chosen ≡ₚ table)
        /\ (forall response,
              get_feedback_list lower ilike like json_extract_root
                order_by_created_at_desc q table = Ok response ->
              items response
              = to_response
                  <$> take (Z.to_nat (page_size response))
                        (drop (Z.to_nat ((page response - 1)
                                         * page_size response)) chosen)
              /\ total response = Z.of_nat (length chosen)
              /\ (forall r, r ∈ items response ->
                            exists e, e ∈ chosen /\ r = to_response e)
              /\ (preds <> [] ->
                  total response = Z.of_nat (length (List.filter one_of table))
                  /\ (page response = 1 ->
                      total response <= page_size response ->
                      items response = to_response <$> chosen
                      /\ items response
                         ≡ₚ to_response <$> List.filter one_of table)))
        /\ (Forall (fun e => sentiment e ∈ SentimentEnum) table ->
            sqlite_integer
              (offset_of q) ->
            exists response,
              get_feedback_list lower ilike like json_extract_root
                order_by_created_at_desc q table = Ok response)
        /\ (Validators.validate_sentiment lower (p_sentiment q) = None ->
            preds = supplied_predicates lower ilike like json_extract_root
                      (ListParams (p_page q) (p_page_size q) None
                                  (p_category q) (p_search q) (p_tag q))))
    /\ (get_feedback_list lower_latin1 Sql.ilike Sql.like
          Sql.json_extract_root Sql.order_by_created_at_desc
          positive_or_delivery [praise; late_parcel; refund]
        = Ok (MkPaginatedResponse
                [to_response late_parcel; to_response praise] 2 1 20 1)
        /\ ~ satisfies_all
             (supplied_predicates lower_latin1 Sql.ilike Sql.like
                Sql.json_extract_root positive_or_delivery) praise).
Proof.
  intros lower ilike like jx order Hperm. split.
  - intros q table preds chosen one_of.
    pose proof (build_filters_supplied lower ilike like jx q) as Hb.
    fold preds in Hb.
    assert (preds <> [] ->
            where_filters preds table = List.filter one_of table) as Hw
      by (intros Hne; unfold where_filters; by destruct preds).
    assert (length chosen
            = length (where_filters
                        (build_filters lower ilike like jx q) table))
      as Hlen.
    { subst chosen. by rewrite selected_permutation. }
    split; [exact Hb|]. split; [|split; [|split; [|split]]].
    + intros Hne. split.
      * subst chosen. rewrite selected_permutation by done.
        by rewrite Hb, Hw.
      * intros e. by apply selected_elem.
    + intros Hnil. by apply selected_all.
    + intros response Hrun.
      apply get_feedback_list_Ok in Hrun as (_ & _ & ->).
      unfold answer, page_rows.
      destruct (Validators.validate_pagination (p_page q) (p_page_size q))
        as [page page_size] eqn:Hpag.
      cbn [items total Schemas.page Schemas.page_size].
      fold chosen.
      split; [done|]. split; [by rewrite Hlen|].
      split.
      { intros r (e & -> & He)%list_elem_of_fmap. exists e. split; [|done].
        by apply subseteq_take, subseteq_drop in He. }
      intros Hne. split; [by rewrite Hb, Hw|].
      intros -> Hfit. rewrite <- Hlen in Hfit.
      assert (take (Z.to_nat page_size)
                (drop (Z.to_nat ((1 - 1) * page_size)) chosen) = chosen)
        as ->.
      { change ((1 - 1) * page_size) with 0. cbn [Z.to_nat drop].
        apply take_ge. lia. }
      split; [done|]. subst chosen.
      rewrite selected_permutation by done. by rewrite Hb, Hw.
    + intros Hvalid Hoff. eexists. apply get_feedback_list_Ok.
      split; [done|]. split; [|done].
      apply Forall_forall. intros e He%page_rows_selected.
      rewrite Forall_forall in Hvalid. apply Hvalid.
      rewrite selected_permutation in He by done.
      unfold where_filters in He.
      destruct (build_filters lower ilike like jx q); [done|].
      apply list_elem_of_In, List.filter_In in He as [He _].
      by apply list_elem_of_In.
    + by apply unrecognized_sentiment.
  - split.
    + by vm_compute.
    + intros Hall.
      specialize (Hall (category_ilike Sql.ilike (py "deliv"))).
      assert (category_ilike Sql.ilike (py "deliv") praise = true) as Hc.
      { apply Hall. vm_compute. by right; left. }
      by vm_compute in Hc.
Qed.

(** [sentiment=happy&category=deliv] *)
Definition happy_or_delivery : list_params :=
  ListParams 1 20 (Some (py "happy")) (Some (py "deliv")) None None.

Lemma filters_are_combined_with_or_witness :
  (exists response,
      get_feedback_list lower_latin1 Sql.ilike Sql.like
        Sql.json_extract_root Sql.order_by_created_at_desc
        positive_or_delivery [praise; late_parcel; refund] = Ok response
      /\ items response = [to_response late_parcel; to_response praise]
      /\ total response = 2)
  /\ supplied_predicates lower_latin1 Sql.ilike Sql.like
       Sql.json_extract_root happy_or_delivery
     = supplied_predicates lower_latin1 Sql.ilike Sql.like
         Sql.json_extract_root
         (ListParams 1 20 None (Some (py "deliv")) None None).
Proof.
  destruct (filters_are_combined_with_or lower_latin1 Sql.ilike Sql.like
              Sql.json_extract_root Sql.order_by_created_at_desc
              (merge_sort_Permutation Sql.newer_first)) as [H _].
  split.
  - destruct (H positive_or_delivery [praise; late_parcel; refund])
      as (_ & _ & _ & Hanswer & Hreturns & _).
    destruct Hreturns as [response Hrun].
    + apply Forall_cons. split; [by left|].
      apply Forall_cons. split; [by right; right; left|].
      apply Forall_cons. split; [by right; right; left|].
      apply Forall_nil_2.
    + vm_compute. split; discriminate.
    + exists response. split; [exact Hrun|].
      destruct (Hanswer response Hrun) as (Hitems & Htotal & _).
      assert (Ok (E:=exn) response
              = Ok (MkPaginatedResponse
                      [to_response late_parcel; to_response praise] 2 1 20 1))
        as Heq by (rewrite <- Hrun; by vm_compute).
      assert (response
              = MkPaginatedResponse
                  [to_response late_parcel; to_response praise] 2 1 20 1)
        as -> by congruence.
      by split.
  - destruct (H happy_or_delivery []) as (_ & _ & _ & _ & _ & Hnone).
    apply Hnone. by vm_compute.
Defined.

(** The default query on an empty table, and on a table of three. *)
Example list_of_empty_table :
  get_feedback_list lower_latin1 Sql.ilike Sql.like Sql.json_extract_root
    Sql.order_by_created_at_desc (ListParams 1 20 None None None None) []
  = Ok (MkPaginatedResponse [] 0 1 20 0).
Proof. by vm_compute. Qed.

Example list_of_three :
  exists response,
    get_feedback_list lower_latin1 Sql.ilike Sql.like Sql.json_extract_root
      Sql.order_by_created_at_desc (ListParams 1 20 None None None None)
      [praise; late_parcel; refund] = Ok response
    /\ total response = 3 /\ pages response = 1
    /\ r_id <$> items response = [3; 2; 1].
Proof. eexists. repeat split; by vm_compute. Qed.

(** A page beyond what the driver can bind, and a row whose sentiment is
    not one of the three values: the handler raises. *)
Example list_raises :
  get_feedback_list lower_latin1 Sql.ilike Sql.like Sql.json_extract_root
    Sql.order_by_created_at_desc
    (ListParams (2 ^ 63 + 1) 1 None None None None) [praise]
  = Err overflow_error
  /\ get_feedback_list lower_latin1 Sql.ilike Sql.like Sql.json_extract_root
       Sql.order_by_created_at_desc (ListParams 1 20 None None None None)
       [MkFeedbackEntry 1 (py "So so") (py "mixed") (50 # 100)
          (py "Pricing") (40 # 100) [] 1700000000 90
          (py "qwen/qwen3-235b-a22b-07-25:free")]
     = Err (OtherException (py "validation error for FeedbackResponse")).
Proof. split; by vm_compute. Qed.

End ListClaims.

(** ** Calendar dates *)

Module Dates.

(** Times are seconds since 1970-01-01T00:00:00 UTC; [date_of t] is the
    number of the day of [t]. *)
Definition date_of (t : Z) : Z := t / 86400.

(** [timedelta(days=n)] *)
Definition timedelta_days (n : Z) : Z := n * 86400.

(** Year, month and day of a day number (proleptic Gregorian calendar). *)
Definition civil (day : Z) : Z * Z * Z :=
  let z := day + 719468 in
  let era := z / 146097 in
  let doe := z - era * 146097 in
  let yoe := (doe - doe / 1460 + doe / 36524 - doe / 146096) / 365 in
  let doy := doe - (365 * yoe + yoe / 4 - yoe / 100) in
  let mp := (5 * doy + 2) / 153 in
  let d := doy - (153 * mp + 2) / 5 + 1 in
  let m := if mp <? 10 then mp + 3 else mp - 9 in
  let y := yoe + era * 400 + (if m <=? 2 then 1 else 0) in
  (y, m, d).

Definition digit (n : Z) : N := (48 + Z.to_N (n mod 10))%N.

Definition two_digits (n : Z) : str := [digit (n / 10); digit n].

Definition four_digits (n : Z) : str :=
  [digit (n / 1000); digit (n / 100); digit (n / 10); digit n].

(** [t.strftime('%Y-%m-%d')], and [date(t)] of SQLite, for the years 0 to
    9999. *)
Definition strftime_ymd (t : Z) : str :=
  let '(y, m, d) := civil (date_of t) in
  four_digits y ++ py "-" ++ two_digits m ++ py "-" ++ two_digits d.

End Dates.

(** ** [app/routers/analytics.py] and [app/services/analytics_service.py] *)

Module Analytics.
Import Storage Dates.

(** A Python number: [0] is an [int], an average is a [float]. *)
Inductive pynum : Type :=
| PyInt (z : Z)
| PyFloat (x : Q).

(** The number a Python number stands for: [0 == 0.0]. *)
Definition num_value (n : pynum) : Q :=
  match n with
  | PyInt z => inject_Z z
  | PyFloat x => x
  end.

(** A value of a field declared [float] in a response model: an [int] is
    converted. *)
Definition to_float (n : pynum) : pynum :=
  match n with
  | PyInt z => PyFloat (inject_Z z)
  | PyFloat x => PyFloat x
  end.

(** Truthiness of an optional float: [None] and [0.0] are false. *)
Definition float_truthy (x : option Q) : bool :=
  match x with
  | Some v => negb (Qeq_bool v 0)
  | None => false
  end.

(** [GROUP BY key]: the distinct keys with the rows of each. *)
Definition group_by {A} (key : A -> str) (l : list A)
  : list (str * list A) :=
  (fun k => (k, filter (fun a => key a = k) l)) <$> remove_dups (key <$> l).

Definition count {A} (l : list A) : Z := Z.of_nat (length l).

(** A row of the category query and an element of [top_categories]. *)
Record category_row : Type := CategoryRow {
  row_category : str;
  row_count : Z;
  row_avg_confidence : option Q
}.

Record category_stat : Type := CategoryStat {
  stat_category : str;
  stat_count : Z;
  stat_avg_confidence : pynum
}.

(** The row of the confidence query. *)
Record confidence_row : Type := ConfidenceRow {
  positive_confidence : option Q;
  neutral_confidence : option Q;
  negative_confidence : option Q;
  category_confidence_avg : option Q
}.

(** [StatsResponse] *)
Record StatsResponse : Type := MkStatsResponse {
  total_feedback : Z;
  sentiment_distribution : gmap str Z;
  top_categories : list category_stat;
  recent_activity : gmap str Z;
  average_confidence : gmap str pynum
}.

Section Queries.

(** [AVG] of the database over the values that are not NULL ([None] is
    NULL, the average of no value), [round(x, 2)] on a float, and the
    [ORDER BY count DESC] of the category query. *)
Variable sql_avg : list Q -> option Q.
Variable round2 : Q -> Q.
Variable order_by_count_desc : list category_row -> list category_row.

(** [datetime.utcnow()]: the [n]-th reading of the clock during the call. *)
Variable utcnow : nat -> Z.

(** [select(func.count()).select_from(FeedbackEntry)] *)
Definition total_query (table : list FeedbackEntry) : Z := count table.

(** [select(sentiment, count(id)).group_by(sentiment)] *)
Definition sentiment_query (table : list FeedbackEntry) : list (str * Z) :=
  (fun g => (g.1, count g.2)) <$> group_by sentiment table.

(** The category query, with its [limit]. *)
Definition category_query (limit : Z) (table : list FeedbackEntry)
  : list category_row :=
  take (Z.to_nat limit)
    (order_by_count_desc
       ((fun g => CategoryRow g.1 (count g.2)
                    (sql_avg (category_confidence <$> g.2)))
          <$> group_by category table)).

(** The daily query: the days of the entries the condition
    [created_at >= start_date] keeps, with their counts.  On the SQLite
    store the two sides are compared as texts: [created_at], written by the
    server default, has whole seconds, and the bound has six decimals more,
    so that an entry of the very second of [start_date] is the smaller text
    and is left out; the entries kept are those of a later second. *)
Definition daily_query (start_date : Z) (table : list FeedbackEntry)
  : list (str * Z) :=
  (fun g => (g.1, count g.2))
    <$> group_by (fun e => strftime_ymd (created_at e))
          (filter (fun e => start_date < created_at e) table).

(** The confidence query: [AVG(CASE WHEN sentiment = s THEN
    sentiment_confidence END)] for the three sentiments, and
    [AVG(category_confidence)]. *)
Definition confidence_of (s : str) (table : list FeedbackEntry) : option Q :=
  sql_avg (sentiment_confidence <$> filter (fun e => sentiment e = s) table).

Definition confidence_query (table : list FeedbackEntry) : confidence_row :=
  ConfidenceRow (confidence_of (py "positive") table)
                (confidence_of (py "neutral") table)
                (confidence_of (py "negative") table)
                (sql_avg (category_confidence <$> table)).

(** [{"positive": 0, "neutral": 0, "negative": 0}] *)
Definition zero_distribution : gmap str Z :=
  <[py "negative" := 0]> (<[py "neutral" := 0]> (<[py "positive" := 0]> ∅)).

(** [round(x, 2) if x else 0] *)
Definition round2_if (x : option Q) : pynum :=
  match x with
  | Some v => if float_truthy x then PyFloat (round2 v) else PyInt 0
  | None => PyInt 0
  end.

(** [round(x or 0, 2)]: [x or 0] is the [int] 0 for [None] and [0.0], and
    [round] of an [int] is that [int]. *)
Definition or_0 (x : option Q) : pynum :=
  match x with
  | Some v => if float_truthy x then PyFloat v else PyInt 0
  | None => PyInt 0
  end.

Definition round_2 (n : pynum) : pynum :=
  match n with
  | PyInt z => PyInt z
  | PyFloat x => PyFloat (round2 x)
  end.

Definition category_stat_of (row : category_row) : category_stat :=
  CategoryStat (row_category row) (row_count row)
               (round2_if (row_avg_confidence row)).

(** The body of the loop that fills in the missing days: [i] is the loop
    variable. *)
Definition fill_day (activity : gmap str Z) (i : nat) : gmap str Z :=
  let date := strftime_ymd (utcnow (S i) - timedelta_days (Z.of_nat i)) in
  match activity !! date with
  | None => <[date := 0]> activity
  | Some _ => activity
  end.

(** The recent activity of the last [days] days, as both the service and
    the router compute it. *)
Definition activity_of (days : Z) (table : list FeedbackEntry)
  : gmap str Z :=
  let start_date := utcnow 0%nat - timedelta_days days in
  let rows := daily_query start_date table in
  let activity :=
    foldl (fun (activity : gmap str Z) (row : str * Z) =>
             <[row.1 := row.2]> activity) ∅ rows in
  foldl fill_day activity (seq 0 (Z.to_nat days)).

(** *** [AnalyticsService] *)

(** [get_total_feedback_count] *)
Definition get_total_feedback_count (table : list FeedbackEntry) : Z :=
  total_query table.

(** [get_sentiment_distribution] *)
Definition get_sentiment_distribution (table : list FeedbackEntry)
  : gmap str Z :=
  let rows := sentiment_query table in
  foldl (fun (distribution : gmap str Z) (row : str * Z) =>
           if decide (is_Some (distribution !! row.1))
           then <[row.1 := row.2]> distribution
           else distribution)
        zero_distribution rows.

(** [get_top_categories] *)
Definition get_top_categories (limit : Z) (table : list FeedbackEntry)
  : list category_stat :=
  category_stat_of <$> category_query limit table.

(** [get_recent_activity] *)
Definition get_recent_activity (days : Z) (table : list FeedbackEntry)
  : gmap str Z :=
  activity_of days table.

(** [get_average_confidence_scores] *)
Definition get_average_confidence_scores (table : list FeedbackEntry)
  : gmap str pynum :=
  let row := confidence_query table in
  <[py "category" := round_2 (or_0 (category_confidence_avg row))]>
    (<[py "sentiment_negative" := round_2 (or_0 (negative_confidence row))]>
       (<[py "sentiment_neutral" := round_2 (or_0 (neutral_confidence row))]>
          (<[py "sentiment_positive" :=
               round_2 (or_0 (positive_confidence row))]> ∅))).

(** *** The router *)

(** [get_statistics], the handler of [GET /api/stats]; [StatsResponse]
    declares [average_confidence] a dictionary of [float], which turns the
    [int] 0 of the expression into 0.0. *)
Definition get_statistics (table : list FeedbackEntry) : StatsResponse :=
  let total_feedback := total_query table in
  let sentiment_rows := sentiment_query table in
  let sentiment_distribution :=
    foldl (fun (distribution : gmap str Z) (row : str * Z) =>
             <[row.1 := row.2]> distribution)
          zero_distribution sentiment_rows in
  let category_rows := category_query 10 table in
  let top_categories := category_stat_of <$> category_rows in
  let recent_activity := activity_of 7 table in
  let confidence_row := confidence_query table in
  let average_confidence :=
    <[py "category" := round2_if (category_confidence_avg confidence_row)]>
      (<[py "sentiment_negative" :=
           round2_if (negative_confidence confidence_row)]>
         (<[py "sentiment_neutral" :=
              round2_if (neutral_confidence confidence_row)]>
            (<[py "sentiment_positive" :=
                 round2_if (positive_confidence confidence_row)]> ∅))) in
  MkStatsResponse total_feedback sentiment_distribution top_categories
    recent_activity (to_float <$> average_confidence).

End Queries.

End Analytics.

(** *** The aggregates on exact rationals

    An average and a rounding to two decimals on rationals, and a sort of the
    category rows by descending count: they instantiate the parameters of the
    queries on concrete tables. *)

Module ExactSql.
Import Storage Analytics.

Definition exact_avg (l : list Q) : option Q :=
  match l with
  | [] => None
  | _ => Some (Qred (foldr Qplus 0%Q l / inject_Z (Z.of_nat (length l))))
  end.

(** To the nearest hundredth, halves towards the even neighbour. *)
Definition exact_round2 (x : Q) : Q :=
  let scaled := (x * 100)%Q in
  let lo := Qfloor scaled in
  let twice_rest := Qred ((scaled - inject_Z lo) * 2) in
  let n :=
    match Qcompare twice_rest 1 with
    | Lt => lo
    | Gt => lo + 1
    | Eq => if Z.even lo then lo else lo + 1
    end in
  Qred (inject_Z n / 100).

Definition more_first (a b : category_row) : Prop :=
  row_count b <= row_count a.

#[global] Instance more_first_dec a b : Decision (more_first a b).
Proof. unfold more_first. apply _. Defined.

Definition order_by_count_desc (rows : list category_row)
  : list category_row :=
  merge_sort more_first rows.

End ExactSql.

(** *** Facts about the aggregates *)

Module AnalyticsFacts.
Import Schemas Storage Dates Analytics.

Section Facts.

Variable sql_avg : list Q -> option Q.
Variable round2 : Q -> Q.
Variable order_by_count_desc : list category_row -> list category_row.
Variable utcnow : nat -> Z.

(** [round(x or 0, 2)] and [round(x, 2) if x else 0] agree. *)
Lemma round_or_0 x : round_2 round2 (or_0 x) = round2_if round2 x.
Proof.
  unfold round_2, or_0, round2_if.
  destruct x as [v|]; [|done]. by destruct (float_truthy (Some v)).
Qed.

(** The guarded update of the service is the plain update of the router
    when every row carries a key of the dictionary. *)
Lemma guarded_update (rows : list (str * Z)) : forall distribution : gmap str Z,
  Forall (fun row => is_Some (distribution !! row.1)) rows ->
  foldl (fun (distribution : gmap str Z) (row : str * Z) =>
           if decide (is_Some (distribution !! row.1))
           then <[row.1 := row.2]> distribution
           else distribution) distribution rows
  = foldl (fun (distribution : gmap str Z) (row : str * Z) =>
             <[row.1 := row.2]> distribution) distribution rows.
Proof.
  induction rows as [|row rows IH]; intros distribution Hrows; [done|].
  apply Forall_cons in Hrows as [Hrow Hrows]. simpl.
  rewrite decide_True by done. apply IH.
  eapply Forall_impl; [exact Hrows|]. intros r Hr. simpl.
  destruct (decide (row.1 = r.1)) as [->|Hne].
  - rewrite lookup_insert_eq. by eexists.
  - by rewrite lookup_insert_ne.
Qed.

Lemma group_by_keys {A} (key : A -> str) (l : list A) g :
  g ∈ group_by key l -> exists a, a ∈ l /\ g.1 = key a.
Proof.
  unfold group_by. intros (k & -> & Hk)%list_elem_of_fmap.
  apply elem_of_remove_dups, list_elem_of_fmap in Hk as (a & -> & Ha).
  by exists a.
Qed.

Lemma sentiment_query_keys table row :
  Forall (fun e => sentiment e ∈ SentimentEnum) table ->
  row ∈ sentiment_query table ->
  is_Some (zero_distribution !! row.1).
Proof.
  intros Hinv. unfold sentiment_query.
  intros (g & -> & Hg)%list_elem_of_fmap.
  apply group_by_keys in Hg as (e & He & Hk). simpl. rewrite Hk.
  rewrite Forall_forall in Hinv. specialize (Hinv e He).
  unfold SentimentEnum in Hinv.
  repeat (apply elem_of_cons in Hinv as [->|Hinv];
          [vm_compute; by eexists|]).
  by apply elem_of_nil in Hinv.
Qed.

Lemma sentiment_distribution_agrees table :
  Forall (fun e => sentiment e ∈ SentimentEnum) table ->
  sentiment_distribution
    (get_statistics sql_avg round2 order_by_count_desc utcnow table)
  = get_sentiment_distribution table.
Proof.
  intros Hinv. unfold get_statistics, get_sentiment_distribution.
  cbn [sentiment_distribution]. symmetry. apply guarded_update.
  apply Forall_forall. intros row Hrow. by eapply sentiment_query_keys.
Qed.

Lemma average_confidence_agrees table :
  average_confidence
    (get_statistics sql_avg round2 order_by_count_desc utcnow table)
  = to_float <$> get_average_confidence_scores sql_avg round2 table.
Proof.
  unfold get_statistics, get_average_confidence_scores.
  cbn [average_confidence]. by rewrite !round_or_0.
Qed.

Lemma to_float_value n : num_value (to_float n) = num_value n.
Proof. by destruct n. Qed.

(** The dates the loop fills in, for a window of [n] days. *)
Definition filled_dates (n : nat) : list str :=
  (fun i => strftime_ymd (utcnow (S i) - timedelta_days (Z.of_nat i)))
    <$> seq 0 n.

Lemma fill_day_lookup (activity : gmap str Z) i k :
  fill_day utcnow activity i !! k
  = match activity !! k with
    | Some v => Some v
    | None =>
        if decide (k = strftime_ymd
                         (utcnow (S i) - timedelta_days (Z.of_nat i)))
        then Some 0 else None
    end.
Proof.
  unfold fill_day.
  destruct (activity !! strftime_ymd _) as [v|] eqn:E.
  - destruct (activity !! k) eqn:Ek; [done|].
    case_decide; [congruence|done].
  - case_decide as Hk.
    + subst k. by rewrite lookup_insert_eq, E.
    + rewrite lookup_insert_ne by done. by destruct (activity !! k).
Qed.

Lemma fill_days_lookup (l : list nat) : forall (activity : gmap str Z) k,
  foldl (fill_day utcnow) activity l !! k
  = match activity !! k with
    | Some v => Some v
    | None =>
        if decide (k ∈ (fun i => strftime_ymd
                                   (utcnow (S i) - timedelta_days (Z.of_nat i)))
                         <$> l)
        then Some 0 else None
    end.
Proof.
  induction l as [|i l IH]; intros activity k; cbn [foldl].
  - rewrite fmap_nil. destruct (activity !! k); [done|].
    case_decide as Hk; [by apply elem_of_nil in Hk|done].
  - rewrite fmap_cons, IH, fill_day_lookup.
    destruct (activity !! k) as [v|]; [done|].
    case_decide as Hk.
    + subst k. rewrite decide_True by (by left). done.
    + destruct (decide (k ∈ _ <$> l)) as [Hin|Hout].
      * rewrite decide_True by (by right). done.
      * rewrite decide_False; [done|].
        intros [?|?]%elem_of_cons; done.
Qed.

(** The recent activity holds the counts of the daily query, and 0 for
    each of the dates filled in that the query did not return; its keys are
    the days of the daily query and the dates filled in. *)
Lemma activity_of_lookup days table k :
  activity_of utcnow days table !! k
  = match (foldl (fun (activity : gmap str Z) (row : str * Z) =>
                    <[row.1 := row.2]> activity) ∅
             (daily_query (utcnow 0%nat - timedelta_days days) table)) !! k with
    | Some v => Some v
    | None => if decide (k ∈ filled_dates (Z.to_nat days)) then Some 0 else None
    end.
Proof. unfold activity_of. apply fill_days_lookup. Qed.

End Facts.

End AnalyticsFacts.

Module AnalyticsClaims.
Import Schemas Storage Dates Analytics AnalyticsFacts ExactSql.

(** 2024-01-08 12:00:00 UTC, and an entry created on 2024-01-01 at 18:00:00
    UTC: six days and eighteen hours earlier, inside the window of seven
    times 24 hours. *)
Definition noon_jan_8 : Z := 1704715200.

Definition evening_jan_1 : FeedbackEntry :=
  MkFeedbackEntry 1 (py "Great product!") (py "positive") (95 # 100)
    (py "Product Quality") (88 # 100) [] 1704132000 120
    (py "qwen/qwen3-235b-a22b-07-25:free").

(** C8, at the failing input.  With [days = 7], the clock at 2024-01-08
    12:00 and one entry of 2024-01-01 18:00, the recent activity has eight
    keys: the seven dates 2024-01-02 to 2024-01-08 the loop fills in, and
    2024-01-01, which the query returns because its window starts at
    2024-01-01 12:00.  The handler of [GET /api/stats] returns the same map. *)
Theorem recent_activity_of_seven_days_has_eight_keys :
  let activity :=
    get_recent_activity (fun _ => noon_jan_8) 7 [evening_jan_1] in
  strftime_ymd noon_jan_8 = py "2024-01-08"
  /\ strftime_ymd (created_at evening_jan_1) = py "2024-01-01"
  /\ noon_jan_8 - timedelta_days 7 <= created_at evening_jan_1
  /\ size activity = 8%nat
  /\ activity
     = list_to_map
         [ (py "2024-01-01", 1); (py "2024-01-02", 0); (py "2024-01-03", 0);
           (py "2024-01-04", 0); (py "2024-01-05", 0); (py "2024-01-06", 0);
           (py "2024-01-07", 0); (py "2024-01-08", 0) ]
  /\ recent_activity
       (get_statistics exact_avg exact_round2 order_by_count_desc
          (fun _ => noon_jan_8) [evening_jan_1])
     = activity.
Proof. repeat split; by vm_compute. Qed.

(** Entries of the tests' kind, for the aggregates. *)
Definition sample_table : list FeedbackEntry :=
  [ MkFeedbackEntry 1 (py "Great quality") (py "positive") (95 # 100)
      (py "Product Quality") (88 # 100) [py "product"] 1704132000 120
      (py "qwen/qwen3-235b-a22b-07-25:free");
    MkFeedbackEntry 2 (py "The parcel came late") (py "negative") (90 # 100)
      (py "Delivery") (80 # 100) [py "shipping"] 1704218400 130
      (py "qwen/qwen3-235b-a22b-07-25:free");
    MkFeedbackEntry 3 (py "Fine") (py "positive") (60 # 100)
      (py "Product Quality") (70 # 100) [] 1704304800 110
      (py "qwen/qwen3-235b-a22b-07-25:free") ].

(** C9. On every table whose entries carry one of the three sentiments, the
    handler of [GET /api/stats] returns the total count, the sentiment
    distribution, the top ten categories and the average confidences that the
    four operations of [AnalyticsService] return (and the recent activity of
    [get_recent_activity] for seven days), whatever the average, the rounding
    and the order of equal counts of the database are.  The average
    confidences have the same keys and are equal as numbers: the response
    model of the handler declares them [float], so that where the service
    returns the [int] 0 the handler returns 0.0. *)
Theorem stats_router_agrees_with_service :
  forall (sql_avg : list Q -> option Q) (round2 : Q -> Q)
         (order_by_count_desc : list category_row -> list category_row)
         (utcnow : nat -> Z) (table : list FeedbackEntry),
    Forall (fun e => sentiment e ∈ SentimentEnum) table ->
    let stats :=
      get_statistics sql_avg round2 order_by_count_desc utcnow table in
    let scores := get_average_confidence_scores sql_avg round2 table in
    total_feedback stats = get_total_feedback_count table
    /\ sentiment_distribution stats = get_sentiment_distribution table
    /\ top_categories stats
       = get_top_categories sql_avg round2 order_by_count_desc 10 table
    /\ average_confidence stats = to_float <$> scores
    /\ (forall k,
          num_value <$> (average_confidence stats !! k)
          = num_value <$> (scores !! k))
    /\ recent_activity stats = get_recent_activity utcnow 7 table.
Proof.
  intros sql_avg round2 order utcnow table Hinv stats scores.
  subst stats scores.
  split; [done|]. split; [by apply sentiment_distribution_agrees|].
  split; [done|]. split; [apply average_confidence_agrees|].
  split; [|done].
  intros k. rewrite average_confidence_agrees, lookup_fmap.
  destruct (get_average_confidence_scores sql_avg round2 table !! k) as [n|];
    [|done].
  cbn. by rewrite to_float_value.
Qed.

Lemma stats_router_agrees_with_service_witness :
  let stats :=
    get_statistics exact_avg exact_round2 order_by_count_desc
      (fun _ => noon_jan_8) sample_table in
  total_feedback stats = 3
  /\ sentiment_distribution stats
     = list_to_map [(py "positive", 2); (py "neutral", 0); (py "negative", 1)]
  /\ top_categories stats
     = [ CategoryStat (py "Product Quality") 2 (PyFloat (79 # 100));
         CategoryStat (py "Delivery") 1 (PyFloat (4 # 5)) ]
  /\ average_confidence stats !! py "sentiment_neutral" = Some (PyFloat 0)
  /\ get_average_confidence_scores exact_avg exact_round2 sample_table
       !! py "sentiment_neutral" = Some (PyInt 0)
  /\ num_value <$> (average_confidence stats !! py "sentiment_neutral")
     = num_value
         <$> (get_average_confidence_scores exact_avg exact_round2
                sample_table !! py "sentiment_neutral").
Proof.
  destruct (stats_router_agrees_with_service exact_avg exact_round2
              order_by_count_desc (fun _ => noon_jan_8) sample_table)
    as (Htotal & Hdist & Htop & Havg & Hnum & _).
  - unfold sample_table, SentimentEnum. repeat constructor.
  - cbv zeta. rewrite Htotal, Hdist, Htop.
    split; [by vm_compute|]. split; [by vm_compute|].
    split; [by vm_compute|]. split; [by vm_compute|].
    split; [by vm_compute|]. apply Hnum.
Defined.

(** The guard of the service matters on a table that breaks the invariant:
    a sentiment outside the three values becomes a key of the distribution of
    the router and not of the service. *)
Example distribution_differs_without_invariant :
  let table :=
    [ MkFeedbackEntry 1 (py "So-so") (py "mixed") (50 # 100)
        (py "Pricing") (50 # 100) [] 1704132000 100 (py "m") ] in
  size (sentiment_distribution
          (get_statistics exact_avg exact_round2 order_by_count_desc
             (fun _ => noon_jan_8) table)) = 4%nat
  /\ size (get_sentiment_distribution table) = 3%nat.
Proof. split; by vm_compute. Qed.

End AnalyticsClaims.

(** * Further properties of the code *)

(** ** [app/utils/validators.py]: the text cleaner, the sentiment filter and
    the pagination clamp *)

Module ValidatorsMore.
Import Validators.

(** A text in which white space occurs only as single spaces; [prev_ws]
    tells that the previous code point was white space. *)
Fixpoint single_spaced (prev_ws : bool) (s : str) : bool :=
  match s with
  | [] => true
  | c :: s' =>
      if isspace c
      then (c =? 32)%N && negb prev_ws && single_spaced true s'
      else single_spaced false s'
  end.

(** No trailing white space. *)
Definition clean_r (s : str) : Prop := clean_l (reverse s).

Lemma sub_ws_single_spaced s : forall b, single_spaced b (sub_ws b s) = true.
Proof.
  induction s as [|c s IH]; intros b; [done|]. simpl.
  destruct (isspace c) eqn:Ec.
  - destruct b; [apply IH|]. simpl. by rewrite IH.
  - simpl. rewrite Ec. apply IH.
Qed.

Lemma sub_ws_fixed s : forall b, single_spaced b s = true -> sub_ws b s = s.
Proof.
  induction s as [|c s IH]; intros b; [done|]. simpl.
  destruct (isspace c) eqn:Ec.
  - intros H. apply andb_prop in H as [H Hs]. apply andb_prop in H as [Hc Hb].
    apply N.eqb_eq in Hc. subst c. destruct b; [done|]. by rewrite IH.
  - intros H. by rewrite IH.
Qed.

Lemma sub_ws_snoc s c : forall b,
  isspace c = false -> sub_ws b (s ++ [c]) = sub_ws b s ++ [c].
Proof.
  intros b Hc. revert b. induction s as [|x s IH]; intros b; simpl.
  - by rewrite Hc.
  - destruct (isspace x); [destruct b|]; by rewrite IH.
Qed.

Lemma sub_ws_length s : forall b, (length (sub_ws b s) <= length s)%nat.
Proof.
  induction s as [|c s IH]; intros b; simpl; [lia|].
  pose proof (IH true). pose proof (IH false).
  destruct (isspace c); [destruct b|]; simpl; lia.
Qed.

Lemma strip_clean_l s : clean_l (strip s).
Proof. apply rstrip_clean_l, lstrip_clean_l. Qed.

Lemma strip_clean_r s : clean_r (strip s).
Proof.
  unfold clean_r, strip, rstrip. rewrite reverse_involutive.
  apply lstrip_clean_l.
Qed.

Lemma strip_fixed s : clean_l s -> clean_r s -> strip s = s.
Proof.
  intros Hl Hr. unfold strip, rstrip.
  rewrite (lstrip_id s Hl), (lstrip_id (reverse s) Hr).
  apply reverse_involutive.
Qed.

Lemma sub_ws_clean_l s : clean_l s -> clean_l (sub_ws false s).
Proof.
  destruct s as [|c s]; [done|]. simpl. intros Hc. by rewrite Hc.
Qed.

Lemma sub_ws_clean_r s b : clean_r s -> clean_r (sub_ws b s).
Proof.
  unfold clean_r. destruct (reverse s) as [|c r] eqn:E.
  - apply (f_equal reverse) in E. rewrite reverse_involutive in E.
    by subst s.
  - apply (f_equal reverse) in E. rewrite reverse_involutive in E.
    rewrite reverse_cons in E. subst s. simpl. intros Hc.
    rewrite sub_ws_snoc by done. by rewrite reverse_snoc.
Qed.

Lemma sub_ws_nonempty s : s <> [] -> clean_l s -> sub_ws false s <> [].
Proof.
  destruct s as [|c s]; [done|]. simpl. intros _ Hc. by rewrite Hc.
Qed.

(** X1. [validate_feedback_text] rejects with "Feedback text cannot be empty"
    exactly the texts that are empty or white space only, with "Feedback
    text cannot exceed 5000 characters" exactly the others whose trimmed form
    has more than 5000 characters, and accepts the rest.  An accepted text is
    returned trimmed, with every run of white space replaced by one space: the
    result is not empty, is no longer than the trimmed text, has no white
    space at either end, and is returned unchanged when cleaned again. *)
Theorem validate_feedback_text_cleans :
  forall text : str,
    validate_feedback_text text
    = (if bool_decide (strip text = [])
       then Err (py "Feedback text cannot be empty")
       else if bool_decide (5000 < len (strip text))
            then Err (py "Feedback text cannot exceed 5000 characters")
            else Ok (sub_ws false (strip text)))
    /\ match validate_feedback_text text with
       | Err _ => True
       | Ok cleaned =>
           cleaned <> []
           /\ len cleaned <= len (strip text) <= 5000
           /\ single_spaced false cleaned = true
           /\ strip cleaned = cleaned
           /\ validate_feedback_text cleaned = Ok cleaned
       end.
Proof.
  intros text.
  assert (validate_feedback_text text
          = (if bool_decide (strip text = [])
             then Err (py "Feedback text cannot be empty")
             else if bool_decide (5000 < len (strip text))
                  then Err (py "Feedback text cannot exceed 5000 characters")
                  else Ok (sub_ws false (strip text)))) as Heq.
  { unfold validate_feedback_text.
    destruct text as [|c text]; [done|].
    destruct (strip (c :: text)) as [|d t] eqn:E; [done|].
    rewrite bool_decide_eq_false_2 by done.
    change (negb (truthy (c :: text)) || negb (truthy (d :: t))) with false.
    cbv iota.
    destruct (Z.ltb_spec 5000 (len (d :: t))).
    - by rewrite bool_decide_eq_true_2.
    - by rewrite bool_decide_eq_false_2 by lia. }
  split; [exact Heq|]. rewrite Heq.
  case_bool_decide as Hne; [done|]. case_bool_decide as Hlen; [done|].
  set (t := strip text) in *.
  assert (clean_l t) as Hl by apply strip_clean_l.
  assert (clean_r t) as Hr by apply strip_clean_r.
  assert (strip (sub_ws false t) = sub_ws false t) as Hstrip.
  { apply strip_fixed; [by apply sub_ws_clean_l|by apply sub_ws_clean_r]. }
  assert (sub_ws false t <> []) as Hne' by by apply sub_ws_nonempty.
  assert (len (sub_ws false t) <= len t) as Hle.
  { unfold len. pose proof (sub_ws_length t false). lia. }
  split; [done|]. split; [lia|].
  split; [apply sub_ws_single_spaced|]. split; [done|].
  unfold validate_feedback_text. rewrite Hstrip.
  destruct (sub_ws false t) as [|c r] eqn:E; [done|].
  change (negb (truthy (c :: r)) || negb (truthy (c :: r))) with false.
  cbv iota.
  destruct (Z.ltb_spec 5000 (len (c :: r))); [lia|].
  f_equal. rewrite <- E. apply sub_ws_fixed. apply sub_ws_single_spaced.
Qed.

(** X2. [validate_sentiment] returns nothing for a missing or empty value
    and otherwise depends on the lower-cased value only: it returns that
    value when it is one of the three literals and nothing when it is not.
    When lower-casing leaves the three literals unchanged, a value that was
    validated is returned unchanged when validated again. *)
Theorem validate_sentiment_normalises :
  forall lower : str -> str,
    validate_sentiment lower None = None
    /\ validate_sentiment lower (Some []) = None
    /\ (forall s v, validate_sentiment lower (Some s) = Some v ->
                    s <> [] /\ v = lower s /\ v ∈ valid_sentiments)
    /\ (forall s, s <> [] -> lower s ∈ valid_sentiments ->
                  validate_sentiment lower (Some s) = Some (lower s))
    /\ (forall s, lower s ∉ valid_sentiments ->
                  validate_sentiment lower (Some s) = None)
    /\ ((forall v, v ∈ valid_sentiments -> lower v = v) ->
        forall s, validate_sentiment lower (validate_sentiment lower s)
                  = validate_sentiment lower s).
Proof.
  intros lower.
  assert (forall s v, validate_sentiment lower (Some s) = Some v ->
                      s <> [] /\ v = lower s /\ v ∈ valid_sentiments) as Hsome.
  { intros s v. unfold validate_sentiment.
    destruct s as [|c s]; [done|]. simpl.
    case_bool_decide as Hin; [|done]. intros [= <-]. done. }
  split; [done|]. split; [done|]. split; [exact Hsome|].
  split; [|split].
  - intros s Hs Hin. unfold validate_sentiment.
    destruct s as [|c s]; [done|]. simpl. by rewrite bool_decide_eq_true_2.
  - intros s Hout. unfold validate_sentiment.
    destruct (negb (truthy s)); [done|]. by rewrite bool_decide_eq_false_2.
  - intros Hfix [s|]; [|done].
    destruct (validate_sentiment lower (Some s)) as [v|] eqn:E; [|done].
    apply Hsome in E as (_ & -> & Hin).
    pose proof (Hfix _ Hin) as Hv.
    unfold validate_sentiment.
    assert (lower s <> []) as Hne.
    { intros H0. rewrite H0 in Hin. by vm_compute in Hin; set_solver. }
    destruct (lower s) as [|c r] eqn:El; [done|]. simpl.
    rewrite Hv. by rewrite bool_decide_eq_true_2.
Qed.

Lemma validate_sentiment_normalises_witness :
  validate_sentiment lower_latin1 (Some (py "POSITIVE")) = Some (py "positive")
  /\ validate_sentiment lower_latin1 (Some (py "happy")) = None
  /\ validate_sentiment lower_latin1
       (validate_sentiment lower_latin1 (Some (py "Neutral")))
     = validate_sentiment lower_latin1 (Some (py "Neutral")).
Proof.
  destruct (validate_sentiment_normalises lower_latin1)
    as (_ & _ & _ & Hin & Hout & Hidem).
  split; [|split].
  - apply (Hin (py "POSITIVE")); [by vm_compute|]. vm_compute. by left.
  - apply (Hout (py "happy")). vm_compute.
    intros H. repeat (apply elem_of_cons in H as [H|H]; [discriminate H|]).
    by apply elem_of_nil in H.
  - apply Hidem. intros v Hv. unfold valid_sentiments in Hv.
    repeat (apply elem_of_cons in Hv as [->|Hv]; [reflexivity|]).
    by apply elem_of_nil in Hv.
Defined.

(** X3. The pair [validate_pagination] returns is always a page of at least
    1 and a page size between 1 and 100, a pair in that range is returned
    unchanged, and clamping twice is clamping once. *)
Theorem validate_pagination_range :
  forall page page_size : Z,
    let r := validate_pagination page page_size in
    1 <= r.1 /\ 1 <= r.2 <= 100
    /\ (1 <= page -> 1 <= page_size <= 100 -> r = (page, page_size))
    /\ validate_pagination r.1 r.2 = r.
Proof.
  intros page page_size. unfold validate_pagination. simpl.
  destruct (Z.ltb_spec page 1), (Z.ltb_spec page_size 1); simpl;
    try destruct (Z.ltb_spec 100 page_size); simpl;
    repeat split; try lia; intros;
    repeat match goal with
           | |- context [?a <? ?b] => destruct (Z.ltb_spec a b); try lia
           end; done.
Qed.

Lemma validate_pagination_range_witness :
  validate_pagination 3 50 = (3, 50).
Proof.
  apply (proj1 (proj2 (proj2 (validate_pagination_range 3 50)))); lia.
Defined.

End ValidatorsMore.

(** ** [app/models/schemas.py]: the tags of [FeedbackCreate] and
    [FeedbackUpdate] *)

Module SchemasMore.
Import Schemas.

(** [list(set(l))] holds the elements of [l], each once. *)
Definition lists_a_set (list_of_set : list str -> list str) : Prop :=
  forall l, NoDup (list_of_set l) /\ (forall x, x ∈ list_of_set l <-> x ∈ l).

(** The trimmed tags that are not empty: the elements the set is built
    from. *)
Definition trimmed_tags (v : list str) : list str :=
  filter (fun t => truthy t = true) (strip <$> v).

Lemma trimmed_tags_elem v t :
  t ∈ trimmed_tags v <-> t <> [] /\ exists s, s ∈ v /\ t = strip s.
Proof.
  unfold trimmed_tags. rewrite list_elem_of_filter, list_elem_of_fmap.
  split.
  - intros [Ht (s & -> & Hs)]. split; [by destruct (strip s)|by exists s].
  - intros [Ht (s & Hs & ->)]. split; [by destruct (strip s)|by exists s].
Qed.

Lemma list_of_set_length list_of_set l :
  lists_a_set list_of_set -> (length (list_of_set l) <= length l)%nat.
Proof.
  intros Hset. destruct (Hset l) as [Hnd Hin].
  apply submseteq_length, NoDup_submseteq; [done|]. intros x. apply Hin.
Qed.

(** [FeedbackUpdate]: the constraint [Field(..., max_length=10)] of the list,
    checked on the list received, then [validate_tags]. *)
Module FeedbackUpdate.

Definition Field_list (max_length : Z) (v : list str)
  : result str (list str) :=
  if max_length <? Z.of_nat (length v) then Err (py "too_long") else Ok v.

Definition validate_tags (list_of_set : list str -> list str)
    (v : list str) : list str :=
  let cleaned_tags :=
    list_of_set (filter (fun t => truthy t = true) (strip <$> v)) in
  take 10 cleaned_tags.

(** Validation of the field [tags]. *)
Definition tags_field (list_of_set : list str -> list str) (v : list str)
  : result str (list str) :=
  bind_result (Field_list 10 v) (fun v => Ok (validate_tags list_of_set v)).

End FeedbackUpdate.

(** X4. The tag cleaner of [FeedbackCreate] returns no tag for a missing
    list; for a list it returns at most 10 tags, without repetition, each the
    trimmed form of a tag of the input and not empty; when the input has at
    most 10 distinct trimmed tags, each of them is returned.  Tags are
    compared as they are: two tags that differ by case are both kept, and
    there is no bound on the length of a tag. *)
Theorem FeedbackCreate_validate_tags_cleans :
  forall list_of_set : list str -> list str,
    lists_a_set list_of_set ->
    FeedbackCreate.validate_tags list_of_set None = []
    /\ forall v : list str,
        let out := FeedbackCreate.validate_tags list_of_set (Some v) in
        (length out <= 10)%nat
        /\ NoDup out
        /\ (forall t, t ∈ out -> t <> [] /\ strip t = t
                                 /\ exists s, s ∈ v /\ t = strip s)
        /\ ((length (list_of_set (trimmed_tags v)) <= 10)%nat ->
            forall s, s ∈ v -> strip s <> [] -> strip s ∈ out).
Proof.
  intros list_of_set Hset. split; [done|]. intros v out. subst out.
  unfold FeedbackCreate.validate_tags. fold (trimmed_tags v).
  destruct (Hset (trimmed_tags v)) as [Hnd Hin].
  split; [rewrite length_take; lia|].
  split; [eapply sublist_NoDup; [exact Hnd|apply sublist_take]|].
  split.
  - intros t Ht. apply subseteq_take, Hin, trimmed_tags_elem in Ht
      as [Hne (s & Hs & ->)].
    split; [done|]. split; [apply strip_idemp|by exists s].
  - intros Hlen s Hs Hne. rewrite take_ge by done.
    apply Hin, trimmed_tags_elem. split; [done|by exists s].
Qed.

Lemma FeedbackCreate_validate_tags_cleans_witness :
  FeedbackCreate.validate_tags remove_dups
    (Some [py " a "; py "A"; py "a"; py "  "])
  = [py "A"; py "a"]
  /\ strip (py " a ")
     ∈ FeedbackCreate.validate_tags remove_dups
         (Some [py " a "; py "A"; py "a"; py "  "]).
Proof.
  assert (lists_a_set remove_dups) as Hset.
  { intros l. split; [apply NoDup_remove_dups|].
    intros x. apply elem_of_remove_dups. }
  destruct (FeedbackCreate_validate_tags_cleans remove_dups Hset)
    as [_ Hv].
  destruct (Hv [py " a "; py "A"; py "a"; py "  "]) as (_ & _ & _ & Hall).
  split; [by vm_compute|].
  apply Hall.
  - vm_compute. lia.
  - by left.
  - by vm_compute.
Defined.

(** X5. The field [tags] of [FeedbackUpdate] is rejected exactly when the
    list received has more than 10 entries, whatever its cleaning would keep;
    when it is accepted, the tags returned are the distinct trimmed tags that
    are not empty, all of them: the cut to 10 tags never removes one. *)
Theorem FeedbackUpdate_tags_field_bound :
  forall list_of_set : list str -> list str,
    lists_a_set list_of_set ->
    forall v : list str,
      ((10 < length v)%nat ->
       FeedbackUpdate.tags_field list_of_set v = Err (py "too_long"))
      /\ ((length v <= 10)%nat ->
          FeedbackUpdate.tags_field list_of_set v
          = Ok (list_of_set (trimmed_tags v))
          /\ forall t, t ∈ list_of_set (trimmed_tags v)
                       <-> t <> [] /\ exists s, s ∈ v /\ t = strip s).
Proof.
  intros list_of_set Hset v.
  unfold FeedbackUpdate.tags_field, FeedbackUpdate.Field_list.
  split; intros Hlen.
  - destruct (Z.ltb_spec 10 (Z.of_nat (length v))); [done|lia].
  - destruct (Z.ltb_spec 10 (Z.of_nat (length v))); [lia|]. simpl.
    unfold FeedbackUpdate.validate_tags. fold (trimmed_tags v). split.
    + f_equal. apply take_ge.
      etrans; [by apply list_of_set_length|].
      unfold trimmed_tags. etrans; [apply length_filter|].
      rewrite length_fmap. lia.
    + intros t. destruct (Hset (trimmed_tags v)) as [_ Hin].
      rewrite Hin. apply trimmed_tags_elem.
Qed.

Lemma FeedbackUpdate_tags_field_bound_witness :
  FeedbackUpdate.tags_field remove_dups (replicate 11 (py "a"))
  = Err (py "too_long")
  /\ FeedbackUpdate.tags_field remove_dups [py "new-tag1"; py " new-tag2 "]
     = Ok [py "new-tag1"; py "new-tag2"].
Proof.
  assert (lists_a_set remove_dups) as Hset.
  { intros l. split; [apply NoDup_remove_dups|].
    intros x. apply elem_of_remove_dups. }
  split.
  - apply (proj1 (FeedbackUpdate_tags_field_bound remove_dups Hset
                    (replicate 11 (py "a")))).
    vm_compute. lia.
  - destruct (proj2 (FeedbackUpdate_tags_field_bound remove_dups Hset
                       [py "new-tag1"; py " new-tag2 "])) as [Heq _].
    + vm_compute. lia.
    + rewrite Heq. by vm_compute.
Defined.

End SchemasMore.

(** ** [app/services/ai_service.py]: the loop over the models, for any list *)

Module AIServiceMore.
Import AIService AIServiceFacts.

Section Loop.

Variable _analyze_sentiment : str -> str -> result exn sentiment_result.
Variable _categorize_feedback : str -> str -> result exn category_result.
Variable sentiment_fails_first : str -> str -> bool.

Abbreviation call_pair :=
  (call_pair _analyze_sentiment _categorize_feedback sentiment_fails_first).
Abbreviation analyze_loop :=
  (analyze_loop _analyze_sentiment _categorize_feedback sentiment_fails_first).

(** What a run of the loop over [todo] is: the models called, all failing
    but possibly the last, and how the loop ended. *)
Definition loop_outcome (models todo : list str) (text : str)
    (called : list str) (r : result exn (option analysis)) : Prop :=
  match r with
  | Ok None =>
      called = todo
      /\ forall x, x ∈ todo ->
                   is_ok (call_pair text x) = false /\ Some x <> last models
  | Ok (Some a) =>
      exists pre m post p,
        todo = pre ++ m :: post /\ called = pre ++ [m]
        /\ (forall x, x ∈ pre -> is_ok (call_pair text x) = false)
        /\ call_pair text m = Ok p /\ a = combined m p
  | Err e =>
      exists pre m post e0,
        todo = pre ++ m :: post /\ called = pre ++ [m]
        /\ (forall x, x ∈ pre -> is_ok (call_pair text x) = false)
        /\ call_pair text m = Err e0 /\ Some m = last models
        /\ e = all_failed e0
  end.

Lemma analyze_loop_outcome models text todo :
  loop_outcome models todo text
    (analyze_loop models todo text).1 (analyze_loop models todo text).2.
Proof.
  induction todo as [|m todo IH]; simpl.
  - split; [done|]. by intros x ?%elem_of_nil.
  - destruct (call_pair text m) as [p|e] eqn:E.
    + simpl. exists [], m, todo, p. repeat split; try done.
      by intros x ?%elem_of_nil.
    + case_bool_decide as Hlast.
      * simpl. exists [], m, todo, e. repeat split; try done.
        by intros x ?%elem_of_nil.
      * destruct (analyze_loop models todo text) as [called r].
        simpl in *. 
        assert (is_ok (call_pair text m) = false) as Hm by by rewrite E.
        destruct r as [[a|]|e'].
        -- destruct IH as (pre & m' & post & p & -> & -> & Hpre & Hp & ->).
           exists (m :: pre), m', post, p. repeat split; try done.
           intros x [->|Hx]%elem_of_cons; [done|by apply Hpre].
        -- destruct IH as [-> Hall]. split; [done|].
           intros x [->|Hx]%elem_of_cons; [done|by apply Hall].
        -- destruct IH as (pre & m' & post & e0 & -> & -> & Hpre & Hp & Hl & ->).
           exists (m :: pre), m', post, e0. repeat split; try done.
           intros x [->|Hx]%elem_of_cons; [done|by apply Hpre].
Qed.

End Loop.

Lemma elem_of_removelast {A} (l : list A) x : x ∈ removelast l -> x ∈ l.
Proof.
  induction l as [|y l IH]; [done|]. simpl.
  destruct l as [|z l]; [by intros ?%elem_of_nil|].
  intros [->|Hx]%elem_of_cons; [by left|right; by apply IH].
Qed.

(** X6. Whatever the list of models: the models [analyze_feedback] calls the
    gateway for are a prefix of the list, each of them but the last having
    failed; a result carries the model called last as [model_used]; an error
    is the [AIServiceError] "All models failed. Last error: ..." built from
    the failure of the model called last; and the function returns nothing
    (falls off the end of the loop) exactly when the list is empty. *)
Theorem analyze_feedback_with_any_list :
  forall (_analyze_sentiment : str -> str -> result exn sentiment_result)
         (_categorize_feedback : str -> str -> result exn category_result)
         (sentiment_fails_first : str -> str -> bool)
         (models : list str) (text : str),
    let call_pair :=
      AIService.call_pair _analyze_sentiment _categorize_feedback
        sentiment_fails_first in
    let run :=
      analyze_feedback_with _analyze_sentiment _categorize_feedback
        sentiment_fails_first models text in
    run.1 `prefix_of` models
    /\ (forall x, x ∈ removelast run.1 -> is_ok (call_pair text x) = false)
    /\ (run.2 = Ok None <-> models = [])
    /\ match run.2 with
       | Ok None => True
       | Ok (Some a) =>
           exists m p, last run.1 = Some m /\ call_pair text m = Ok p
                       /\ a = combined m p /\ model_used a = m
       | Err e =>
           exists m e0, last run.1 = Some m /\ call_pair text m = Err e0
                        /\ e = AIServiceError
                                 (py "All models failed. Last error: "
                                  ++ exn_str e0)
       end.
Proof.
  intros sent cat sff models text call_pair run. subst call_pair run.
  unfold analyze_feedback_with.
  pose proof (analyze_loop_outcome sent cat sff models text models) as H.
  destruct (AIService.analyze_loop sent cat sff models models text)
    as [called r]. simpl in *.
  destruct r as [[a|]|e]; simpl in H.
  - destruct H as (pre & m & post & p & Hm & -> & Hpre & Hp & ->).
    split; [rewrite Hm; exists post; by rewrite <- app_assoc|].
    split; [by rewrite removelast_last|].
    split; [split; [done|intros ->; by destruct pre]|].
    exists m, p. by rewrite last_snoc.
  - destruct H as [-> Hall]. split; [done|].
    split; [intros x Hx; by apply Hall, elem_of_removelast|].
    split; [|done]. split; [|done]. intros _.
    destruct models as [|m models] using rev_ind; [done|]. exfalso.
    destruct (Hall m) as [_ Hne]; [set_solver|].
    apply Hne. by rewrite last_snoc.
  - destruct H as (pre & m & post & e0 & Hm & -> & Hpre & Hp & Hl & ->).
    split; [rewrite Hm; exists post; by rewrite <- app_assoc|].
    split; [by rewrite removelast_last|].
    split; [split; [done|intros ->; by destruct pre]|].
    exists m, e0. by rewrite last_snoc.
Qed.

(** X7. The loop recognises the last model by its name: when the models
    before [m] fail and are not named as the last model of the list, [m] fails
    and carries the name of the last model, [analyze_feedback] raises "All
    models failed" right there, and the gateway is not called for the models
    after [m]. *)
Theorem analyze_feedback_stops_at_name_of_last :
  forall (_analyze_sentiment : str -> str -> result exn sentiment_result)
         (_categorize_feedback : str -> str -> result exn category_result)
         (sentiment_fails_first : str -> str -> bool)
         (text : str) (models pre post : list str) (m : str) (e : exn),
    let call_pair :=
      AIService.call_pair _analyze_sentiment _categorize_feedback
        sentiment_fails_first in
    models = pre ++ m :: post ->
    last models = Some m ->
    (forall x, x ∈ pre -> is_ok (call_pair text x) = false /\ x <> m) ->
    call_pair text m = Err e ->
    analyze_feedback_with _analyze_sentiment _categorize_feedback
      sentiment_fails_first models text
    = (pre ++ [m],
       Err (AIServiceError
              (py "All models failed. Last error: " ++ exn_str e))).
Proof.
  intros sent cat sff text models pre post m e call_pair Hm Hlast Hpre He.
  subst call_pair. unfold analyze_feedback_with.
  rewrite Hm at 2. rewrite analyze_loop_skip.
  - simpl. rewrite He. by rewrite bool_decide_eq_true_2.
  - intros x Hx. by apply Hpre.
  - intros x Hx. rewrite Hlast. intros [= ->]. by apply (Hpre m).
Qed.

(** The first and the last model share a name and fail; the second one,
    which would answer, is not tried. *)
Definition only_b_answers_sentiment (text model : str)
  : result exn sentiment_result :=
  if decide (model = py "b")
  then Ok (SentimentResult (py "neutral") (1 # 2) (py "No strong feeling"))
  else Err (AIServiceError (py "AI service error: 500")).

Definition only_b_answers_category (text model : str)
  : result exn category_result :=
  if decide (model = py "b")
  then Ok (CategoryResult (py "Pricing") (1 # 2) (py "Mentions the price"))
  else Err (AIServiceError (py "AI service error: 500")).

Lemma analyze_feedback_stops_at_name_of_last_witness :
  analyze_feedback_with only_b_answers_sentiment only_b_answers_category
    (fun _ _ => true) [py "a"; py "b"; py "a"] (py "Too expensive")
  = ([py "a"],
     Err (AIServiceError
            (py "All models failed. Last error: AI service error: 500"))).
Proof.
  apply (analyze_feedback_stops_at_name_of_last only_b_answers_sentiment
           only_b_answers_category (fun _ _ => true) (py "Too expensive")
           [py "a"; py "b"; py "a"] [] [py "b"; py "a"] (py "a")
           (AIServiceError (py "AI service error: 500"))).
  - reflexivity.
  - reflexivity.
  - intros x Hx. by apply elem_of_nil in Hx.
  - reflexivity.
Defined.

End AIServiceMore.

(** ** [app/routers/feedback.py]: the pages of the list endpoint *)

Module PagesMore.
Import Schemas Storage Main Feedback ListRuns.

Lemma validate_pagination_bounds page page_size :
  1 <= (Validators.validate_pagination page page_size).1
  /\ 1 <= (Validators.validate_pagination page page_size).2 <= 100.
Proof.
  unfold Validators.validate_pagination. simpl.
  destruct (Z.ltb_spec page 1), (Z.ltb_spec page_size 1); simpl;
    try destruct (Z.ltb_spec 100 page_size); simpl; lia.
Qed.

Lemma validate_pagination_page page page_size :
  1 <= page ->
  Validators.validate_pagination page page_size
  = (page, (Validators.validate_pagination 1 page_size).2).
Proof.
  intros Hp. unfold Validators.validate_pagination. simpl.
  destruct (Z.ltb_spec page 1); [lia|done].
Qed.

(** The pieces of [n] elements of a list, [k] of them, make the list again
    when [k] pieces are enough. *)
Lemma chunks_concat {A} (n : nat) : forall (k : nat) (l : list A),
  (0 < n)%nat -> (length l <= k * n)%nat ->
  concat ((fun i => take n (drop (i * n) l)) <$> seq 0 k) = l.
Proof.
  induction k as [|k IH]; intros l Hn Hlen.
  - destruct l; [done|simpl in Hlen; lia].
  - cbn [seq]. rewrite fmap_cons. cbn [concat]. simpl drop.
    rewrite <- seq_shift, <- list_fmap_compose.
    transitivity (take n l ++ drop n l); [|apply take_drop]. f_equal.
    etrans; [|apply (IH (drop n l)); [done|rewrite length_drop; lia]].
    f_equal. apply list_fmap_ext. intros _ i _. simpl.
    by rewrite drop_drop.
Qed.

Section Pages.

Variable lower : str -> str.
Variable ilike : str -> str -> bool.
Variable like : str -> str -> bool.
Variable json_extract_root : list str -> str.
Variable order_by_created_at_desc : list FeedbackEntry -> list FeedbackEntry.

Abbreviation get_feedback_list :=
  (get_feedback_list lower ilike like json_extract_root
     order_by_created_at_desc).
Abbreviation selected :=
  (selected lower ilike like json_extract_root order_by_created_at_desc).
Abbreviation answer :=
  (answer lower ilike like json_extract_root order_by_created_at_desc).

(** The same query, for another page. *)
Definition with_page (q : list_params) (page : Z) : list_params :=
  ListParams page (p_page_size q) (p_sentiment q) (p_category q)
             (p_search q) (p_tag q).

Lemma answer_fields q table :
  let r := answer q table in
  let ps := (Validators.validate_pagination (p_page q) (p_page_size q)).2 in
  let pg := (Validators.validate_pagination (p_page q) (p_page_size q)).1 in
  page r = pg /\ page_size r = ps
  /\ total r = Z.of_nat (length (where_filters
                                   (build_filters lower ilike like
                                      json_extract_root q) table))
  /\ items r = to_response <$> take (Z.to_nat ps)
                 (drop (Z.to_nat ((pg - 1) * ps)) (selected q table))
  /\ pages r = (if 0 <? total r then (total r + ps - 1) / ps else 0).
Proof.
  unfold ListRuns.answer, page_rows.
  destruct (Validators.validate_pagination _ _) as [pg ps]. done.
Qed.

Lemma offset_of_with_page q p :
  1 <= p ->
  offset_of (with_page q p)
  = (p - 1) * (Validators.validate_pagination 1 (p_page_size q)).2.
Proof.
  intros Hp. unfold offset_of. cbn [with_page p_page p_page_size].
  by rewrite (validate_pagination_page p).
Qed.

End Pages.

(** X8. In every answer of the list endpoint the page is at least 1, the
    page size is between 1 and 100, [total] is the number of rows the filters
    keep, whatever the page, [pages] is 0 for no row and otherwise the least
    number of pages that hold [total] rows, and the page holds at most
    [page_size] items. *)
Theorem get_feedback_list_page_bounds :
  forall (lower : str -> str) (ilike like : str -> str -> bool)
         (json_extract_root : list str -> str)
         (order_by_created_at_desc : list FeedbackEntry -> list FeedbackEntry)
         (q : list_params) (table : list FeedbackEntry)
         (r : PaginatedResponse FeedbackResponse),
    get_feedback_list lower ilike like json_extract_root
      order_by_created_at_desc q table = Ok r ->
    1 <= page r /\ 1 <= page_size r <= 100
    /\ total r
       = Z.of_nat (length (where_filters
                             (build_filters lower ilike like
                                json_extract_root q) table))
    /\ (forall p r',
          get_feedback_list lower ilike like json_extract_root
            order_by_created_at_desc (with_page q p) table = Ok r' ->
          total r' = total r)
    /\ (total r = 0 -> pages r = 0)
    /\ (0 < total r ->
        (pages r - 1) * page_size r < total r <= pages r * page_size r)
    /\ Z.of_nat (length (items r)) <= page_size r.
Proof.
  intros lower ilike like jx order q table r Hrun.
  apply get_feedback_list_Ok in Hrun as (_ & _ & Hr).
  destruct (answer_fields lower ilike like jx order q table)
    as (Hpage & Hsize & Htotal & Hitems & Hpages).
  rewrite <- Hr in Hpage, Hsize, Htotal, Hitems, Hpages.
  destruct (validate_pagination_bounds (p_page q) (p_page_size q))
    as [Hpg Hps].
  rewrite Hpage, Hsize.
  split; [done|]. split; [done|]. split; [done|].
  split.
  { intros p r' Hrun'.
    apply get_feedback_list_Ok in Hrun' as (_ & _ & ->).
    destruct (answer_fields lower ilike like jx order
                (with_page q p) table) as (_ & _ & -> & _).
    by rewrite Htotal. }
  rewrite Hpages. split; [by intros ->|]. split.
  - intros Hpos. destruct (Z.ltb_spec 0 (total r)); [|lia].
    set (ps := (Validators.validate_pagination (p_page q) (p_page_size q)).2)
      in *.
    pose proof (Z.div_mod (total r + ps - 1) ps ltac:(lia)).
    pose proof (Z.mod_pos_bound (total r + ps - 1) ps ltac:(lia)).
    nia.
  - rewrite Hitems, length_fmap, length_take. lia.
Qed.

Lemma get_feedback_list_page_bounds_witness :
  exists r,
    get_feedback_list lower_latin1 Sql.ilike Sql.like
      Sql.json_extract_root Sql.order_by_created_at_desc
      (ListParams 1 2 None None None None)
      [ListClaims.praise; ListClaims.late_parcel; ListClaims.refund] = Ok r
    /\ total r = 3
    /\ (pages r - 1) * page_size r < total r <= pages r * page_size r.
Proof.
  eexists. split; [by vm_compute|].
  destruct (get_feedback_list_page_bounds lower_latin1 Sql.ilike Sql.like
              Sql.json_extract_root Sql.order_by_created_at_desc
              (ListParams 1 2 None None None None)
              [ListClaims.praise; ListClaims.late_parcel; ListClaims.refund]
              _ eq_refl)
    as (_ & _ & Htotal & _ & _ & Hpages & _).
  split; [reflexivity|]. apply Hpages. reflexivity.
Defined.

(** X9. On a table whose entries carry one of the three sentiments and
    that has no more rows than a 64-bit integer counts, every page of the
    list endpoint from 1 to [pages] is answered with the rows of its place
    in what the query selects, and these pages, put one after the other, are
    the rows the query selects, in its order, each once.  A page after the
    last one is answered with no item as long as the driver can bind its
    offset; beyond that the handler raises the [OverflowError] of the
    driver. *)
Theorem get_feedback_list_pages_partition :
  forall (lower : str -> str) (ilike like : str -> str -> bool)
         (json_extract_root : list str -> str)
         (order_by_created_at_desc : list FeedbackEntry -> list FeedbackEntry),
    (forall l, order_by_created_at_desc l ≡ₚ l) ->
    forall (q : list_params) (table : list FeedbackEntry),
      Forall (fun e => sentiment e ∈ SentimentEnum) table ->
      Z.of_nat (length table) <= 2 ^ 63 ->
      let ask := fun page =>
        get_feedback_list lower ilike like json_extract_root
          order_by_created_at_desc (with_page q page) table in
      let chosen :=
        selected lower ilike like json_extract_root
          order_by_created_at_desc q table in
      exists first,
        ask 1 = Ok first
        /\ let n := pages first in
           let size := page_size first in
           let place := fun i : nat =>
             to_response
               <$> take (Z.to_nat size)
                     (drop (Z.to_nat ((Z.of_nat i - 1) * size)) chosen) in
           (forall i : nat,
              1 <= Z.of_nat i <= n ->
              exists a, ask (Z.of_nat i) = Ok a /\ items a = place i)
           /\ concat (place <$> seq 1 (Z.to_nat n)) = to_response <$> chosen
           /\ (forall page,
                 n < page -> sqlite_integer ((page - 1) * size) ->
                 exists a, ask page = Ok a /\ items a = [])
           /\ (forall page,
                 n < page -> ~ sqlite_integer ((page - 1) * size) ->
                 ask page = Err overflow_error).
Proof.
  intros lower ilike like jx order Hperm q table Hvalid Hsmall ask chosen.
  set (ps := (Validators.validate_pagination 1 (p_page_size q)).2).
  assert (1 <= ps <= 100) as Hps
    by apply (validate_pagination_bounds 1 (p_page_size q)).
  assert (forall p, selected lower ilike like jx order (with_page q p) table
                    = chosen) as Hsel by done.
  assert (Z.of_nat (length chosen) <= Z.of_nat (length table)) as Hle.
  { subst chosen. unfold selected. rewrite Hperm.
    unfold where_filters.
    destruct (build_filters lower ilike like jx q); [done|].
    apply inj_le, List.filter_length_le. }
  assert (forall p, Forall (fun e => sentiment e ∈ SentimentEnum)
                      (page_rows lower ilike like jx order
                         (with_page q p) table)) as Hrows.
  { intros p. apply Forall_forall. intros e He%page_rows_selected.
    rewrite Hsel in He. subst chosen. unfold selected in He.
    rewrite Hperm in He. rewrite Forall_forall in Hvalid. apply Hvalid.
    unfold where_filters in He.
    destruct (build_filters lower ilike like jx q); [done|].
    apply list_elem_of_In, List.filter_In in He as [He _].
    by apply list_elem_of_In. }
  assert (forall p, 1 <= p -> sqlite_integer ((p - 1) * ps) ->
            ask p = Ok (answer lower ilike like jx order (with_page q p) table))
    as Hask.
  { intros p Hp Hoff. subst ask. cbv beta. apply get_feedback_list_Ok.
    split; [by rewrite offset_of_with_page|]. by split. }
  assert (forall p, 1 <= p ->
            items (answer lower ilike like jx order (with_page q p) table)
            = to_response <$> take (Z.to_nat ps)
                (drop (Z.to_nat ((p - 1) * ps)) chosen)) as Hitems.
  { intros p Hp.
    destruct (answer_fields lower ilike like jx order
                (with_page q p) table) as (_ & _ & _ & -> & _).
    cbn [with_page p_page p_page_size].
    rewrite (validate_pagination_page p) by done. done. }
  set (first := answer lower ilike like jx order (with_page q 1) table).
  assert (page_size first = ps) as Hsize.
  { subst first.
    by destruct (answer_fields lower ilike like jx order
                   (with_page q 1) table) as (_ & -> & _). }
  assert (Z.of_nat (length chosen) = total first) as Hlen.
  { subst first.
    destruct (answer_fields lower ilike like jx order
                (with_page q 1) table) as (_ & _ & -> & _).
    subst chosen. unfold selected. by rewrite Hperm. }
  assert (pages first = if 0 <? total first
                        then (total first + ps - 1) / ps else 0) as Hn.
  { subst first.
    by destruct (answer_fields lower ilike like jx order
                   (with_page q 1) table) as (_ & _ & _ & _ & ->). }
  assert (0 <= pages first
          /\ Z.of_nat (length chosen) <= pages first * ps
          /\ (0 < pages first -> (pages first - 1) * ps < total first))
    as (Hn0 & Hcover & Hlast).
  { rewrite Hn, Hlen. destruct (Z.ltb_spec 0 (total first)); [|lia].
    pose proof (Z.div_mod (total first + ps - 1) ps ltac:(lia)).
    pose proof (Z.mod_pos_bound (total first + ps - 1) ps ltac:(lia)).
    nia. }
  exists first. split.
  { apply Hask; [done|]. unfold sqlite_integer. lia. }
  cbv zeta. rewrite Hsize.
  split; [|split; [|split]].
  - intros i Hi. eexists. split.
    + apply Hask; [lia|]. unfold sqlite_integer. nia.
    + by rewrite Hitems by lia.
  - rewrite <- (chunks_concat (Z.to_nat ps) (Z.to_nat (pages first))
                  (to_response <$> chosen))
      by (rewrite ?length_fmap; nia).
    rewrite <- seq_shift, <- list_fmap_compose. f_equal.
    apply list_fmap_ext. intros _ i _. unfold compose.
    rewrite fmap_take, fmap_drop. do 2 f_equal. nia.
  - intros p Hp Hoff. eexists. split; [apply Hask; [lia|done]|].
    rewrite Hitems by lia.
    rewrite drop_ge; [by rewrite take_nil|]. nia.
  - intros p Hp Hoff. subst ask. cbv beta.
    apply get_feedback_list_overflow.
    by rewrite offset_of_with_page by lia.
Qed.

Lemma get_feedback_list_pages_partition_witness :
  exists first second,
    get_feedback_list lower_latin1 Sql.ilike Sql.like
      Sql.json_extract_root Sql.order_by_created_at_desc
      (ListParams 1 2 None None None None)
      [ListClaims.praise; ListClaims.late_parcel; ListClaims.refund]
    = Ok first
    /\ get_feedback_list lower_latin1 Sql.ilike Sql.like
         Sql.json_extract_root Sql.order_by_created_at_desc
         (ListParams 2 2 None None None None)
         [ListClaims.praise; ListClaims.late_parcel; ListClaims.refund]
       = Ok second
    /\ pages first = 2
    /\ r_id <$> items first ++ items second = [3; 2; 1].
Proof.
  destruct (get_feedback_list_pages_partition lower_latin1 Sql.ilike Sql.like
              Sql.json_extract_root Sql.order_by_created_at_desc
              (merge_sort_Permutation Sql.newer_first)
              (ListParams 1 2 None None None None)
              [ListClaims.praise; ListClaims.late_parcel; ListClaims.refund])
    as (first & Hfirst & Hpages & _).
  - apply Forall_cons. split; [by left|].
    apply Forall_cons. split; [by right; right; left|].
    apply Forall_cons. split; [by right; right; left|].
    apply Forall_nil_2.
  - by vm_compute.
  - assert (Ok (E:=exn) first
            = Ok (MkPaginatedResponse
                    [to_response ListClaims.refund;
                     to_response ListClaims.late_parcel] 3 1 2 2))
      as Heq by (rewrite <- Hfirst; by vm_compute).
    assert (first
            = MkPaginatedResponse
                [to_response ListClaims.refund;
                 to_response ListClaims.late_parcel] 3 1 2 2)
      as -> by congruence.
    destruct (Hpages 2%nat) as (second & Hsecond & Hitems);
      [cbn; lia|].
    eexists. exists second. split; [exact Hfirst|]. split; [exact Hsecond|].
    split; [reflexivity|]. rewrite Hitems. by vm_compute.
Defined.

End PagesMore.

(** ** The primary keys of the table *)

Module StorageFacts.
Import Storage.

Lemma next_id_fresh table e : e ∈ table -> id e < next_id table.
Proof.
  unfold next_id. induction table as [|x table IH]; [by intros ?%elem_of_nil|].
  rewrite fmap_cons. cbn [foldr].
  intros [->|He]%elem_of_cons; [lia|]. specialize (IH He). lia.
Qed.

Lemma flush_length t i ds : length (flush t i ds) = length ds.
Proof. revert i. induction ds as [|d ds IH]; intros i; simpl; by f_equal. Qed.

Lemma flush_elem t ds : forall i e,
  e ∈ flush t i ds ->
  exists k d, ds !! k = Some d /\ e = persist t (i + Z.of_nat k) d.
Proof.
  induction ds as [|d ds IH]; intros i e; simpl.
  - by intros ?%elem_of_nil.
  - intros [->|He]%elem_of_cons.
    + exists 0%nat, d. split; [done|]. f_equal. lia.
    + apply IH in He as (k & d' & Hk & ->). exists (S k), d'.
      split; [done|]. f_equal. lia.
Qed.

Lemma flush_ids_ge t ds i e : e ∈ flush t i ds -> i <= id e.
Proof. intros (k & d & _ & ->)%flush_elem. simpl. lia. Qed.

Lemma flush_NoDup t ds : forall i, NoDup (id <$> flush t i ds).
Proof.
  induction ds as [|d ds IH]; intros i; cbn [flush]; [constructor|].
  rewrite fmap_cons. constructor; [|apply IH].
  intros (e & He & Hin)%list_elem_of_fmap. apply flush_ids_ge in Hin.
  simpl in He. lia.
Qed.

(** The primary keys stay distinct when pending objects are written. *)
Lemma flush_keeps_keys t table ds :
  NoDup (id <$> table) ->
  NoDup (id <$> (table ++ flush t (next_id table) ds)).
Proof.
  intros Hnd. rewrite fmap_app. apply NoDup_app.
  split; [done|]. split; [|apply flush_NoDup].
  intros i (e & -> & He)%list_elem_of_fmap (e' & Hi & He')%list_elem_of_fmap.
  apply next_id_fresh in He. apply flush_ids_ge in He'. lia.
Qed.

Lemma flush_snoc t ds d : forall i,
  flush t i (ds ++ [d])
  = flush t i ds ++ [persist t (i + Z.of_nat (length ds)) d].
Proof.
  induction ds as [|x ds IH]; intros i; simpl.
  - do 2 f_equal. lia.
  - rewrite IH.
    by replace (i + 1 + Z.of_nat (length ds))
      with (i + Z.of_nat (S (length ds))) by lia.
Qed.



Lemma flush_last_row t ds d i :
  last (flush t i (ds ++ [d]))
  = Some (persist t (i + Z.of_nat (length ds)) d).
Proof. by rewrite flush_snoc, last_snoc. Qed.

(** The rows of a primary key: none, or one when the keys are distinct. *)
Lemma filter_id_none (table : list FeedbackEntry) i :
  (forall e, e ∈ table -> id e <> i) ->
  filter (fun e => id e = i) table = [].
Proof.
  intros Hne. induction table as [|x table IH]; [done|].
  rewrite filter_cons_False by (apply Hne; by left).
  apply IH. intros e He. apply Hne. by right.
Qed.

Lemma filter_id_one (table : list FeedbackEntry) e :
  NoDup (id <$> table) -> e ∈ table ->
  filter (fun x => id x = id e) table = [e].
Proof.
  induction table as [|x table IH]; [by intros _ ?%elem_of_nil|].
  rewrite fmap_cons. intros [Hx Hnd]%NoDup_cons [->|He]%elem_of_cons.
  - rewrite filter_cons_True by done. f_equal.
    apply filter_id_none. intros y Hy Heq. apply Hx. rewrite <- Heq.
    by apply list_elem_of_fmap_2.
  - rewrite filter_cons_False; [by apply IH|].
    intros Heq. apply Hx. rewrite Heq. by apply list_elem_of_fmap_2.
Qed.

Lemma list_find_id (table : list FeedbackEntry) e :
  NoDup (id <$> table) -> e ∈ table ->
  exists k, list_find (fun x => id x = id e) table = Some (k, e).
Proof.
  induction table as [|x table IH]; [by intros _ ?%elem_of_nil|].
  rewrite fmap_cons. intros [Hx Hnd]%NoDup_cons [->|He]%elem_of_cons.
  - exists 0%nat. cbn. by rewrite decide_True.
  - destruct (IH Hnd He) as [k Hk]. exists (S k). cbn.
    rewrite decide_False.
    + by rewrite Hk.
    + intros Heq. apply Hx. rewrite Heq. by apply list_elem_of_fmap_2.
Qed.

End StorageFacts.

(** ** The classify-then-persist flow: success, and router against service *)

Module AnalyzeMore.
Import Schemas Storage Main Feedback AnalyzeFacts StorageFacts.
Local Open Scope session_scope.

Section Flow.

Variable _analyze_sentiment : str -> str -> result exn AIService.sentiment_result.
Variable _categorize_feedback : str -> str -> result exn AIService.category_result.
Variable sentiment_fails_first : str -> str -> bool.
Variable now : Z.
Variable commit_error : option str.
Variable refresh_error : option str.

Abbreviation client :=
  (client _analyze_sentiment _categorize_feedback sentiment_fails_first).

(** The [try] block of both functions. *)
Definition try_block (start_time end_time : Q) (feedback : FeedbackCreate.t)
  : M FeedbackResponse :=
  analysis <- ai_analyze_feedback _analyze_sentiment _categorize_feedback
                sentiment_fails_first (FeedbackCreate.text feedback) ;;
  save now commit_error refresh_error
       (new_entry feedback analysis (duration start_time end_time)).

(** The row a successful run writes for the feedback. *)
Definition written_row (s : session) (feedback : FeedbackCreate.t)
    (a : AIService.analysis) (duration_ms : Z) : FeedbackEntry :=
  persist now (next_id (rows s) + Z.of_nat (length (new s)))
          (new_entry feedback a duration_ms).

(** The session after a successful run. *)
Definition saved (s : session) (feedback : FeedbackCreate.t)
    (a : AIService.analysis) (duration_ms : Z) : session :=
  MkSession
    (rows s ++ flush now (next_id (rows s))
                 (new s ++ [new_entry feedback a duration_ms]))
    [] (ops s ++ [OpAdd; OpCommit; OpRefresh]).

Lemma find_written_row s d :
  let obj := persist now (next_id (rows s) + Z.of_nat (length (new s))) d in
  exists k,
    list_find (fun e => id e = id obj)
      (rows s ++ flush now (next_id (rows s)) (new s ++ [d]))
    = Some (k, obj).
Proof.
  intros obj.
  assert (forall e, e ∈ rows s -> id e <> id obj) as Hold.
  { intros e He%next_id_fresh. subst obj. simpl. lia. }
  assert (forall e, e ∈ flush now (next_id (rows s)) (new s) ->
                    id e <> id obj) as Hnew.
  { intros e (k & d' & Hk & ->)%flush_elem. subst obj. simpl.
    apply lookup_lt_Some in Hk. lia. }
  rewrite flush_snoc.
  set (l := rows s ++ flush now (next_id (rows s)) (new s)).
  rewrite app_assoc. fold l. fold obj.
  assert (forall e, e ∈ l -> id e <> id obj) as Hl.
  { intros e [?|?]%elem_of_app; [by apply Hold|by apply Hnew]. }
  clearbody l obj. clear Hold Hnew.
  induction l as [|x l IH].
  - exists 0%nat. cbn. by rewrite decide_True.
  - destruct IH as [k Hk]; [intros e He; apply Hl; by right|].
    exists (S k). cbn. rewrite decide_False by (apply Hl; by left).
    by rewrite Hk.
Qed.

Lemma try_block_run start_time end_time feedback s :
  let d := duration start_time end_time in
  match client (FeedbackCreate.text feedback) with
  | Ok (Some a) =>
      match commit_error, refresh_error with
      | None, None =>
          try_block start_time end_time feedback s
          = (saved s feedback a d,
             FeedbackResponse_model_validate (written_row s feedback a d))
      | _, _ => is_ok (try_block start_time end_time feedback s).2 = false
      end
  | _ => is_ok (try_block start_time end_time feedback s).2 = false
  end.
Proof.
  intros d. unfold try_block, bind, ai_analyze_feedback.
  fold (client (FeedbackCreate.text feedback)).
  destruct (client (FeedbackCreate.text feedback)) as [[a|]|e]; [|done|done].
  unfold ret, save, bind, db_add, db_commit.
  destruct commit_error as [cmsg|]; [done|].
  cbn [rows new ops]. fold d.
  rewrite flush_last_row.
  unfold db_refresh, lift, log_op.
  destruct refresh_error as [rmsg|]; [done|].
  cbn [rows new ops].
  destruct (find_written_row s (new_entry feedback a d)) as [k Hk].
  cbv zeta in Hk. rewrite Hk. unfold saved, written_row.
  by rewrite <- !app_assoc.
Qed.

End Flow.

(** X10. The handler of [POST /api/feedback/analyze] returns a response
    exactly when the client returns an analysis whose sentiment is one of the
    three values and neither the commit nor the refresh fails.  The session
    then holds the rows it had, followed by the pending objects and the new
    entry, with the text and tags of the request, the values of the analysis,
    the measured duration and a primary key that no row had; nothing is left
    pending, no rollback is made, and the response shows that row. *)
Theorem analyze_feedback_succeeds_iff :
  forall _analyze_sentiment _categorize_feedback sentiment_fails_first
         (now : Z) (commit_error refresh_error : option str)
         (start_time end_time : Q) (feedback : FeedbackCreate.t)
         (s s' : session) (r : FeedbackResponse),
    analyze_feedback _analyze_sentiment _categorize_feedback
      sentiment_fails_first now commit_error refresh_error
      start_time end_time feedback s = (s', Ok r)
    <-> commit_error = None /\ refresh_error = None
        /\ exists a,
            client _analyze_sentiment _categorize_feedback
              sentiment_fails_first (FeedbackCreate.text feedback)
            = Ok (Some a)
            /\ AIService.sentiment a ∈ SentimentEnum
            /\ s' = saved now s feedback a (duration start_time end_time)
            /\ r = to_response
                     (written_row now s feedback a
                        (duration start_time end_time))
            /\ (forall e, e ∈ rows s -> id e <> r_id r)
            /\ r_text r = FeedbackCreate.text feedback
            /\ r_tags r = FeedbackCreate.tags feedback
            /\ r_model_used r = AIService.model_used a.
Proof.
  intros sent cat sff now ce re t0 t1 feedback s s' r.
  unfold analyze_feedback, try_except.
  fold (duration t0 t1).
  change (bind (ai_analyze_feedback sent cat sff (FeedbackCreate.text feedback))
            (fun analysis =>
               save now ce re (new_entry feedback analysis (duration t0 t1))))
    with (try_block sent cat sff now ce re t0 t1 feedback).
  pose proof (try_block_run sent cat sff now ce re t0 t1 feedback s) as Hrun.
  cbv zeta in Hrun.
  destruct (client sent cat sff (FeedbackCreate.text feedback))
    as [[a|]|e0] eqn:Hc.
  - destruct ce as [cmsg|], re as [rmsg|];
      try (split; [|by intros (? & ? & _)];
           destruct (try_block _ _ _ _ _ _ _ _ _ s) as [s1 [r1|e1]];
           [done|]; destruct (is_AIServiceError e1); by intros [= _]).
    rewrite Hrun. unfold FeedbackResponse_model_validate.
    cbn [sentiment written_row persist new_entry d_sentiment].
    case_bool_decide as Henum.
    + split.
      * intros [= <- <-]. split; [done|]. split; [done|]. exists a.
        repeat split; try done.
        intros e He%next_id_fresh. simpl. lia.
      * intros (_ & _ & a' & [= <-] & _ & -> & -> & _). done.
    + split.
      * destruct (is_AIServiceError _); by intros [= _].
      * intros (_ & _ & a' & [= <-] & Hin & _). done.
  - split; [|by intros (_ & _ & ? & ? & _)].
    destruct (try_block _ _ _ _ _ _ _ _ _ s) as [s1 [r1|e1]]; [done|].
    destruct (is_AIServiceError e1); by intros [= _].
  - split; [|by intros (_ & _ & ? & ? & _)].
    destruct (try_block _ _ _ _ _ _ _ _ _ s) as [s1 [r1|e1]]; [done|].
    destruct (is_AIServiceError e1); by intros [= _].
Qed.

Lemma analyze_feedback_succeeds_iff_witness :
  exists s' r,
    analyze_feedback FeedbackClaims.sentiment_up FeedbackClaims.category_up
      (fun _ _ => true) 1700000000 None None 0%Q (3 # 2)
      FeedbackClaims.great_product FeedbackClaims.empty_session
    = (s', Ok r)
    /\ r_id r = 1 /\ length (rows s') = 1%nat.
Proof.
  eexists _, _. split; [|split].
  - apply (analyze_feedback_succeeds_iff FeedbackClaims.sentiment_up
             FeedbackClaims.category_up (fun _ _ => true) 1700000000
             None None 0%Q (3 # 2) FeedbackClaims.great_product
             FeedbackClaims.empty_session).
    split; [reflexivity|]. split; [reflexivity|].
    eexists. split; [by vm_compute|].
    split; [vm_compute; by left|].
    split; [reflexivity|]. split; [reflexivity|].
    split; [by intros e ?%elem_of_nil|]. by vm_compute.
  - by vm_compute.
  - by vm_compute.
Defined.

(** X11. [FeedbackService.analyze_and_save_feedback] and the handler of the
    router, given the same request, times and session, leave the same session
    and return the same response; when they fail, the service raises the
    error the router turns into an HTTP error, and the handlers of the
    application answer both with the same status code: 503 for an
    [AIServiceError] and 500 for any other error. *)
Theorem router_and_service_analyze_alike :
  forall _analyze_sentiment _categorize_feedback sentiment_fails_first
         (now : Z) (commit_error refresh_error : option str)
         (start_time end_time : Q) (feedback : FeedbackCreate.t) (s : session),
    let router :=
      analyze_feedback _analyze_sentiment _categorize_feedback
        sentiment_fails_first now commit_error refresh_error
        start_time end_time feedback s in
    let service :=
      analyze_and_save_feedback _analyze_sentiment _categorize_feedback
        sentiment_fails_first now commit_error refresh_error
        feedback start_time end_time s in
    router.1 = service.1
    /\ match service.2 with
       | Ok r => router.2 = Ok r
       | Err e =>
           router.2
           = Err (if is_AIServiceError e
                  then HTTPException 503 (exn_str e)
                  else HTTPException 500 (py "Internal server error"))
           /\ status_of (exception_response (A:=FeedbackResponse) e)
              = (if is_AIServiceError e then 503 else 500)
       end.
Proof.
  intros sent cat sff now ce re t0 t1 feedback s router service.
  pose proof (analyze_and_save_feedback_failure sent cat sff now ce re
                t0 t1 feedback s) as Hfail.
  subst router service.
  unfold analyze_feedback, analyze_and_save_feedback, try_except in *.
  destruct (bind _ _ s) as [s1 [r|e0]]; [done|].
  destruct (is_AIServiceError e0) eqn:Hk.
  - simpl. split; [done|]. rewrite Hk. split; [done|].
    by destruct e0.
  - simpl. split; [done|]. rewrite Hk. split; [done|].
    simpl in Hfail.
    destruct (Hfail _ _ eq_refl) as [(msg & _ & -> & _)|(a & t & _ & -> & _)];
      done.
Qed.

End AnalyzeMore.

(** ** Reading, retagging and deleting one entry

    [get_feedback], [update_feedback_tags] and [delete_feedback] of
    [app/routers/feedback.py], and [get_feedback_by_id],
    [update_feedback_tags] and [delete_feedback] of [FeedbackService].  The
    column [updated_at], which no response shows, is not part of the
    record [FeedbackEntry]. *)

Module Crud.
Import Schemas Storage Main Feedback.
Local Open Scope session_scope.

(** [str(n)] for an [int], as an f-string formats it. *)
Definition str_of_int (n : Z) : str :=
  py (NilZero.string_of_int (Z.to_int n)).

(** [result.scalar_one_or_none()] *)
Definition scalar_one_or_none (found : list FeedbackEntry)
  : result exn (option FeedbackEntry) :=
  match found with
  | [] => Ok None
  | [e] => Ok (Some e)
  | _ =>
      Err (OtherException
             (py "Multiple rows were found when one or none was required"))
  end.

(** The ids the driver binds: the 64-bit integers.  The keys of the table
    are such integers, the column being [INTEGER PRIMARY KEY]; the model
    does not bound the keys of a table, and lets the driver bind every key
    that is stored. *)
Definition bindable (feedback_id : Z) (table : list FeedbackEntry) : Prop :=
  sqlite_integer feedback_id \/ feedback_id ∈ id <$> table.

#[global] Instance bindable_dec i table : Decision (bindable i table).
Proof. unfold bindable. apply _. Defined.

(** [select(FeedbackEntry).where(FeedbackEntry.id == feedback_id)], executed,
    then [scalar_one_or_none()]; the driver raises [OverflowError] for an id
    it cannot bind, and the session does not flush for a query
    ([autoflush=False]). *)
Definition select_by_id (feedback_id : Z) : M (option FeedbackEntry) :=
  fun s =>
    if decide (bindable feedback_id (rows s))
    then
      (s, scalar_one_or_none (filter (fun e => id e = feedback_id) (rows s)))
    else (s, Err overflow_error).

(** [feedback.tags = tags] *)
Definition with_tags (feedback : FeedbackEntry) (tags : list str)
  : FeedbackEntry :=
  MkFeedbackEntry (id feedback) (text feedback) (sentiment feedback)
    (sentiment_confidence feedback) (category feedback)
    (category_confidence feedback) tags (created_at feedback)
    (analysis_duration_ms feedback) (model_used feedback).

(** What the session holds for a loaded object when [commit] is called: the
    object with an attribute set, or the object passed to [db.delete]. *)
Inductive change : Type :=
| Dirty (obj : FeedbackEntry)
| Deleted (obj : FeedbackEntry).

(** The UPDATE, respectively the DELETE, of the flush: the row is found by
    its primary key. *)
Definition apply_change (c : change) (table : list FeedbackEntry)
  : list FeedbackEntry :=
  match c with
  | Dirty obj =>
      (fun e => if decide (id e = id obj) then obj else e) <$> table
  | Deleted obj => filter (fun e => id e <> id obj) table
  end.

Section Handlers.

(** The database, as in [Storage]. *)
Variable now : Z.
Variable commit_error : option str.
Variable refresh_error : option str.

(** [await db.commit()] with a changed or deleted object in the session:
    all is written, or nothing. *)
Definition db_commit_change (c : change) : M unit :=
  fun s =>
    match commit_error with
    | Some msg => (log_op OpCommit s, Err (OtherException msg))
    | None =>
        let written := flush now (next_id (rows s)) (new s) in
        (MkSession (apply_change c (rows s ++ written)) []
                   (ops s ++ [OpCommit]), Ok tt)
    end.

(** [GET /api/feedback/{feedback_id}] *)
Definition get_feedback (feedback_id : Z) : M FeedbackResponse :=
  feedback <- select_by_id feedback_id ;;
  match feedback with
  | None => raise (HTTPException 404 (py "Feedback not found"))
  | Some feedback => lift (FeedbackResponse_model_validate feedback)
  end.

(** [PUT /api/feedback/{feedback_id}/tags]; [tags] is [update_data.tags]. *)
Definition update_feedback_tags (feedback_id : Z) (tags : list str)
  : M FeedbackResponse :=
  feedback <- select_by_id feedback_id ;;
  match feedback with
  | None => raise (HTTPException 404 (py "Feedback not found"))
  | Some feedback =>
      let feedback := with_tags feedback tags in
      db_commit_change (Dirty feedback) ;;;
      feedback <- db_refresh refresh_error feedback ;;
      lift (FeedbackResponse_model_validate feedback)
  end.

(** [DELETE /api/feedback/{feedback_id}]; the result is the value of the key
    [message] of the dictionary returned. *)
Definition delete_feedback (feedback_id : Z) : M str :=
  feedback <- select_by_id feedback_id ;;
  match feedback with
  | None => raise (HTTPException 404 (py "Feedback not found"))
  | Some feedback =>
      db_commit_change (Deleted feedback) ;;;
      ret (py "Feedback deleted successfully")
  end.

End Handlers.

End Crud.

(** The same three operations in [FeedbackService]. *)
Module FeedbackService.
Import Schemas Storage Main Feedback Crud.
Local Open Scope session_scope.

Section Service.

Variable now : Z.
Variable commit_error : option str.
Variable refresh_error : option str.

(** [get_feedback_by_id] *)
Definition get_feedback_by_id (feedback_id : Z) : M (option FeedbackEntry) :=
  select_by_id feedback_id.

(** [update_feedback_tags] *)
Definition update_feedback_tags (feedback_id : Z) (tags : list str)
  : M FeedbackEntry :=
  feedback <- get_feedback_by_id feedback_id ;;
  match feedback with
  | None =>
      raise (NotFoundError
               (py "Feedback with ID " ++ str_of_int feedback_id
                ++ py " not found"))
  | Some feedback =>
      let feedback := with_tags feedback tags in
      db_commit_change now commit_error (Dirty feedback) ;;;
      feedback <- db_refresh refresh_error feedback ;;
      ret feedback
  end.

(** [delete_feedback] *)
Definition delete_feedback (feedback_id : Z) : M bool :=
  feedback <- get_feedback_by_id feedback_id ;;
  match feedback with
  | None =>
      raise (NotFoundError
               (py "Feedback with ID " ++ str_of_int feedback_id
                ++ py " not found"))
  | Some feedback =>
      db_commit_change now commit_error (Deleted feedback) ;;;
      ret true
  end.

End Service.

End FeedbackService.

Module CrudFacts.
Import Schemas Storage Main Feedback Crud StorageFacts.
Local Open Scope session_scope.

Definition not_found : exn := HTTPException 404 (py "Feedback not found").

Lemma not_stored i (table : list FeedbackEntry) :
  (forall e, e ∈ table -> id e <> i) <-> i ∉ id <$> table.
Proof.
  split.
  - intros Hne (e & -> & He)%list_elem_of_fmap. by apply (Hne e).
  - intros Hout e He <-. apply Hout. by apply list_elem_of_fmap_2.
Qed.

Lemma select_by_id_missing i s :
  sqlite_integer i ->
  (forall e, e ∈ rows s -> id e <> i) -> select_by_id i s = (s, Ok None).
Proof.
  intros Hi Hne. unfold select_by_id.
  rewrite decide_True by (by left). by rewrite filter_id_none.
Qed.

Lemma select_by_id_overflow i s :
  ~ sqlite_integer i ->
  (forall e, e ∈ rows s -> id e <> i) ->
  select_by_id i s = (s, Err overflow_error).
Proof.
  intros Hi Hne%not_stored. unfold select_by_id.
  rewrite decide_False; [done|]. by intros [?|?].
Qed.

Lemma select_by_id_found s e :
  NoDup (id <$> rows s) -> e ∈ rows s ->
  select_by_id (id e) s = (s, Ok (Some e)).
Proof.
  intros Hnd He. unfold select_by_id.
  rewrite decide_True by (right; by apply list_elem_of_fmap_2).
  by rewrite filter_id_one.
Qed.

(** With distinct keys a query by key finds the row of that key, or none,
    or the driver refuses the id. *)
Lemma select_by_id_cases i s :
  NoDup (id <$> rows s) ->
  (sqlite_integer i /\ select_by_id i s = (s, Ok None)
   /\ forall e, e ∈ rows s -> id e <> i)
  \/ (~ sqlite_integer i /\ select_by_id i s = (s, Err overflow_error)
      /\ forall e, e ∈ rows s -> id e <> i)
  \/ (exists e, e ∈ rows s /\ id e = i /\ select_by_id i s = (s, Ok (Some e))).
Proof.
  intros Hnd.
  destruct (decide (i ∈ id <$> rows s)) as [Hin|Hout].
  - apply list_elem_of_fmap in Hin as (e & -> & He). right. right. exists e.
    split; [done|]. split; [done|]. by apply select_by_id_found.
  - rewrite <- not_stored in Hout.
    destruct (decide (sqlite_integer i)) as [Hi|Hi].
    + left. split; [done|]. split; [by apply select_by_id_missing|done].
    + right. left. split; [done|].
      split; [by apply select_by_id_overflow|done].
Qed.

(** On a table whose keys are 64-bit integers the driver is asked first:
    an id outside the range is refused, another is looked up. *)
Lemma select_by_id_binds_first i s :
  Forall (fun e => sqlite_integer (id e)) (rows s) ->
  select_by_id i s
  = if decide (sqlite_integer i)
    then (s, scalar_one_or_none (filter (fun e => id e = i) (rows s)))
    else (s, Err overflow_error).
Proof.
  intros Hkeys. unfold select_by_id.
  destruct (decide (sqlite_integer i)) as [Hi|Hi].
  - by rewrite decide_True by (by left).
  - rewrite decide_False; [done|].
    intros [?|(e & -> & He)%list_elem_of_fmap]; [done|].
    rewrite Forall_forall in Hkeys. by apply Hi, Hkeys.
Qed.

Lemma with_tags_id e tags : id (with_tags e tags) = id e.
Proof. done. Qed.

Lemma with_tags_twice e t1 t2 : with_tags (with_tags e t1) t2 = with_tags e t2.
Proof. done. Qed.

(** The UPDATE changes no key. *)
Lemma update_ids obj table :
  id <$> apply_change (Dirty obj) table = id <$> table.
Proof.
  cbn [apply_change]. rewrite <- list_fmap_compose. apply list_fmap_ext.
  intros k x _. simpl. by case_decide.
Qed.

Lemma update_elem obj table x :
  x ∈ apply_change (Dirty obj) table
  <-> (x = obj /\ id obj ∈ id <$> table)
      \/ (x ∈ table /\ id x <> id obj).
Proof.
  cbn [apply_change]. rewrite list_elem_of_fmap. split.
  - intros (y & -> & Hy). case_decide as Hid.
    + left. split; [done|]. rewrite <- Hid. by apply list_elem_of_fmap_2.
    + by right.
  - intros [[-> (y & Hid & Hy)%list_elem_of_fmap]|[Hx Hid]].
    + exists y. by rewrite decide_True.
    + exists x. by rewrite decide_False.
Qed.


Lemma update_find e tags table :
  NoDup (id <$> table) -> e ∈ table ->
  exists k,
    list_find (fun x => id x = id (with_tags e tags))
      (apply_change (Dirty (with_tags e tags)) table)
    = Some (k, with_tags e tags).
Proof.
  intros Hnd He. apply list_find_id.
  - by rewrite update_ids.
  - apply update_elem. left. split; [done|].
    apply (list_elem_of_fmap_2 id table e He).
Qed.

Lemma delete_elem obj table x :
  x ∈ apply_change (Deleted obj) table <-> x ∈ table /\ id x <> id obj.
Proof. cbn [apply_change]. rewrite list_elem_of_filter. tauto. Qed.

Lemma delete_sublist obj table :
  apply_change (Deleted obj) table `sublist_of` table.
Proof. apply sublist_filter. Qed.

Lemma filter_id_split (table : list FeedbackEntry) i :
  (length (filter (fun x => id x <> i) table)
   + length (filter (fun x => id x = i) table) = length table)%nat.
Proof.
  induction table as [|x table IH]; [done|].
  rewrite !filter_cons. destruct (decide (id x = i)) as [Hx|Hx].
  - rewrite decide_False by tauto. simpl. lia.
  - rewrite decide_True by done. simpl. lia.
Qed.

Lemma delete_length (table : list FeedbackEntry) e :
  NoDup (id <$> table) -> e ∈ table ->
  (length (apply_change (Deleted e) table) + 1 = length table)%nat.
Proof.
  intros Hnd He. cbn [apply_change].
  pose proof (filter_id_one table e Hnd He) as Hone.
  pose proof (filter_id_split table (id e)) as Hsum.
  rewrite Hone in Hsum. simpl in Hsum. lia.
Qed.

End CrudFacts.

(** *** What the three handlers do to the table *)

Module CrudRuns.
Import Schemas Storage Main Feedback Crud StorageFacts CrudFacts.
Local Open Scope session_scope.

Lemma same_key_same_row (table : list FeedbackEntry) e e' :
  NoDup (id <$> table) -> e ∈ table -> e' ∈ table -> id e' = id e -> e' = e.
Proof.
  intros Hnd He He' Hid.
  assert (e' ∈ filter (fun x => id x = id e) table) as Hin
    by (by apply list_elem_of_filter).
  rewrite (filter_id_one table e Hnd He) in Hin.
  by apply list_elem_of_singleton in Hin.
Qed.

Lemma filter_id_all (table : list FeedbackEntry) i :
  (forall e, e ∈ table -> id e <> i) ->
  filter (fun e => id e <> i) table = table.
Proof.
  intros Hne. induction table as [|x table IH]; [done|].
  rewrite filter_cons_True by (apply Hne; by left).
  f_equal. apply IH. intros e He. apply Hne. by right.
Qed.

Lemma get_feedback_run s e :
  NoDup (id <$> rows s) -> e ∈ rows s ->
  get_feedback (id e) s = (s, FeedbackResponse_model_validate e).
Proof.
  intros Hnd He. unfold get_feedback, bind.
  by rewrite select_by_id_found.
Qed.

Lemma model_validate_valid e :
  sentiment e ∈ SentimentEnum ->
  FeedbackResponse_model_validate e = Ok (to_response e).
Proof.
  intros Hin. unfold FeedbackResponse_model_validate.
  by rewrite bool_decide_eq_true_2.
Qed.

Lemma model_validate_invalid e :
  sentiment e ∉ SentimentEnum ->
  FeedbackResponse_model_validate e
  = Err (OtherException (py "validation error for FeedbackResponse")).
Proof.
  intros Hin. unfold FeedbackResponse_model_validate.
  by rewrite bool_decide_eq_false_2.
Qed.

(** The session after the tags of [e] are replaced. *)
Definition retagged (s : session) (e : FeedbackEntry) (tags : list str)
  : session :=
  MkSession (apply_change (Dirty (with_tags e tags)) (rows s)) []
            (ops s ++ [OpCommit; OpRefresh]).

(** The session after [e] is deleted. *)
Definition removed (s : session) (e : FeedbackEntry) : session :=
  MkSession (apply_change (Deleted e) (rows s)) [] (ops s ++ [OpCommit]).

Lemma update_run now tags s e :
  NoDup (id <$> rows s) -> new s = [] -> e ∈ rows s ->
  update_feedback_tags now None None (id e) tags s
  = (retagged s e tags, FeedbackResponse_model_validate (with_tags e tags)).
Proof.
  intros Hnd Hnew He. unfold update_feedback_tags, bind.
  rewrite select_by_id_found by done.
  unfold db_commit_change. rewrite Hnew. cbn [flush]. rewrite app_nil_r.
  unfold db_refresh, log_op. cbn [rows new ops].
  destruct (update_find e tags (rows s) Hnd He) as [k Hk]. rewrite Hk.
  unfold lift, retagged. by rewrite <- app_assoc.
Qed.

Lemma delete_run now s e :
  NoDup (id <$> rows s) -> new s = [] -> e ∈ rows s ->
  delete_feedback now None (id e) s
  = (removed s e, Ok (py "Feedback deleted successfully")).
Proof.
  intros Hnd Hnew He. unfold delete_feedback, bind.
  rewrite select_by_id_found by done.
  unfold db_commit_change. rewrite Hnew. cbn [flush]. by rewrite app_nil_r.
Qed.

Lemma retagged_keys s e tags : id <$> rows (retagged s e tags) = id <$> rows s.
Proof. apply update_ids. Qed.

Lemma retagged_elem s e tags :
  e ∈ rows s -> with_tags e tags ∈ rows (retagged s e tags).
Proof.
  intros He. apply update_elem. left. split; [done|].
  apply (list_elem_of_fmap_2 id (rows s) e He).
Qed.

Lemma removed_keys s e :
  NoDup (id <$> rows s) -> NoDup (id <$> rows (removed s e)).
Proof.
  intros Hnd. eapply sublist_NoDup; [exact Hnd|].
  apply fmap_sublist, delete_sublist.
Qed.

Lemma removed_missing s e x : x ∈ rows (removed s e) -> id x <> id e.
Proof. by intros [_ ?]%delete_elem. Qed.

End CrudRuns.

Module CrudMore.
Import Schemas Storage Main Feedback Crud StorageFacts CrudFacts CrudRuns.
Local Open Scope session_scope.

(** Two stored entries, and a third whose sentiment is not one of the three
    values. *)
Definition good_service : FeedbackEntry :=
  MkFeedbackEntry 1 (py "Helpful support") (py "positive") (90 # 100)
    (py "Customer Service") (80 # 100) [py "support"] 1700000000 100
    (py "qwen/qwen3-235b-a22b-07-25:free").

Definition slow_delivery : FeedbackEntry :=
  MkFeedbackEntry 2 (py "Slow delivery") (py "negative") (85 # 100)
    (py "Delivery") (75 # 100) [] 1700000100 90
    (py "qwen/qwen3-235b-a22b-07-25:free").

Definition two_entries : session :=
  MkSession [good_service; slow_delivery] [] [].

(** X12. For an id that no row has, [get_feedback], [update_feedback_tags]
    and [delete_feedback] of the router leave the session as it was: nothing
    is committed, whether the database works or not.  When the id is a
    64-bit integer they raise the HTTP error 404 with the detail [Feedback
    not found]; for any other id the driver cannot bind it and they raise
    its [OverflowError], which the application answers with status 500. *)
Theorem missing_id_is_not_found :
  forall (now : Z) (commit_error refresh_error : option str)
         (feedback_id : Z) (tags : list str) (s : session),
    (forall e, e ∈ rows s -> id e <> feedback_id) ->
    let raised :=
      if decide (sqlite_integer feedback_id)
      then HTTPException 404 (py "Feedback not found")
      else overflow_error in
    get_feedback feedback_id s = (s, Err raised)
    /\ update_feedback_tags now commit_error refresh_error feedback_id tags s
       = (s, Err raised)
    /\ delete_feedback now commit_error feedback_id s = (s, Err raised)
    /\ status_of (exception_response (A:=FeedbackResponse) raised)
       = (if decide (sqlite_integer feedback_id) then 404 else 500).
Proof.
  intros now ce re i tags s Hne raised. subst raised.
  unfold get_feedback, update_feedback_tags, delete_feedback, bind.
  destruct (decide (sqlite_integer i)) as [Hi|Hi].
  - by rewrite select_by_id_missing.
  - by rewrite select_by_id_overflow.
Qed.

Lemma missing_id_is_not_found_witness :
  get_feedback 7 two_entries
  = (two_entries, Err (HTTPException 404 (py "Feedback not found")))
  /\ update_feedback_tags 1700000500 (Some (py "disk full")) None 7
       [py "late"] two_entries
     = (two_entries, Err (HTTPException 404 (py "Feedback not found")))
  /\ delete_feedback 1700000500 (Some (py "disk full")) (2 ^ 63) two_entries
     = (two_entries, Err overflow_error).
Proof.
  assert (forall i, i <> 1 -> i <> 2 ->
            forall e, e ∈ rows two_entries -> id e <> i) as Hmissing.
  { intros i H1 H2 e He. unfold two_entries in He. cbn [rows] in He.
    apply elem_of_cons in He as [->|He]; [by apply not_eq_sym|].
    apply elem_of_cons in He as [->|He]; [by apply not_eq_sym|].
    by apply elem_of_nil in He. }
  destruct (missing_id_is_not_found 1700000500 (Some (py "disk full")) None 7
              [py "late"] two_entries) as (Hget & Hupdate & _);
    [by apply Hmissing|].
  destruct (missing_id_is_not_found 1700000500 (Some (py "disk full")) None
              (2 ^ 63) [py "late"] two_entries) as (_ & _ & Hdelete & _);
    [by apply Hmissing|].
  split; [exact Hget|]. split; [exact Hupdate|exact Hdelete].
Defined.

(** X13. On a table with distinct primary keys [get_feedback] never changes
    the session.  It raises the HTTP error 404 exactly when the id is a
    64-bit integer that no row has, and the [OverflowError] of the driver
    exactly when the id is no 64-bit integer and no row has it; it returns
    a response exactly when the row of that id carries one of the three
    sentiments, the response showing that row. *)
Theorem get_feedback_reads_the_row :
  forall (feedback_id : Z) (s : session),
    NoDup (id <$> rows s) ->
    (get_feedback feedback_id s).1 = s
    /\ ((get_feedback feedback_id s).2
        = Err (HTTPException 404 (py "Feedback not found"))
        <-> sqlite_integer feedback_id
            /\ forall e, e ∈ rows s -> id e <> feedback_id)
    /\ ((get_feedback feedback_id s).2 = Err overflow_error
        <-> ~ sqlite_integer feedback_id
            /\ forall e, e ∈ rows s -> id e <> feedback_id)
    /\ (forall r,
          (get_feedback feedback_id s).2 = Ok r
          <-> exists e, e ∈ rows s /\ id e = feedback_id
                /\ sentiment e ∈ SentimentEnum /\ r = to_response e).
Proof.
  intros i s Hnd.
  assert (overflow_error
          <> OtherException (py "validation error for FeedbackResponse"))
    as Hother by (by vm_compute).
  destruct (select_by_id_cases i s Hnd)
    as [(Hi & Hsel & Hne)|[(Hi & Hsel & Hne)|(e & He & <- & Hsel)]].
  - unfold get_feedback, bind. rewrite Hsel. cbn [raise fst snd].
    split; [done|]. split; [done|]. split.
    { split; [done|]. by intros [? _]. }
    intros r. split; [done|]. intros (e & He & Hid & _). by apply Hne in He.
  - unfold get_feedback, bind. rewrite Hsel. cbn [fst snd].
    split; [done|]. split.
    { split; [done|]. by intros [? _]. }
    split; [done|].
    intros r. split; [done|]. intros (e & He & Hid & _). by apply Hne in He.
  - rewrite (get_feedback_run s e Hnd He). cbn [fst snd].
    split; [done|].
    destruct (decide (sentiment e ∈ SentimentEnum)) as [Hin|Hout].
    + rewrite (model_validate_valid e Hin). split; [|split].
      * split; [done|]. intros [_ Hne]. by apply Hne in He.
      * split; [done|]. intros [_ Hne]. by apply Hne in He.
      * intros r. split.
        -- intros Hr. assert (r = to_response e) as -> by congruence.
           by exists e.
        -- intros (e' & He' & Hid & _ & ->).
           by rewrite (same_key_same_row (rows s) e e' Hnd He He' Hid).
    + rewrite (model_validate_invalid e Hout). split; [|split].
      * split; [done|]. intros [_ Hne]. by apply Hne in He.
      * split; [|intros [_ Hne]; by apply Hne in He].
        intros Heq. exfalso. apply Hother. congruence.
      * intros r. split; [done|].
        intros (e' & He' & Hid & Hin & _).
        by rewrite (same_key_same_row (rows s) e e' Hnd He He' Hid) in Hin.
Qed.

Lemma get_feedback_reads_the_row_witness :
  (get_feedback 2 two_entries).1 = two_entries
  /\ (get_feedback 2 two_entries).2 = Ok (to_response slow_delivery).
Proof.
  assert (NoDup (id <$> rows two_entries)) as Hnd
    by (vm_compute; apply NoDup_cons; split;
        [by intros [=]%list_elem_of_singleton|apply NoDup_singleton]).
  destruct (get_feedback_reads_the_row 2 two_entries Hnd)
    as (Hs & _ & _ & Hr).
  split; [exact Hs|]. apply Hr. exists slow_delivery.
  split; [by right; left|]. split; [reflexivity|].
  split; [by right; right; left|reflexivity].
Defined.

(** X14. [update_feedback_tags] of the router, for the id of a stored entry
    with a valid sentiment and a database that works: the response shows the
    entry with the new tags and every other field as it was; the table
    keeps its keys in their order, holds the retagged entry, and every row of
    another id is untouched; one commit and one refresh are made; and
    [get_feedback] of that id then returns the same response. *)
Theorem update_feedback_tags_replaces_tags :
  forall (now : Z) (tags : list str) (s : session) (e : FeedbackEntry),
    NoDup (id <$> rows s) -> new s = [] -> e ∈ rows s ->
    sentiment e ∈ SentimentEnum ->
    exists s',
      update_feedback_tags now None None (id e) tags s
      = (s', Ok (to_response (with_tags e tags)))
      /\ r_tags (to_response (with_tags e tags)) = tags
      /\ id <$> rows s' = id <$> rows s
      /\ with_tags e tags ∈ rows s'
      /\ (forall x, id x <> id e -> x ∈ rows s' <-> x ∈ rows s)
      /\ new s' = []
      /\ ops s' = ops s ++ [OpCommit; OpRefresh]
      /\ get_feedback (id e) s' = (s', Ok (to_response (with_tags e tags))).
Proof.
  intros now tags s e Hnd Hnew He Hin. exists (retagged s e tags).
  assert (FeedbackResponse_model_validate (with_tags e tags)
          = Ok (to_response (with_tags e tags))) as Hvalid
    by (by apply model_validate_valid).
  split; [by rewrite update_run, Hvalid|].
  split; [done|]. split; [apply retagged_keys|].
  split; [by apply retagged_elem|].
  split.
  { intros x Hx. unfold retagged. cbn [rows]. rewrite update_elem.
    cbn [with_tags id]. split.
    - intros [[-> _]|[? _]]; [done|done].
    - intros Hxs. right. by split. }
  split; [done|]. split; [done|].
  pose proof (get_feedback_run (retagged s e tags) (with_tags e tags)) as Hget.
  rewrite retagged_keys in Hget. rewrite <- Hvalid.
  apply Hget; [done|by apply retagged_elem].
Qed.

Lemma update_feedback_tags_replaces_tags_witness :
  exists s',
    update_feedback_tags 1700000500 None None 2 [py "late"] two_entries
    = (s', Ok (to_response (with_tags slow_delivery [py "late"])))
    /\ rows s' = [good_service; with_tags slow_delivery [py "late"]].
Proof.
  assert (NoDup (id <$> rows two_entries)) as Hnd
    by (vm_compute; apply NoDup_cons; split;
        [by intros [=]%list_elem_of_singleton|apply NoDup_singleton]).
  destruct (update_feedback_tags_replaces_tags 1700000500 [py "late"]
              two_entries slow_delivery Hnd eq_refl)
    as (s' & Hrun & _); [by right; left|by right; right; left|].
  exists s'. split; [exact Hrun|].
  apply (f_equal fst) in Hrun. cbn [fst] in Hrun. rewrite <- Hrun.
  by vm_compute.
Defined.



(** X16. [delete_feedback] of the router, for the id of a stored entry and a
    database that works, returns its message and removes that row and no
    other: the rows left are those of the other ids, in their order, one
    fewer than before.  Afterwards [get_feedback], a second
    [delete_feedback] and [update_feedback_tags] of that id raise the HTTP
    error 404, the id being a 64-bit integer as the keys of the table
    are (for another id the model has the driver refuse it). *)
Theorem delete_feedback_removes_the_row :
  forall (now : Z) (tags : list str) (s : session) (e : FeedbackEntry),
    NoDup (id <$> rows s) -> new s = [] -> e ∈ rows s ->
    exists s',
      let gone :=
        if decide (sqlite_integer (id e))
        then HTTPException 404 (py "Feedback not found")
        else overflow_error in
      delete_feedback now None (id e) s
      = (s', Ok (py "Feedback deleted successfully"))
      /\ (forall x, x ∈ rows s' <-> x ∈ rows s /\ id x <> id e)
      /\ rows s' `sublist_of` rows s
      /\ (length (rows s') + 1 = length (rows s))%nat
      /\ get_feedback (id e) s' = (s', Err gone)
      /\ delete_feedback now None (id e) s' = (s', Err gone)
      /\ update_feedback_tags now None None (id e) tags s' = (s', Err gone).
Proof.
  intros now tags s e Hnd Hnew He. exists (removed s e). cbv zeta.
  split; [by apply delete_run|].
  split; [intros x; apply delete_elem|].
  split; [apply delete_sublist|].
  split; [by apply delete_length|].
  unfold get_feedback, delete_feedback, update_feedback_tags, bind.
  destruct (decide (sqlite_integer (id e))) as [Hi|Hi].
  - rewrite select_by_id_missing; [done|done|].
    intros x. apply removed_missing.
  - rewrite select_by_id_overflow; [done|done|].
    intros x. apply removed_missing.
Qed.

Lemma delete_feedback_removes_the_row_witness :
  exists s',
    delete_feedback 1700000500 None 1 two_entries
    = (s', Ok (py "Feedback deleted successfully"))
    /\ rows s' = [slow_delivery]
    /\ get_feedback 1 s'
       = (s', Err (HTTPException 404 (py "Feedback not found"))).
Proof.
  assert (NoDup (id <$> rows two_entries)) as Hnd
    by (vm_compute; apply NoDup_cons; split;
        [by intros [=]%list_elem_of_singleton|apply NoDup_singleton]).
  destruct (delete_feedback_removes_the_row 1700000500 [] two_entries
              good_service Hnd eq_refl)
    as (s' & Hrun & _ & _ & _ & Hget & _); [by left|].
  exists s'. split; [exact Hrun|]. split; [|exact Hget].
  apply (f_equal fst) in Hrun. cbn [fst] in Hrun. rewrite <- Hrun.
  by vm_compute.
Defined.

(** X17. When the commit fails, [update_feedback_tags] and [delete_feedback]
    of the router raise the error of the database, which the application
    answers with status 500 and the text [An unexpected error occurred]; the
    table is as it was and nothing is refreshed. *)
Theorem failed_commit_changes_no_row :
  forall (now : Z) (msg : str) (refresh_error : option str)
         (tags : list str) (s : session) (e : FeedbackEntry),
    NoDup (id <$> rows s) -> e ∈ rows s ->
    let updated :=
      update_feedback_tags now (Some msg) refresh_error (id e) tags s in
    let deleted := delete_feedback now (Some msg) (id e) s in
    updated.2 = Err (OtherException msg)
    /\ deleted.2 = Err (OtherException msg)
    /\ rows updated.1 = rows s /\ rows deleted.1 = rows s
    /\ ops updated.1 = ops s ++ [OpCommit]
    /\ ops deleted.1 = ops s ++ [OpCommit]
    /\ exception_response (A:=FeedbackResponse) (OtherException msg)
       = Failure 500 (py "An unexpected error occurred").
Proof.
  intros now msg re tags s e Hnd He updated deleted. subst updated deleted.
  unfold update_feedback_tags, delete_feedback, bind.
  rewrite select_by_id_found by done.
  unfold db_commit_change. by cbn.
Qed.

Lemma failed_commit_changes_no_row_witness :
  (update_feedback_tags 1700000500 (Some (py "disk full")) None 2
     [py "late"] two_entries).2
  = Err (OtherException (py "disk full"))
  /\ rows (update_feedback_tags 1700000500 (Some (py "disk full")) None 2
             [py "late"] two_entries).1
     = rows two_entries.
Proof.
  assert (NoDup (id <$> rows two_entries)) as Hnd
    by (vm_compute; apply NoDup_cons; split;
        [by intros [=]%list_elem_of_singleton|apply NoDup_singleton]).
  assert (slow_delivery ∈ rows two_entries) as He by (by right; left).
  pose proof (failed_commit_changes_no_row 1700000500 (py "disk full") None
                [py "late"] two_entries slow_delivery Hnd He) as H.
  cbv zeta in H. destruct H as (Hu & _ & Hr & _). split; [exact Hu|exact Hr].
Defined.

(** X18. When the commit succeeds and the refresh after it fails,
    [update_feedback_tags] of the router raises the error of the database,
    answered with status 500, although the new tags are stored: the table
    holds the retagged entry. *)
Theorem failed_refresh_keeps_new_tags :
  forall (now : Z) (msg : str) (tags : list str) (s : session)
         (e : FeedbackEntry),
    NoDup (id <$> rows s) -> new s = [] -> e ∈ rows s ->
    let updated := update_feedback_tags now None (Some msg) (id e) tags s in
    updated.2 = Err (OtherException msg)
    /\ with_tags e tags ∈ rows updated.1
    /\ id <$> rows updated.1 = id <$> rows s
    /\ status_of (exception_response (A:=FeedbackResponse)
                    (OtherException msg)) = 500.
Proof.
  intros now msg tags s e Hnd Hnew He updated. subst updated.
  unfold update_feedback_tags, bind.
  rewrite select_by_id_found by done.
  unfold db_commit_change. rewrite Hnew. cbn [flush]. rewrite app_nil_r.
  unfold db_refresh, log_op. cbn [rows new ops fst snd].
  split; [done|]. split; [apply (retagged_elem s e tags He)|].
  split; [apply update_ids|done].
Qed.

Lemma failed_refresh_keeps_new_tags_witness :
  (update_feedback_tags 1700000500 None (Some (py "connection lost")) 2
     [py "late"] two_entries).2
  = Err (OtherException (py "connection lost"))
  /\ with_tags slow_delivery [py "late"]
     ∈ rows (update_feedback_tags 1700000500 None
               (Some (py "connection lost")) 2 [py "late"] two_entries).1.
Proof.
  assert (NoDup (id <$> rows two_entries)) as Hnd
    by (vm_compute; apply NoDup_cons; split;
        [by intros [=]%list_elem_of_singleton|apply NoDup_singleton]).
  assert (slow_delivery ∈ rows two_entries) as He by (by right; left).
  pose proof (failed_refresh_keeps_new_tags 1700000500
                (py "connection lost") [py "late"] two_entries slow_delivery
                Hnd eq_refl He) as H.
  cbv zeta in H. destruct H as (Hu & Hin & _). split; [exact Hu|exact Hin].
Defined.

(** X19. [update_feedback_tags] and [delete_feedback] of [FeedbackService]
    leave the session their namesakes of the router leave.  Where the
    service returns the entry, the router returns its validation as a
    response; where the service returns [True], the router returns its
    message; for a missing id the service raises [NotFoundError] with the id
    in its text where the router raises the HTTP error 404, both answered
    with status 404; any other error is the same in both. *)
Theorem router_and_service_change_alike :
  forall (now : Z) (commit_error refresh_error : option str)
         (feedback_id : Z) (tags : list str) (s : session),
    let missing :=
      NotFoundError (py "Feedback with ID " ++ str_of_int feedback_id
                     ++ py " not found") in
    let not_found := HTTPException 404 (py "Feedback not found") in
    let updated :=
      update_feedback_tags now commit_error refresh_error feedback_id tags s in
    let service_updated :=
      FeedbackService.update_feedback_tags now commit_error refresh_error
        feedback_id tags s in
    let deleted := delete_feedback now commit_error feedback_id s in
    let service_deleted :=
      FeedbackService.delete_feedback now commit_error feedback_id s in
    updated.1 = service_updated.1
    /\ match service_updated.2 with
       | Ok feedback => updated.2 = FeedbackResponse_model_validate feedback
       | Err y =>
           exists x, updated.2 = Err x
             /\ ((x = not_found /\ y = missing) \/ x = y)
       end
    /\ deleted.1 = service_deleted.1
    /\ match service_deleted.2 with
       | Ok done =>
           done = true
           /\ deleted.2 = Ok (py "Feedback deleted successfully")
       | Err y =>
           exists x, deleted.2 = Err x
             /\ ((x = not_found /\ y = missing) \/ x = y)
       end
    /\ status_of (exception_response (A:=FeedbackResponse) missing)
       = status_of (exception_response (A:=FeedbackResponse) not_found).
Proof.
  intros now ce re i tags s missing not_found updated service_updated
    deleted service_deleted.
  subst updated service_updated deleted service_deleted.
  unfold update_feedback_tags, FeedbackService.update_feedback_tags,
    delete_feedback, FeedbackService.delete_feedback,
    FeedbackService.get_feedback_by_id, bind, select_by_id.
  destruct (decide (bindable i (rows s))) as [Hi|Hi].
  2:{ cbn. split; [done|]. split; [eexists; split; [done|by right]|].
      split; [done|]. split; [eexists; split; [done|by right]|done]. }
  destruct (scalar_one_or_none _) as [[f|]|e].
  - unfold db_commit_change. destruct ce as [cmsg|].
    + cbn. split; [done|]. split; [eexists; split; [done|by right]|].
      split; [done|]. split; [eexists; split; [done|by right]|done].
    + cbn [fst snd]. unfold db_refresh. destruct re as [rmsg|].
      * cbn. split; [done|]. split; [eexists; split; [done|by right]|].
        by cbn.
      * destruct (list_find _ _) as [[k x]|].
        -- by cbn.
        -- cbn. split; [done|]. split; [eexists; split; [done|by right]|].
           by cbn.
  - cbn. split; [done|]. split; [eexists; split; [done|by left]|].
    split; [done|]. split; [eexists; split; [done|by left]|done].
  - cbn. split; [done|]. split; [eexists; split; [done|by right]|].
    split; [done|]. split; [eexists; split; [done|by right]|done].
Qed.

End CrudMore.

(** *** An entry from its creation to its deletion *)

Module Lifecycle.
Import Schemas Storage Main Feedback AnalyzeFacts StorageFacts AnalyzeMore.
Import Crud CrudFacts CrudRuns.
Local Open Scope session_scope.

Section Runs.

Variable _analyze_sentiment : str -> str -> result exn AIService.sentiment_result.
Variable _categorize_feedback : str -> str -> result exn AIService.category_result.
Variable sentiment_fails_first : str -> str -> bool.
Variable now : Z.
Variable commit_error : option str.
Variable refresh_error : option str.

Abbreviation analyze :=
  (analyze_feedback _analyze_sentiment _categorize_feedback
     sentiment_fails_first now commit_error refresh_error).

(** A run of the handler that returns a response. *)
Lemma analyze_feedback_ok t0 t1 feedback s s' r :
  analyze t0 t1 feedback s = (s', Ok r) ->
  commit_error = None /\ refresh_error = None
  /\ exists a,
      AIService.sentiment a ∈ SentimentEnum
      /\ s' = saved now s feedback a (duration t0 t1)
      /\ r = to_response (written_row now s feedback a (duration t0 t1)).
Proof.
  unfold analyze_feedback, try_except.
  fold (duration t0 t1).
  change (bind (ai_analyze_feedback _analyze_sentiment _categorize_feedback
                  sentiment_fails_first (FeedbackCreate.text feedback))
            (fun analysis =>
               save now commit_error refresh_error
                 (new_entry feedback analysis (duration t0 t1))))
    with (try_block _analyze_sentiment _categorize_feedback
            sentiment_fails_first now commit_error refresh_error
            t0 t1 feedback).
  pose proof (try_block_run _analyze_sentiment _categorize_feedback
                sentiment_fails_first now commit_error refresh_error
                t0 t1 feedback s) as Hrun.
  cbv zeta in Hrun.
  destruct (AnalyzeFacts.client _analyze_sentiment _categorize_feedback
              sentiment_fails_first (FeedbackCreate.text feedback))
    as [[a|]|e0].
  - destruct commit_error as [cmsg|], refresh_error as [rmsg|];
      try (destruct (try_block _ _ _ _ _ _ _ _ _ s) as [s1 [r1|e1]];
           [done|]; destruct (is_AIServiceError e1); by intros [= _]).
    rewrite Hrun. unfold FeedbackResponse_model_validate.
    cbn [sentiment written_row persist new_entry d_sentiment].
    case_bool_decide as Henum.
    + intros [= <- <-]. split; [done|]. split; [done|]. by exists a.
    + destruct (is_AIServiceError _); by intros [= _].
  - destruct (try_block _ _ _ _ _ _ _ _ _ s) as [s1 [r1|e1]]; [done|].
    destruct (is_AIServiceError e1); by intros [= _].
  - destruct (try_block _ _ _ _ _ _ _ _ _ s) as [s1 [r1|e1]]; [done|].
    destruct (is_AIServiceError e1); by intros [= _].
Qed.

(** The table after any run of the handler: as it was, or with the pending
    objects and the new entry written. *)
Lemma analyze_feedback_rows t0 t1 feedback s :
  rows (analyze t0 t1 feedback s).1 = rows s
  \/ exists d,
      rows (analyze t0 t1 feedback s).1
      = rows s ++ flush now (next_id (rows s)) (new s ++ [d]).
Proof.
  destruct (analyze t0 t1 feedback s) as [s' [r|e]] eqn:Hrun; cbn [fst].
  - apply analyze_feedback_ok in Hrun as (_ & _ & a & _ & -> & _).
    right. by eexists.
  - apply analyze_feedback_failure in Hrun
      as [(msg & _ & _ & ->)|(a & _ & _ & [[_ ->]|[_ ->]])].
    + by left.
    + by left.
    + right. by eexists.
Qed.

Lemma filter_written_row s d :
  let obj := persist now (next_id (rows s) + Z.of_nat (length (new s))) d in
  filter (fun e => id e = id obj)
    (rows s ++ flush now (next_id (rows s)) (new s ++ [d]))
  = [obj].
Proof.
  intros obj. rewrite flush_snoc, !filter_app. fold obj.
  rewrite (filter_id_none (rows s)).
  - rewrite filter_id_none.
    + rewrite filter_cons_True by done. by rewrite filter_nil.
    + intros e (k & d' & Hk & ->)%flush_elem. subst obj. simpl.
      apply lookup_lt_Some in Hk. lia.
  - intros e He%next_id_fresh. subst obj. simpl. lia.
Qed.

Lemma written_row_bindable s d :
  let obj := persist now (next_id (rows s) + Z.of_nat (length (new s))) d in
  bindable (id obj) (rows s ++ flush now (next_id (rows s)) (new s ++ [d])).
Proof.
  intros obj. right. apply list_elem_of_fmap. exists obj. split; [done|].
  pose proof (filter_written_row s d) as Hone. cbv zeta in Hone. fold obj in Hone.
  assert (obj ∈ filter (fun e => id e = id obj)
                  (rows s ++ flush now (next_id (rows s)) (new s ++ [d])))
    as Hin by (rewrite Hone; by left).
  by apply list_elem_of_filter in Hin as [_ ?].
Qed.

End Runs.

End Lifecycle.

Module LifecycleMore.
Import Schemas Storage Main Feedback AnalyzeFacts StorageFacts AnalyzeMore.
Import Crud CrudFacts CrudRuns Lifecycle.
Local Open Scope session_scope.

(** The gateway answers for every model. *)
Definition sentiment_answer (text model : str)
  : result exn AIService.sentiment_result :=
  Ok (AIService.SentimentResult (py "positive") (9 # 10)
        (py "Praises the delivery")).

Definition category_answer (text model : str)
  : result exn AIService.category_result :=
  Ok (AIService.CategoryResult (py "Delivery") (8 # 10)
        (py "Is about shipping")).

Definition fast_shipping : FeedbackCreate.t :=
  FeedbackCreate.Make (py "Fast shipping") [py "shipping"].

Definition one_entry : session :=
  MkSession
    [MkFeedbackEntry 4 (py "Helpful support") (py "positive") (90 # 100)
       (py "Customer Service") (80 # 100) [py "support"] 1700000000 100
       (py "qwen/qwen3-235b-a22b-07-25:free")]
    [] [].


(** X20. The primary keys of the table stay distinct through every run,
    successful or not, of [analyze_feedback], [update_feedback_tags] and
    [delete_feedback] of the router. *)
Theorem primary_keys_stay_distinct :
  forall _analyze_sentiment _categorize_feedback sentiment_fails_first
         (now : Z) (commit_error refresh_error : option str)
         (start_time end_time : Q) (feedback : FeedbackCreate.t)
         (feedback_id : Z) (tags : list str) (s : session),
    NoDup (id <$> rows s) ->
    NoDup (id <$> rows (analyze_feedback _analyze_sentiment
                          _categorize_feedback sentiment_fails_first now
                          commit_error refresh_error start_time end_time
                          feedback s).1)
    /\ NoDup (id <$> rows (update_feedback_tags now commit_error
                             refresh_error feedback_id tags s).1)
    /\ NoDup (id <$> rows (delete_feedback now commit_error feedback_id s).1).
Proof.
  intros sent cat sff now ce re t0 t1 feedback i tags s Hnd.
  split; [|split].
  - destruct (analyze_feedback_rows sent cat sff now ce re t0 t1 feedback s)
      as [->|[d ->]]; [done|by apply flush_keeps_keys].
  - unfold update_feedback_tags, bind, select_by_id.
    destruct (decide (bindable i (rows s))) as [Hi|Hi]; [|done].
    destruct (scalar_one_or_none _) as [[f|]|e]; [|done|done].
    unfold db_commit_change. destruct ce as [cmsg|]; [done|].
    cbn [fst snd]. unfold db_refresh, log_op.
    assert (NoDup (id <$> apply_change (Dirty (with_tags f tags))
                            (rows s ++ flush now (next_id (rows s)) (new s))))
      as Hupd by (rewrite update_ids; by apply flush_keeps_keys).
    destruct re as [rmsg|]; [done|].
    cbn [rows]. by destruct (list_find _ _) as [[k x]|].
  - unfold delete_feedback, bind, select_by_id.
    destruct (decide (bindable i (rows s))) as [Hi|Hi]; [|done].
    destruct (scalar_one_or_none _) as [[f|]|e]; [|done|done].
    unfold db_commit_change. destruct ce as [cmsg|]; [done|].
    cbn [fst snd rows].
    eapply sublist_NoDup; [by apply (flush_keeps_keys now (rows s) (new s))|].
    apply fmap_sublist, delete_sublist.
Qed.

Lemma primary_keys_stay_distinct_witness :
  NoDup (id <$> rows (analyze_feedback sentiment_answer category_answer
                        (fun _ _ => false) 1700000900 None None 0%Q (1 # 4)
                        fast_shipping one_entry).1)
  /\ NoDup (id <$> rows (delete_feedback 1700000900 None 4 one_entry).1).
Proof.
  assert (NoDup (id <$> rows one_entry)) as Hnd
    by (vm_compute; apply NoDup_singleton).
  destruct (primary_keys_stay_distinct sentiment_answer category_answer
              (fun _ _ => false) 1700000900 None None 0%Q (1 # 4)
              fast_shipping 4 [] one_entry Hnd) as (Ha & _ & Hd).
  split; [exact Ha|exact Hd].
Defined.

(** X21. An entry that [analyze_feedback] has just created can be read:
    [get_feedback] with the id of the response returns the same response,
    and leaves the session as the creation left it. *)
Theorem created_entry_can_be_read :
  forall _analyze_sentiment _categorize_feedback sentiment_fails_first
         (now : Z) (commit_error refresh_error : option str)
         (start_time end_time : Q) (feedback : FeedbackCreate.t)
         (s s' : session) (r : FeedbackResponse),
    analyze_feedback _analyze_sentiment _categorize_feedback
      sentiment_fails_first now commit_error refresh_error
      start_time end_time feedback s = (s', Ok r) ->
    get_feedback (r_id r) s' = (s', Ok r).
Proof.
  intros sent cat sff now ce re t0 t1 feedback s s' r Hrun.
  apply analyze_feedback_ok in Hrun as (_ & _ & a & Hin & -> & ->).
  unfold get_feedback, bind, select_by_id, saved, written_row.
  cbn [rows r_id to_response].
  pose proof (filter_written_row now s (new_entry feedback a (duration t0 t1)))
    as Hone.
  pose proof (written_row_bindable now s
                (new_entry feedback a (duration t0 t1))) as Hbind.
  cbv zeta in Hone, Hbind. cbn [persist id] in Hone, Hbind |- *.
  rewrite decide_True by done. rewrite Hone.
  cbn [scalar_one_or_none lift]. by rewrite model_validate_valid.
Qed.

Lemma created_entry_can_be_read_witness :
  exists s' r,
    analyze_feedback sentiment_answer category_answer (fun _ _ => false)
      1700000900 None None 0%Q (1 # 4) fast_shipping one_entry = (s', Ok r)
    /\ r_id r = 5
    /\ get_feedback (r_id r) s' = (s', Ok r).
Proof.
  eexists _, _. split; [by vm_compute|]. split; [reflexivity|].
  apply (created_entry_can_be_read sentiment_answer category_answer
           (fun _ _ => false) 1700000900 None None 0%Q (1 # 4)
           fast_shipping one_entry).
  by vm_compute.
Defined.

(** X22. With nothing else pending, deleting the entry that
    [analyze_feedback] has just created gives back the table as it was
    before the creation. *)
Theorem created_entry_can_be_deleted :
  forall _analyze_sentiment _categorize_feedback sentiment_fails_first
         (now : Z) (commit_error refresh_error : option str)
         (start_time end_time : Q) (feedback : FeedbackCreate.t)
         (s s' : session) (r : FeedbackResponse),
    new s = [] ->
    analyze_feedback _analyze_sentiment _categorize_feedback
      sentiment_fails_first now commit_error refresh_error
      start_time end_time feedback s = (s', Ok r) ->
    (delete_feedback now commit_error (r_id r) s').2
    = Ok (py "Feedback deleted successfully")
    /\ rows (delete_feedback now commit_error (r_id r) s').1 = rows s.
Proof.
  intros sent cat sff now ce re t0 t1 feedback s s' r Hnew Hrun.
  apply analyze_feedback_ok in Hrun as (-> & _ & a & Hin & -> & ->).
  unfold delete_feedback, bind, select_by_id, saved, written_row.
  cbn [rows r_id to_response].
  pose proof (filter_written_row now s (new_entry feedback a (duration t0 t1)))
    as Hone.
  pose proof (written_row_bindable now s
                (new_entry feedback a (duration t0 t1))) as Hbind.
  cbv zeta in Hone, Hbind. cbn [persist id] in Hone, Hbind |- *.
  rewrite decide_True by done. rewrite Hone.
  cbn [scalar_one_or_none]. unfold db_commit_change.
  cbn [rows new flush fst snd ret apply_change id].
  split; [done|].
  rewrite Hnew, app_nil_r. cbn [app flush length].
  rewrite filter_app, filter_id_all.
  - rewrite filter_cons_False, filter_nil; [by rewrite app_nil_r|].
    cbn [persist id]. intros Hne. apply Hne. lia.
  - intros e He%next_id_fresh. cbn [persist id]. lia.
Qed.

Lemma created_entry_can_be_deleted_witness :
  exists s' r,
    analyze_feedback sentiment_answer category_answer (fun _ _ => false)
      1700000900 None None 0%Q (1 # 4) fast_shipping one_entry = (s', Ok r)
    /\ rows (delete_feedback 1700000900 None (r_id r) s').1 = rows one_entry.
Proof.
  eexists _, _. split; [by vm_compute|].
  apply (created_entry_can_be_deleted sentiment_answer category_answer
           (fun _ _ => false) 1700000900 None None 0%Q (1 # 4)
           fast_shipping one_entry); [reflexivity|by vm_compute].
Defined.


(** X28. A client of [POST /api/feedback/analyze] is answered with status
    200, 422, 503 or 500.  The status is 422 exactly when the body fails its
    validation, and then the session is untouched; with 503 the table is as
    it was and nothing is left pending; with 200 the table has grown by the
    pending objects and the one new entry. *)
Theorem post_analyze_statuses :
  forall _analyze_sentiment _categorize_feedback sentiment_fails_first
         (now : Z) (commit_error refresh_error : option str)
         (list_of_set : list str -> list str)
         (start_time end_time : Q) (b : FeedbackCreate.body) (s : session),
    let answer :=
      post_analyze _analyze_sentiment _categorize_feedback
        sentiment_fails_first now commit_error refresh_error list_of_set
        start_time end_time b s in
    status_of answer.2 ∈ [200; 422; 503; 500]
    /\ (status_of answer.2 = 422
        <-> is_ok (FeedbackCreate.model_validate list_of_set b) = false)
    /\ (status_of answer.2 = 422 -> answer.1 = s)
    /\ (status_of answer.2 = 503 ->
        rows answer.1 = rows s /\ new answer.1 = [])
    /\ (status_of answer.2 = 200 ->
        length (rows answer.1)
        = (length (rows s) + length (new s) + 1)%nat
        /\ new answer.1 = []).
Proof.
  intros sent cat sff now ce re list_of_set t0 t1 b s answer. subst answer.
  unfold post_analyze.
  destruct (FeedbackCreate.model_validate list_of_set b) as [feedback|msg].
  2:{ cbn. split; [by right; left|]. done. }
  destruct (analyze_feedback sent cat sff now ce re t0 t1 feedback s)
    as [s' [r|e]] eqn:Hrun.
  - apply analyze_feedback_ok in Hrun as (_ & _ & a & _ & -> & _).
    cbn. split; [by left|]. split; [done|]. split; [done|].
    split; [done|]. intros _. split; [|done].
    rewrite length_app, flush_length, length_app. cbn. lia.
  - apply analyze_feedback_failure in Hrun
      as [(m & _ & -> & ->)|(a & _ & -> & _)].
    + cbn. split; [by right; right; left|]. done.
    + cbn. split; [by right; right; right; left|]. done.
Qed.

End LifecycleMore.

(** ** The aggregates of the statistics, row by row *)

Module AnalyticsRuns.
Import Schemas Storage Dates Analytics AnalyticsFacts.

(** The rows of a [GROUP BY] with a count: one for each key present. *)
Lemma counted_groups {A} (key : A -> str) (l : list A) :
  (fun g : str * list A => (g.1, count g.2)) <$> group_by key l
  = (fun k => (k, count (filter (fun a => key a = k) l)))
      <$> remove_dups (key <$> l).
Proof. unfold group_by. by rewrite <- list_fmap_compose. Qed.

Lemma counted_groups_keys {A} (key : A -> str) (l : list A) :
  ((fun g : str * list A => (g.1, count g.2)) <$> group_by key l).*1
  = remove_dups (key <$> l).
Proof.
  rewrite counted_groups, <- list_fmap_compose.
  rewrite <- (list_fmap_id (remove_dups (key <$> l))) at 2.
  by apply list_fmap_ext.
Qed.

Lemma counted_groups_lookup {A} (key : A -> str) (l : list A) k :
  (list_to_map ((fun g : str * list A => (g.1, count g.2))
                  <$> group_by key l) : gmap str Z) !! k
  = if decide (k ∈ key <$> l)
    then Some (count (filter (fun a => key a = k) l))
    else None.
Proof.
  case_decide as Hk.
  - apply elem_of_list_to_map_1.
    + rewrite counted_groups_keys. apply NoDup_remove_dups.
    + rewrite counted_groups. apply list_elem_of_fmap.
      exists k. split; [done|]. by apply elem_of_remove_dups.
  - apply not_elem_of_list_to_map_1. rewrite counted_groups_keys.
    by rewrite elem_of_remove_dups.
Qed.

Lemma count_absent {A} (key : A -> str) (l : list A) k :
  k ∉ key <$> l -> count (filter (fun a => key a = k) l) = 0.
Proof.
  intros Hk. unfold count.
  replace (filter (fun a => key a = k) l) with (@nil A); [done|].
  symmetry. induction l as [|x l IH]; [done|].
  rewrite fmap_cons, not_elem_of_cons in Hk. destruct Hk as [Hx Hk].
  rewrite filter_cons_False by done. by apply IH.
Qed.

(** A dictionary updated with rows of distinct keys. *)
Lemma updated_lookup (rows : list (str * Z)) :
  NoDup rows.*1 ->
  forall (d : gmap str Z) k,
    foldl (fun (d : gmap str Z) (row : str * Z) => <[row.1 := row.2]> d)
          d rows !! k
    = match (list_to_map rows : gmap str Z) !! k with
      | Some v => Some v
      | None => d !! k
      end.
Proof.
  induction rows as [|[k0 v0] rows IH]; intros Hnd d k; [done|].
  rewrite fmap_cons in Hnd. apply NoDup_cons in Hnd as [Hk0 Hnd].
  cbn [foldl fst snd list_to_map foldr]. rewrite (IH Hnd).
  destruct (decide (k = k0)) as [->|Hne].
  - rewrite (not_elem_of_list_to_map_1 rows k0 Hk0).
    by rewrite !lookup_insert_eq.
  - by rewrite !lookup_insert_ne.
Qed.

(** The same with the guard of the service: only the keys of the
    dictionary are updated. *)
Lemma guarded_lookup (rows : list (str * Z)) :
  NoDup rows.*1 ->
  forall (d : gmap str Z) k,
    foldl (fun (d : gmap str Z) (row : str * Z) =>
             if decide (is_Some (d !! row.1))
             then <[row.1 := row.2]> d else d)
          d rows !! k
    = match d !! k with
      | Some v => Some (default v ((list_to_map rows : gmap str Z) !! k))
      | None => None
      end.
Proof.
  induction rows as [|[k0 v0] rows IH]; intros Hnd d k.
  - cbn. by destruct (d !! k).
  - rewrite fmap_cons in Hnd. apply NoDup_cons in Hnd as [Hk0 Hnd].
    cbn [foldl fst snd list_to_map foldr]. rewrite (IH Hnd).
    destruct (decide (k = k0)) as [->|Hne].
    + rewrite (not_elem_of_list_to_map_1 rows k0 Hk0).
      rewrite lookup_insert_eq.
      case_decide as Hsome.
      * rewrite lookup_insert_eq. by destruct Hsome as [v ->].
      * destruct (d !! k0) as [v|] eqn:E; [|done].
        exfalso. apply Hsome. by eexists.
    + rewrite (lookup_insert_ne (list_to_map rows)) by done.
      case_decide; [by rewrite lookup_insert_ne|done].
Qed.

Lemma zero_distribution_lookup k :
  zero_distribution !! k = if decide (k ∈ SentimentEnum) then Some 0 else None.
Proof.
  unfold zero_distribution, SentimentEnum.
  destruct (decide (k = py "negative")) as [->|Hneg]; [done|].
  rewrite lookup_insert_ne by done.
  destruct (decide (k = py "neutral")) as [->|Hneu]; [done|].
  rewrite lookup_insert_ne by done.
  destruct (decide (k = py "positive")) as [->|Hpos]; [done|].
  rewrite lookup_insert_ne by done. rewrite lookup_empty.
  rewrite decide_False; [done|].
  intros Hin. repeat (apply elem_of_cons in Hin as [?|Hin]; [done|]).
  by apply elem_of_nil in Hin.
Qed.

End AnalyticsRuns.

Module AnalyticsMore.
Import Schemas Storage Dates Analytics AnalyticsFacts ExactSql AnalyticsRuns.

(** Four entries, one of them with a sentiment that is not one of the three
    values. *)
Definition four_entries : list FeedbackEntry :=
  [ MkFeedbackEntry 1 (py "Great quality") (py "positive") (95 # 100)
      (py "Product Quality") (88 # 100) [py "product"] 1704132000 120
      (py "qwen/qwen3-235b-a22b-07-25:free");
    MkFeedbackEntry 2 (py "The parcel came late") (py "negative") (90 # 100)
      (py "Delivery") (80 # 100) [py "shipping"] 1704218400 130
      (py "qwen/qwen3-235b-a22b-07-25:free");
    MkFeedbackEntry 3 (py "Fine") (py "positive") (60 # 100)
      (py "Product Quality") (70 # 100) [] 1704304800 110
      (py "qwen/qwen3-235b-a22b-07-25:free");
    MkFeedbackEntry 4 (py "Hard to say") (py "mixed") (50 # 100)
      (py "Pricing") (40 # 100) [] 1704391200 90
      (py "qwen/qwen3-235b-a22b-07-25:free") ].

(** X23. [get_sentiment_distribution] of the service returns a dictionary
    with the three sentiments as its only keys, each with the number of
    entries of that sentiment; entries with another sentiment are not
    counted, while the handler of [GET /api/stats] adds a key for each such
    sentiment. *)
Theorem sentiment_distribution_counts :
  forall (sql_avg : list Q -> option Q) (round2 : Q -> Q)
         (order_by_count_desc : list category_row -> list category_row)
         (utcnow : nat -> Z) (table : list FeedbackEntry) (k : str),
    let occurrences :=
      count (filter (fun e => sentiment e = k) table) in
    get_sentiment_distribution table !! k
    = (if decide (k ∈ SentimentEnum) then Some occurrences else None)
    /\ sentiment_distribution
         (get_statistics sql_avg round2 order_by_count_desc utcnow table) !! k
       = (if decide (k ∈ sentiment <$> table) then Some occurrences
          else if decide (k ∈ SentimentEnum) then Some 0 else None).
Proof.
  intros sql_avg round2 order utcnow table k occurrences. subst occurrences.
  split.
  - unfold get_sentiment_distribution, sentiment_query.
    rewrite guarded_lookup
      by (rewrite counted_groups_keys; apply NoDup_remove_dups).
    rewrite zero_distribution_lookup. case_decide; [|done].
    rewrite counted_groups_lookup. case_decide; [done|].
    cbn [default]. by rewrite count_absent.
  - unfold get_statistics, sentiment_query. cbn [sentiment_distribution].
    rewrite updated_lookup
      by (rewrite counted_groups_keys; apply NoDup_remove_dups).
    rewrite counted_groups_lookup. case_decide; [done|].
    apply zero_distribution_lookup.
Qed.

(** X24. When every entry carries one of the three sentiments, the three
    counts of [get_sentiment_distribution] add up to
    [get_total_feedback_count]. *)
Theorem sentiment_distribution_adds_up :
  forall (table : list FeedbackEntry),
    Forall (fun e => sentiment e ∈ SentimentEnum) table ->
    exists positive neutral negative,
      get_sentiment_distribution table !! py "positive" = Some positive
      /\ get_sentiment_distribution table !! py "neutral" = Some neutral
      /\ get_sentiment_distribution table !! py "negative" = Some negative
      /\ positive + neutral + negative = get_total_feedback_count table.
Proof.
  intros table Hinv.
  assert (forall k, k ∈ SentimentEnum ->
            get_sentiment_distribution table !! k
            = Some (count (filter (fun e => sentiment e = k) table)))
    as Hlookup.
  { intros k Hk. unfold get_sentiment_distribution, sentiment_query.
    rewrite guarded_lookup
      by (rewrite counted_groups_keys; apply NoDup_remove_dups).
    rewrite zero_distribution_lookup, decide_True by done.
    rewrite counted_groups_lookup. case_decide; [done|].
    cbn [default]. by rewrite count_absent. }
  eexists _, _, _.
  split; [apply Hlookup; by left|].
  split; [apply Hlookup; by right; left|].
  split; [apply Hlookup; by right; right; left|].
  clear Hlookup. unfold get_total_feedback_count, total_query, count.
  induction Hinv as [|e table He Hinv IH]; [done|].
  rewrite !filter_cons. cbn [length].
  unfold SentimentEnum in He.
  repeat (apply elem_of_cons in He as [->|He];
          [repeat case_decide; try done; cbn [length]; lia|]).
  by apply elem_of_nil in He.
Qed.

Lemma sentiment_distribution_adds_up_witness :
  exists positive neutral negative,
    get_sentiment_distribution (take 3 four_entries) !! py "positive"
    = Some positive
    /\ get_sentiment_distribution (take 3 four_entries) !! py "neutral"
       = Some neutral
    /\ get_sentiment_distribution (take 3 four_entries) !! py "negative"
       = Some negative
    /\ positive + neutral + negative
       = get_total_feedback_count (take 3 four_entries).
Proof.
  apply (sentiment_distribution_adds_up (take 3 four_entries)).
  unfold four_entries. cbn [take].
  apply Forall_cons. split; [by left|].
  apply Forall_cons. split; [by right; right; left|].
  apply Forall_cons. split; [by left|].
  apply Forall_nil_2.
Defined.


#[local] Instance more_first_trans : Transitive more_first.
Proof. intros a b c. unfold more_first. lia. Qed.

#[local] Instance more_first_total : Total more_first.
Proof. intros a b. unfold more_first. lia. Qed.






(** X27. On an empty table, with an average that is NULL for no value and
    an order that returns no row for no row, the handler of [GET /api/stats]
    returns the total 0, the count 0 for each of the three sentiments, no
    category, the value 0 for every date of the recent activity, and the
    float 0.0 for each of the four average confidences, where
    [get_average_confidence_scores] of the service returns the integer 0. *)
Theorem statistics_of_empty_table :
  forall (sql_avg : list Q -> option Q) (round2 : Q -> Q)
         (order_by_count_desc : list category_row -> list category_row)
         (utcnow : nat -> Z),
    sql_avg [] = None -> order_by_count_desc [] = [] ->
    let stats :=
      get_statistics sql_avg round2 order_by_count_desc utcnow [] in
    total_feedback stats = 0
    /\ sentiment_distribution stats = zero_distribution
    /\ top_categories stats = []
    /\ (forall k v, recent_activity stats !! k = Some v -> v = 0)
    /\ (forall k,
          k ∈ [py "sentiment_positive"; py "sentiment_neutral";
               py "sentiment_negative"; py "category"] ->
          average_confidence stats !! k = Some (PyFloat 0)
          /\ get_average_confidence_scores sql_avg round2 [] !! k
             = Some (PyInt 0))
    /\ size (average_confidence stats) = 4%nat.
Proof.
  intros sql_avg round2 order utcnow Havg Horder stats. subst stats.
  unfold get_statistics.
  cbn [total_feedback sentiment_distribution top_categories recent_activity
       average_confidence].
  split; [done|]. split; [done|].
  split.
  { unfold category_query, group_by. cbn. rewrite Horder.
    by rewrite take_nil. }
  split.
  { intros k v. rewrite activity_of_lookup.
    unfold daily_query, group_by. cbn. rewrite lookup_empty.
    case_decide; [by intros [= <-]|done]. }
  unfold get_average_confidence_scores, confidence_query, confidence_of.
  cbn. rewrite Havg. cbn.
  split; [|by vm_compute].
  intros k Hk.
  repeat (apply elem_of_cons in Hk as [->|Hk]; [split; by vm_compute|]).
  by apply elem_of_nil in Hk.
Qed.

Lemma statistics_of_empty_table_witness :
  total_feedback
    (get_statistics exact_avg exact_round2 ExactSql.order_by_count_desc
       (fun _ => 1704715200) [])
  = 0
  /\ top_categories
       (get_statistics exact_avg exact_round2 ExactSql.order_by_count_desc
          (fun _ => 1704715200) [])
     = [].
Proof.
  destruct (statistics_of_empty_table exact_avg exact_round2
              ExactSql.order_by_count_desc (fun _ => 1704715200)
              eq_refl eq_refl) as (Ht & _ & Hc & _).
  split; [exact Ht|exact Hc].
Defined.

End AnalyticsMore.
